(** * Gobblet Gobblers room server: rules engine and room state machine

    A shallow embedding of the three server variants of the repository
    ([src/server.js], [src/unnamed/part_000], [src/unnamed/part_001]) and the
    properties of the specification that are about them.

    Conventions of the embedding.
    - JavaScript [null]/[undefined] is [None]; a value used as a condition is
      truthy exactly when it is [Some _].
    - Arrays are lists: [arr.at(-1)] is [last], [push] appends at the end,
      [pop] removes the last element, [shift] removes the head.
    - Reading [board[r][c]] with an index that is not a position of the array
      yields [undefined], and the method call or property read that follows
      throws a TypeError; a function that can throw it returns [option], with
      [None] for the thrown TypeError.
    - [io.sockets.sockets] is a finite map from socket id to the socket's
      [data] object; an id that is not a key is a connection that is gone.
    - Every [emit] is appended to a log carried by the state; the sanitized
      snapshot that start/update/game-over events carry is a function of the
      room at that moment and is left out of the event.
    - The piece/player [color] (fixed by the slot) plays no part in the state
      machine and is left out; the chat log is kept apart from the room, in
      module [Chat]. *)

From stdpp Require Import numbers strings list gmap.

Local Open Scope Z_scope.

(* ===================================================================== *)
(** * Data model shared by the variants *)
(* ===================================================================== *)

Inductive Slot := A | B.

(** The [size] of a payload or of a piece, as the key the code uses it for
    in [SIZE_VAL[size]] and [pieces[size]]: one of the three names, or
    [other_size] for any value that is none of them (the handlers take the
    size of a payload as it comes and never validate it). *)
Inductive Size := small | medium | large | other_size.

#[global] Instance Slot_eq_dec : EqDecision Slot.
Proof. solve_decision. Defined.
#[global] Instance Size_eq_dec : EqDecision Size.
Proof. solve_decision. Defined.

(** [{owner, size}]: a piece on the board. *)
Record Piece := { owner : Slot; size : Size }.

#[global] Instance Piece_eq_dec : EqDecision Piece.
Proof. solve_decision. Defined.

(** The board is an array of rows, a row an array of cells, a cell a stack of
    pieces whose last element is the visible top. *)
Abbreviation Board := (list (list (list Piece))).

(** [[[[],[],[]],[[],[],[]],[[],[],[]]]] *)
Definition empty_board : Board :=
  [ [ []; []; [] ]; [ []; []; [] ]; [ []; []; [] ] ].

(** [const SIZE_VAL = { small:1, medium:2, large:3 }]; [SIZE_VAL[size]] is
    [undefined] ([None]) for any other key. *)
Definition SIZE_VAL (s : Size) : option Z :=
  match s with
  | small => Some 1 | medium => Some 2 | large => Some 3
  | other_size => None
  end.

(** [a > b] on values that may be [undefined]: false as soon as one is. *)
Definition gt (a b : option Z) : Prop :=
  match a, b with
  | Some x, Some y => x > y
  | _, _ => False
  end.

#[global] Instance gt_dec a b : Decision (gt a b).
Proof. destruct a, b; simpl; apply _. Defined.

(** [board[r][c]]; [None] when [r] or [c] is not an index of its array. *)
Definition cell (board : Board) (r c : nat) : option (list Piece) :=
  row ← board !! r; row !! c.

(** [board[r][c]] for the constant indices of the line table.  Every board a
    room ever holds is the 3x3 literal with cells pushed and popped
    ([board_ok] below, kept by every handler), so these reads never miss; a
    missing cell reads as an empty stack here. *)
Definition stack_at (board : Board) (r c : nat) : list Piece :=
  default [] (cell board r c).

(** [board[r][c] = st] (the effect of [push]/[pop] on that cell). *)
Definition set_cell (board : Board) (r c : nat) (st : list Piece) : Board :=
  match board !! r with
  | Some row => <[r := <[c := st]> row]> board
  | None => board
  end.

(** Shape of every board the servers build. *)
Definition board_ok (board : Board) : Prop :=
  length board = 3%nat ∧ Forall (λ row, length row = 3%nat) board.

(** The other slot: [s === "A" ? "B" : "A"]. *)
Definition other_slot (s : Slot) : Slot :=
  match s with A => B | B => A end.

(** [socket.data.playerSlot]: ["A"], ["B"] or ["spectator"]. *)
Inductive Role := player (s : Slot) | spectator.

#[global] Instance Role_eq_dec : EqDecision Role.
Proof. solve_decision. Defined.

(** [pieces: {small, medium, large}], JavaScript numbers. *)
Record Hand := { n_small : Z; n_medium : Z; n_large : Z }.

(** [{small:2, medium:2, large:2}] *)
Definition full_hand : Hand := {| n_small := 2; n_medium := 2; n_large := 2 |}.

(** [pieces[size]]: a count for the three names; for any other key
    [undefined], or [NaN] once [pieces[size]--] has run on it, neither of
    which is a number ([None]). *)
Definition hand_get (h : Hand) (s : Size) : option Z :=
  match s with
  | small => Some (n_small h) | medium => Some (n_medium h) | large => Some (n_large h)
  | other_size => None
  end.

(** [pieces[size] <= 0], false when [pieces[size]] is not a number. *)
Definition none_left (h : Hand) (s : Size) : bool :=
  match hand_get h s with
  | Some n => bool_decide (n ≤ 0)
  | None => false
  end.

(** [pieces[size]--]; on a key that is none of the three names it leaves the
    three counts alone (it stores [NaN] under that key, which nothing reads
    as a number). *)
Definition hand_dec (h : Hand) (s : Size) : Hand :=
  match s with
  | small => {| n_small := n_small h - 1; n_medium := n_medium h; n_large := n_large h |}
  | medium => {| n_small := n_small h; n_medium := n_medium h - 1; n_large := n_large h |}
  | large => {| n_small := n_small h; n_medium := n_medium h; n_large := n_large h - 1 |}
  | other_size => h
  end.

Definition hand_total (h : Hand) : Z := n_small h + n_medium h + n_large h.

(** A seated player: [{id, name, pieces}]. *)
Record Player := { id : string; name : string; pieces : Hand }.

Definition with_pieces (h : Hand) (p : Player) : Player :=
  {| id := id p; name := name p; pieces := h |}.

(** [players: {A, B}] *)
Record Players := { pl_A : option Player; pl_B : option Player }.

(** [players[slot]] *)
Definition seat (ps : Players) (s : Slot) : option Player :=
  match s with A => pl_A ps | B => pl_B ps end.

(** [players[slot] = v] *)
Definition set_seat (ps : Players) (s : Slot) (v : option Player) : Players :=
  match s with
  | A => {| pl_A := v; pl_B := pl_B ps |}
  | B => {| pl_A := pl_A ps; pl_B := v |}
  end.

Definition no_players : Players := {| pl_A := None; pl_B := None |}.

(** A pair of per-slot values [{A, B}] (post-game decisions). *)
Record PerSlot (T : Type) := { at_A : T; at_B : T }.
Arguments at_A {T} _.
Arguments at_B {T} _.
Arguments Build_PerSlot {T} _ _.

Definition per_slot {T} (d : PerSlot T) (s : Slot) : T :=
  match s with A => at_A d | B => at_B d end.

Definition set_per_slot {T} (d : PerSlot T) (s : Slot) (v : T) : PerSlot T :=
  match s with
  | A => {| at_A := v; at_B := at_B d |}
  | B => {| at_A := at_A d; at_B := v |}
  end.

(** The payload of [place_piece]: [{action, size, to}] or [{action, from, to}];
    coordinates are [{r, c}].  [other_action] is a payload with any other
    [action] tag and no [from] and [to]; [other_action_on] is a payload with
    any other [action] tag that carries [from] and [to]. *)
Inductive Payload :=
  | place_from_hand (size : Size) (to : nat * nat)
  | move_on_board (from to : nat * nat)
  | other_action
  | other_action_on (from to : nat * nat).



(** A payload whose [action] is neither ["place_from_hand"] nor
    ["move_on_board"]. *)
Definition unrecognised (p : Payload) : Prop :=
  match p with
  | other_action | other_action_on _ _ => True
  | _ => False
  end.

(** Reasons carried by an error acknowledgment. *)
Inductive Reason :=
  | r_spectator | r_not_started | r_game_over | r_not_your_turn
  | r_no_piece | r_illegal | r_empty | r_not_yours
  | r_type_error   (* the message of a TypeError *)
  | r_invalid.     (* server.js answers every exception with "invalid" *)

(** [ack({ok:true, ...})] or [ack({error: reason})]. *)
Inductive Ack := ack_ok | ack_error (why : Reason).

(** Number of pieces of [s] in a cell, at any depth, and on the whole board. *)
Definition owned_in (s : Slot) (st : list Piece) : nat :=
  length (filter (λ p, owner p = s) st).

Definition on_board (s : Slot) (board : Board) : nat :=
  sum_list ((λ row, sum_list (owned_in s <$> row)) <$> board).

(** The quantity of the hand-conservation property for slot [s]: pieces in the
    hand of the player seated at [s] plus pieces of [s] on the board. *)
Definition pieces_of (s : Slot) (ps : Players) (board : Board) : option Z :=
  p ← seat ps s; Some (hand_total (pieces p) + Z.of_nat (on_board s board)).

(** The spec's reading of a winning line: all cells non-empty, every top piece
    owned by [o]. *)
Definition wins (board : Board) (line : list (nat * nat)) (o : Slot) : Prop :=
  ∀ r c, (r, c) ∈ line →
    ∃ st top, cell board r c = Some st ∧ last st = Some top ∧ owner top = o.

(** The spec's reading of placement legality on a stack. *)
Definition legal_on (st : list Piece) (sz : Size) : Prop :=
  st = [] ∨ ∃ top, last st = Some top ∧ gt (SIZE_VAL sz) (SIZE_VAL (size top)).

(** The 8 lines in the order of the spec: rows, columns, diagonals. *)
Definition rows : list (list (nat * nat)) :=
  [ [(0,0);(0,1);(0,2)]; [(1,0);(1,1);(1,2)]; [(2,0);(2,1);(2,2)] ]%nat.
Definition cols : list (list (nat * nat)) :=
  [ [(0,0);(1,0);(2,0)]; [(0,1);(1,1);(2,1)]; [(0,2);(1,2);(2,2)] ]%nat.
Definition diags : list (list (nat * nat)) :=
  [ [(0,0);(1,1);(2,2)]; [(0,2);(1,1);(2,0)] ]%nat.

(** The sufficiency condition of post-game resolution: every occupied slot
    has a stored decision (an empty slot needs none). *)
Definition sufficient {D} (ps : Players) (d : PerSlot (option D)) : Prop :=
  ∀ s, is_Some (seat ps s) → is_Some (per_slot d s).

(** [check] returns the owner of the first line of [table] that wins, in
    table order, and [None] when no line of [table] wins. *)
Definition returns_first_winner
    (check : Board → option Slot) (table : list (list (nat * nat))) (board : Board) : Prop :=
  (∀ o, check board = Some o ↔
     ∃ i line, table !! i = Some line ∧ wins board line o ∧
       ∀ j line' o', (j < i)%nat → table !! j = Some line' → ¬ wins board line' o') ∧
  (check board = None ↔ ∀ line o, line ∈ table → ¬ wins board line o).

(** A board on which row 0 is B's and row 1 is A's, all nine cells in place. *)
Definition two_rows_board : Board :=
  [ [ [{| owner := B; size := small |}]; [{| owner := B; size := small |}];
      [{| owner := A; size := small |}; {| owner := B; size := medium |}] ];
    [ [{| owner := A; size := medium |}]; [{| owner := A; size := large |}];
      [{| owner := A; size := large |}] ];
    [ []; []; [] ] ].

(** A board whose cell (0,0) holds a small piece under a medium one. *)
Definition stacked_board : Board :=
  [ [ [{| owner := A; size := small |}; {| owner := B; size := medium |}]; []; [] ];
    [ []; []; [] ];
    [ []; []; [] ] ].

(** [x && x === o0] on top owners. *)
Definition same_owner (o0 x : option Slot) : bool :=
  match x with
  | Some _ => bool_decide (x = o0)
  | None => false
  end.

(** A value used as a condition. *)
Definition truthy {T} (o : option T) : bool :=
  match o with Some _ => true | None => false end.

(** [socket.data]: [{roomID, playerSlot, name}]. *)
Record SocketData := {
  roomID : option string;
  playerSlot : option Role;
  data_name : string
}.

(** [socket.data] of a connection that has not joined yet. *)
Definition fresh_data : SocketData :=
  {| roomID := None; playerSlot := None; data_name := "" |}.

Definition set_playerSlot (v : option Role) (d : SocketData) : SocketData :=
  {| roomID := roomID d; playerSlot := v; data_name := data_name d |}.

(** System chat lines of part_001. *)
Inductive Notice :=
  | promoted_notice (who : string) (slot : Slot)
  | new_game_notice
  | waiting_notice.

(** What the server emits.  The first group goes to the whole room, the
    second to the one connection named. *)
Inductive Event :=
  | start_game
  | update_state
  | game_over (winner : Slot)
  | postgame_update (slot : option Role)
  | opponent_decided (slot : Slot)
  | chat_message (n : Notice)
  | assign (to : string) (slot : Role)
  | redirect_home (to : string)
  | chat_init (to : string).

#[global] Instance Notice_eq_dec : EqDecision Notice.
Proof. solve_decision. Defined.
#[global] Instance Event_eq_dec : EqDecision Event.
Proof. solve_decision. Defined.

Definition is_broadcast (e : Event) : bool :=
  match e with
  | assign _ _ | redirect_home _ | chat_init _ => false
  | _ => true
  end.

(** The events of [log'] that were emitted after [log], when [log'] extends it. *)
Definition emitted_since (log log' : list Event) : list Event :=
  drop (length log) log'.

(** [stack.pop()] leaves [removelast stack]; [stack.push(p)] leaves
    [stack ++ [p]].  [push_cell] is [board[r][c].push(p)] on a cell that
    exists (its callers have read the cell before). *)
Definition push_cell (board : Board) (r c : nat) (p : Piece) : Board :=
  match cell board r c with
  | Some st => set_cell board r c (st ++ [p])
  | None => board
  end.

(** [p.pieces = {small:2,medium:2,large:2}] when a player is seated. *)
Definition reset_pieces (p : option Player) : option Player :=
  with_pieces full_hand <$> p.

Definition reset_hands (ps : Players) : Players :=
  {| pl_A := reset_pieces (pl_A ps); pl_B := reset_pieces (pl_B ps) |}.

Definition both_seated (ps : Players) : bool :=
  truthy (pl_A ps) && truthy (pl_B ps).

(* ===================================================================== *)
(** * [src/server.js] *)
(* ===================================================================== *)

Module ServerJs.

(** [function canPlaceAt(board,r,c,size)]:
    [const top = board[r][c].at(-1);
     return !top || SIZE_VAL[size] > SIZE_VAL[top.size];] *)
Definition canPlaceAt (board : Board) (r c : nat) (sz : Size) : option bool :=
  st ← cell board r c;
  let top := last st in
  Some (match top with
        | None => true
        | Some t => bool_decide (gt (SIZE_VAL sz) (SIZE_VAL (size t)))
        end).

(** The table [L] of [checkWinner]. *)
Definition L : list (list (nat * nat)) :=
  [ [(0,0);(0,1);(0,2)]; [(1,0);(1,1);(1,2)]; [(2,0);(2,1);(2,2)];
    [(0,0);(1,0);(2,0)]; [(0,1);(1,1);(2,1)]; [(0,2);(1,2);(2,2)];
    [(0,0);(1,1);(2,2)]; [(0,2);(1,1);(2,0)] ]%nat.

(** [board[r][c].at(-1)?.owner] *)
Definition top_owner (board : Board) (rc : nat * nat) : option Slot :=
  owner <$> last (stack_at board rc.1 rc.2).

(** [for(const line of L){ const o=line.map(...); if(o.every(x=>x&&x===o[0]))
    return o[0]; } return null;] *)
Fixpoint checkWinner_for (board : Board) (ls : list (list (nat * nat))) : option Slot :=
  match ls with
  | [] => None
  | line :: rest =>
      let o := top_owner board <$> line in
      if forallb (same_owner (hd None o)) o then hd None o
      else checkWinner_for board rest
  end.

Definition checkWinner (board : Board) : option Slot := checkWinner_for board L.

(** [d.action] of [postgame_decision], when truthy.  The server tells only
    ["continue"] apart; every other value takes the same branch. *)
Inductive Decision := continue | leave | spectate.

(** The room: [createNewGameState()]'s object. *)
Record Room := {
  board : Board;
  players : Players;
  currentTurn : option Slot;
  winner : option Slot;
  started : bool;
  watchQueue : list string;
  postDecisions : PerSlot (option Decision)
}.

Definition createNewGameState : Room :=
  {| board := empty_board; players := no_players; currentTurn := None;
     winner := None; started := false; watchQueue := [];
     postDecisions := {| at_A := None; at_B := None |} |}.

Definition set_board (v : Board) (r : Room) : Room :=
  {| board := v; players := players r; currentTurn := currentTurn r;
     winner := winner r; started := started r; watchQueue := watchQueue r;
     postDecisions := postDecisions r |}.
Definition set_players (v : Players) (r : Room) : Room :=
  {| board := board r; players := v; currentTurn := currentTurn r;
     winner := winner r; started := started r; watchQueue := watchQueue r;
     postDecisions := postDecisions r |}.
Definition set_currentTurn (v : option Slot) (r : Room) : Room :=
  {| board := board r; players := players r; currentTurn := v;
     winner := winner r; started := started r; watchQueue := watchQueue r;
     postDecisions := postDecisions r |}.
Definition set_winner (v : option Slot) (r : Room) : Room :=
  {| board := board r; players := players r; currentTurn := currentTurn r;
     winner := v; started := started r; watchQueue := watchQueue r;
     postDecisions := postDecisions r |}.
Definition set_started (v : bool) (r : Room) : Room :=
  {| board := board r; players := players r; currentTurn := currentTurn r;
     winner := winner r; started := v; watchQueue := watchQueue r;
     postDecisions := postDecisions r |}.
Definition set_watchQueue (v : list string) (r : Room) : Room :=
  {| board := board r; players := players r; currentTurn := currentTurn r;
     winner := winner r; started := started r; watchQueue := v;
     postDecisions := postDecisions r |}.
Definition set_postDecisions (v : PerSlot (option Decision)) (r : Room) : Room :=
  {| board := board r; players := players r; currentTurn := currentTurn r;
     winner := winner r; started := started r; watchQueue := watchQueue r;
     postDecisions := v |}.

(** The room a handler works on, the connections, and what was emitted. *)
Record World := {
  room : Room;
  sockets : gmap string SocketData;
  log : list Event
}.

Definition set_room (r : Room) (w : World) : World :=
  {| room := r; sockets := sockets w; log := log w |}.
Definition emit (e : Event) (w : World) : World :=
  {| room := room w; sockets := sockets w; log := log w ++ [e] |}.

(** The loop of [promoteFromQueue]: [shift] ids off the queue until one is a
    live connection; returns what is left of the queue and the connection. *)
Fixpoint promoteFromQueue_scan (socks : gmap string SocketData) (queue : list string)
  : list string * option (string * SocketData) :=
  match queue with
  | [] => ([], None)
  | sid :: rest =>
      match socks !! sid with
      | None => promoteFromQueue_scan socks rest      (* if(!s) continue; *)
      | Some s => (rest, Some (sid, s))
      end
  end.

(** [function promoteFromQueue(roomState, slot)] *)
Definition promoteFromQueue (slot : Slot) (w : World) : World * bool :=
  match promoteFromQueue_scan (sockets w) (watchQueue (room w)) with
  | (rest, Some (sid, s)) =>
      let r1 := set_watchQueue rest (room w) in
      let p := {| id := sid; name := data_name s; pieces := full_hand |} in
      let r2 := set_players (set_seat (players r1) slot (Some p)) r1 in
      ({| room := r2;
          sockets := <[sid := set_playerSlot (Some (player slot)) s]> (sockets w);
          log := log w ++ [assign sid (player slot)] |}, true)
  | (rest, None) => (set_room (set_watchQueue rest (room w)) w, false)
  end.

(** [function resetBoard(roomState)] *)
Definition resetBoard (r : Room) : Room :=
  let ps := reset_hands (players r) in
  {| board := empty_board; players := ps; currentTurn := Some A;
     winner := None; started := both_seated ps; watchQueue := watchQueue r;
     postDecisions := postDecisions r |}.

(** [function forceEndGame(roomID, leaverSlot)] for a [leaverSlot] that is
    ["A"] or ["B"], on the room [roomID] names; any other [leaverSlot] is
    [forceEndGame_stray] below. *)
Definition forceEndGame (leaverSlot : Slot) (w : World) : World :=
  let r := room w in
  let otherSlot := match leaverSlot with A => B | B => A end in
  let leaver := seat (players r) leaverSlot in
  let other := seat (players r) otherSlot in
  let r1 :=
    match leaver with
    | Some l =>
        let r' := set_watchQueue (watchQueue r ++ [id l]) r in
        set_players (set_seat (players r') leaverSlot None) r'
    | None => r
    end in
  let r2 :=
    match other with
    | Some o =>
        let ps := set_seat (players r1) leaverSlot (Some o) in
        let ps := set_seat ps otherSlot None in
        set_players (set_seat ps leaverSlot (Some (with_pieces full_hand o))) r1
    | None => r1
    end in
  let w3 := (promoteFromQueue otherSlot (set_room r2 w)).1 in
  emit start_game (set_room (resetBoard (room w3)) w3).

(** The inner [function handle(slot)] of [evaluatePostGame]; [survivors] is
    the array it pushes to. *)
Definition handle (slot : Slot) (st : Room * list Player) : Room * list Player :=
  let '(r, survivors) := st in
  let p := seat (players r) slot in
  let act := per_slot (postDecisions r) slot in
  let '(r1, survivors1) :=
    match p with
    | Some p =>
        match act with
        | Some continue => (r, survivors ++ [p])
        | _ => (set_watchQueue (watchQueue r ++ [id p]) r, survivors)
        end
    | None => (r, survivors)
    end in
  (set_players (set_seat (players r1) slot None) r1, survivors1).

(** One turn of [for(const s of ["A","B"])] in [evaluatePostGame]. *)
Definition reseat (s : Slot) (st : World * list Player) : World * list Player :=
  let '(w, survivors) := st in
  match survivors with
  | p :: rest => (set_room (set_players (set_seat (players (room w)) s (Some p)) (room w)) w, rest)
  | [] => ((promoteFromQueue s w).1, [])
  end.

(** [function evaluatePostGame(roomID)], on the room [roomID] names. *)
Definition evaluatePostGame (w : World) : World :=
  match at_A (postDecisions (room w)), at_B (postDecisions (room w)) with
  | Some _, Some _ =>
      let '(r2, survivors) := handle B (handle A (room w, [])) in
      let '(w4, _) := reseat B (reseat A (set_room r2 w, survivors)) in
      let r5 := set_postDecisions {| at_A := None; at_B := None |} (room w4) in
      emit start_game (set_room (resetBoard r5) w4)
  | _, _ => w                                        (* if(!A || !B) return; *)
  end.

(** [socket.on("join", ...)] for the connection [sid]; the acknowledgment is
    [{ok:true, slot}]. *)
Definition join (sid rid nm : string) (w : World) : World * Role :=
  let r := room w in
  let slot :=
    if negb (truthy (pl_A (players r))) then player A
    else if negb (truthy (pl_B (players r))) then player B
    else spectator in
  let r1 :=
    match slot with
    | player s =>
        set_players (set_seat (players r) s
                       (Some {| id := sid; name := nm; pieces := full_hand |})) r
    | spectator => set_watchQueue (watchQueue r ++ [sid]) r
    end in
  let socks :=
    <[sid := {| roomID := Some rid; playerSlot := Some slot; data_name := nm |}]> (sockets w) in
  let w1 := {| room := r1; sockets := socks; log := log w |} in
  if both_seated (players r1)
  then (emit start_game (set_room (set_currentTurn (Some A) (set_started true r1)) w1), slot)
  else (emit update_state w1, slot).

(** What follows the [if/else] on [p.action] inside the [try] of
    [place_piece]: winner check, turn flip, broadcast, [ack({ok:true})]. *)
Definition after_move (s : Slot) (w : World) : World * option Ack :=
  match checkWinner (board (room w)) with
  | Some win =>
      let r := set_postDecisions {| at_A := None; at_B := None |}
                 (set_started false (set_winner (Some win) (room w))) in
      (emit (game_over win) (set_room r w), Some ack_ok)
  | None =>
      let r := set_currentTurn (Some (match s with A => B | B => A end)) (room w) in
      (emit update_state (set_room r w), Some ack_ok)
  end.

(** [socket.on("place_piece", ...)]; [s] is [socket.data.playerSlot].  Every
    exception of the [try] block is answered with [ack({error:"invalid"})].
    A payload whose [action] is not ["place_from_hand"] takes the [else]
    branch: with [from] and [to] ([move_on_board], [other_action_on]) it is
    run as a move, without them ([other_action]) reading [p.from.r]
    throws. *)
Definition place_piece (s : option Role) (p : Payload) (w : World) : World * option Ack :=
  let r := room w in
  let invalid (w' : World) := (w', Some (ack_error r_invalid)) in
  match s, currentTurn r with
  | Some (player s), Some turn =>
      if negb (started r) || truthy (winner r) || negb (bool_decide (turn = s))
      then (w, None)
      else
        match p with
        | place_from_hand sz to =>
            match seat (players r) s with
            | None => invalid w                            (* pl is null *)
            | Some pl =>
                if none_left (pieces pl) sz then invalid w
                else
                  match canPlaceAt (board r) to.1 to.2 sz with
                  | Some true =>
                      let b := push_cell (board r) to.1 to.2 {| owner := s; size := sz |} in
                      let pl' := with_pieces (hand_dec (pieces pl) sz) pl in
                      after_move s
                        (set_room (set_players (set_seat (players r) s (Some pl'))
                                     (set_board b r)) w)
                  | _ => invalid w
                  end
            end
        | move_on_board from to | other_action_on from to =>
            match cell (board r) from.1 from.2 with
            | None => invalid w                            (* no such cell *)
            | Some src =>
                match last src with
                | None => invalid w                        (* pop() of [] : top.size throws *)
                | Some top =>
                    (* the pop has happened when canPlaceAt is asked *)
                    let b1 := set_cell (board r) from.1 from.2 (removelast src) in
                    let w1 := set_room (set_board b1 r) w in
                    match canPlaceAt b1 to.1 to.2 (size top) with
                    | Some true =>
                        after_move s
                          (set_room (set_board (push_cell b1 to.1 to.2 top) r) w)
                    | _ => invalid w1
                    end
                end
            end
        | other_action => invalid w
        end
  | _, _ => (w, None)               (* r.currentTurn !== s *)
  end.

(** [socket.on("postgame_decision", ...)]; [action] is [d.action], [None] when
    falsy.  A slot that is not A or B writes a key of [postDecisions] that
    nothing reads. *)
Definition postgame_decision (s : option Role) (action : option Decision) (w : World)
  : World * option Ack :=
  let r := room w in
  let r1 :=
    match s with
    | Some (player sl) => set_postDecisions (set_per_slot (postDecisions r) sl action) r
    | _ => r
    end in
  (evaluatePostGame (emit (postgame_update s) (set_room r1 w)), Some ack_ok).

(** [forceEndGame(roomID, leaverSlot)] for a [leaverSlot] that is neither
    ["A"] nor ["B"] (a spectator's ["spectator"]).  [otherSlot] is then
    ["A"], and [r.players[leaverSlot]] is a property of the [players] object
    that nothing else in the file reads or writes; [stray] is its value on
    entry, the second component of the result its value on exit. *)
Definition forceEndGame_stray (stray : option Player) (w : World) : World * option Player :=
  let r := room w in
  let leaver := stray in
  let other := seat (players r) A in
  let r1 :=
    match leaver with
    | Some l => set_watchQueue (watchQueue r ++ [id l]) r
    | None => r
    end in
  let '(r2, stray2) :=
    match other with
    | Some o => (set_players (set_seat (players r1) A None) r1, Some (with_pieces full_hand o))
    | None => (r1, None)
    end in
  let w3 := (promoteFromQueue A (set_room r2 w)).1 in
  (emit start_game (set_room (resetBoard (room w3)) w3), stray2).

(** [socket.on("force_quit", ...)]: [d] is the [socket.data] of the sender,
    whose [roomID] and [playerSlot] are what the call of [forceEndGame] is
    given; [stray] is as in [forceEndGame_stray].  A connection that has not
    joined names no room and nothing happens. *)
Definition force_quit (d : SocketData) (stray : option Player) (w : World)
  : World * option Player :=
  match roomID d with
  | None => (w, stray)                       (* if(!r) return *)
  | Some _ =>
      match playerSlot d with
      | Some (player leaverSlot) => (forceEndGame leaverSlot w, stray)
      | _ => forceEndGame_stray stray w
      end
  end.

End ServerJs.

(* ===================================================================== *)
(** * [src/unnamed/part_000] *)
(* ===================================================================== *)

Module Part000.

(** [function canPlaceAt(board, toR, toC, pieceSizeName)] *)
Definition canPlaceAt (board : Board) (toR toC : nat) (pieceSizeName : Size) : option bool :=
  targetStack ← cell board toR toC;
  let topPiece := last targetStack in
  let pieceVal := SIZE_VAL pieceSizeName in
  match topPiece with
  | None => Some true
  | Some t => if bool_decide (gt pieceVal (SIZE_VAL (size t))) then Some true else Some false
  end.

Definition lines : list (list (nat * nat)) :=
  [ [(0,0);(0,1);(0,2)]; [(1,0);(1,1);(1,2)]; [(2,0);(2,1);(2,2)];
    [(0,0);(1,0);(2,0)]; [(0,1);(1,1);(2,1)]; [(0,2);(1,2);(2,2)];
    [(0,0);(1,1);(2,2)]; [(0,2);(1,1);(2,0)] ]%nat.

(** [stack.length ? stack.at(-1).owner : null] *)
Definition top_owner (board : Board) (rc : nat * nat) : option Slot :=
  let stack := stack_at board rc.1 rc.2 in
  if bool_decide (length stack = 0%nat) then None else owner <$> last stack.

Fixpoint checkWinner_for (board : Board) (ls : list (list (nat * nat))) : option Slot :=
  match ls with
  | [] => None
  | line :: rest =>
      let topOwners := top_owner board <$> line in
      if forallb (same_owner (hd None topOwners)) topOwners then hd None topOwners
      else checkWinner_for board rest
  end.

Definition checkWinner (board : Board) : option Slot := checkWinner_for board lines.

(** [postDecisions] values: [null|'continue'|'quit']. *)
Inductive Decision := continue | quit.

Record Room := {
  board : Board;
  players : Players;
  currentTurn : option Slot;
  winner : option Slot;
  started : bool;
  watchQueue : list string;
  postDecisions : PerSlot (option Decision)
}.

Definition createNewGameState : Room :=
  {| board := empty_board; players := no_players; currentTurn := None;
     winner := None; started := false; watchQueue := [];
     postDecisions := {| at_A := None; at_B := None |} |}.

Definition set_board (v : Board) (r : Room) : Room :=
  {| board := v; players := players r; currentTurn := currentTurn r;
     winner := winner r; started := started r; watchQueue := watchQueue r;
     postDecisions := postDecisions r |}.
Definition set_players (v : Players) (r : Room) : Room :=
  {| board := board r; players := v; currentTurn := currentTurn r;
     winner := winner r; started := started r; watchQueue := watchQueue r;
     postDecisions := postDecisions r |}.
Definition set_currentTurn (v : option Slot) (r : Room) : Room :=
  {| board := board r; players := players r; currentTurn := v;
     winner := winner r; started := started r; watchQueue := watchQueue r;
     postDecisions := postDecisions r |}.
Definition set_winner (v : option Slot) (r : Room) : Room :=
  {| board := board r; players := players r; currentTurn := currentTurn r;
     winner := v; started := started r; watchQueue := watchQueue r;
     postDecisions := postDecisions r |}.
Definition set_started (v : bool) (r : Room) : Room :=
  {| board := board r; players := players r; currentTurn := currentTurn r;
     winner := winner r; started := v; watchQueue := watchQueue r;
     postDecisions := postDecisions r |}.
Definition set_watchQueue (v : list string) (r : Room) : Room :=
  {| board := board r; players := players r; currentTurn := currentTurn r;
     winner := winner r; started := started r; watchQueue := v;
     postDecisions := postDecisions r |}.

(** [function resetPostDecisions(roomState)] *)
Definition resetPostDecisions (r : Room) : Room :=
  {| board := board r; players := players r; currentTurn := currentTurn r;
     winner := winner r; started := started r; watchQueue := watchQueue r;
     postDecisions := {| at_A := None; at_B := None |} |}.

Record World := {
  room : Room;
  sockets : gmap string SocketData;
  log : list Event
}.

Definition set_room (r : Room) (w : World) : World :=
  {| room := r; sockets := sockets w; log := log w |}.
Definition emit (e : Event) (w : World) : World :=
  {| room := room w; sockets := sockets w; log := log w ++ [e] |}.

(** [function removeFromWatchQueue(roomState, socketId)]: [indexOf] then
    [splice(idx, 1)], the first occurrence only. *)
Fixpoint remove_first (sid : string) (queue : list string) : list string :=
  match queue with
  | [] => []
  | x :: rest => if decide (x = sid) then rest else x :: remove_first sid rest
  end.

Definition removeFromWatchQueue (sid : string) (r : Room) : Room :=
  set_watchQueue (remove_first sid (watchQueue r)) r.

(** [socket.on("join", ...)] for the connection [sid], on the room [rid]
    names; [nm] is the display name after defaulting and truncation. *)
Definition join (sid rid nm : string) (w : World) : World * Role :=
  let roomState := room w in
  let '(r1, assigned) :=
    if negb (truthy (pl_A (players roomState))) then
      (set_players (set_seat (players roomState) A
                      (Some {| id := sid; name := nm; pieces := full_hand |})) roomState,
       player A)
    else if negb (truthy (pl_B (players roomState))) then
      (set_players (set_seat (players roomState) B
                      (Some {| id := sid; name := nm; pieces := full_hand |})) roomState,
       player B)
    else
      let r' := removeFromWatchQueue sid roomState in
      (set_watchQueue (watchQueue r' ++ [sid]) r', spectator) in
  let socks :=
    <[sid := {| roomID := Some rid; playerSlot := Some assigned; data_name := nm |}]> (sockets w) in
  let w1 := {| room := r1; sockets := socks; log := log w |} in
  let w2 :=
    if both_seated (players r1) then
      let r2 :=
        if negb (started r1) && negb (truthy (winner r1))
        then set_started true (set_currentTurn (Some A) r1)
        else r1 in
      emit start_game (set_room (resetPostDecisions r2) w1)
    else emit update_state w1 in
  (emit (chat_init sid) w2, assigned).

(** The tail of the [try] block of [place_piece]. *)
Definition after_move (slot : Slot) (w : World) : World * option Ack :=
  match checkWinner (board (room w)) with
  | Some win =>
      let r := resetPostDecisions (set_started false (set_winner (Some win) (room w))) in
      (emit (game_over win) (set_room r w), Some ack_ok)
  | None =>
      let r := set_currentTurn (Some (match slot with A => B | B => A end)) (room w) in
      (emit update_state (set_room r w), Some ack_ok)
  end.

(** [socket.on("place_piece", ...)] from its second guard on: what the
    handler does for a connection whose [socket.data.roomID] names the room;
    [slot] is its [socket.data.playerSlot].  An exception of the [try] block
    is answered with [ack({error: e.message})].  The whole handler, first
    guard included, is [on_place_piece] below. *)
Definition place_piece (slot : option Role) (payload : Payload) (w : World)
  : World * option Ack :=
  let roomState := room w in
  let reject (why : Reason) := (w, Some (ack_error why)) in
  match slot with
  | Some (player slot) =>
      if negb (started roomState) then reject r_not_started
      else if truthy (winner roomState) then reject r_game_over
      else if negb (bool_decide (currentTurn roomState = Some slot)) then reject r_not_your_turn
      else
        match payload with
        | place_from_hand sz to =>
            match seat (players roomState) slot with
            | None => reject r_type_error
            | Some pl =>
                if none_left (pieces pl) sz then reject r_no_piece
                else
                  match canPlaceAt (board roomState) to.1 to.2 sz with
                  | None => reject r_type_error
                  | Some false => reject r_illegal
                  | Some true =>
                      let b := push_cell (board roomState) to.1 to.2
                                 {| owner := slot; size := sz |} in
                      let pl' := with_pieces (hand_dec (pieces pl) sz) pl in
                      after_move slot
                        (set_room (set_players (set_seat (players roomState) slot (Some pl'))
                                     (set_board b roomState)) w)
                  end
            end
        | move_on_board from to =>
            match cell (board roomState) from.1 from.2 with
            | None => reject r_type_error
            | Some srcStack =>
                match last srcStack with
                | None => reject r_empty                 (* !srcStack.length *)
                | Some top =>
                    if negb (bool_decide (owner top = slot)) then reject r_not_yours
                    else
                      match canPlaceAt (board roomState) to.1 to.2 (size top) with
                      | None => reject r_type_error
                      | Some false => reject r_illegal
                      | Some true =>
                          let b1 := set_cell (board roomState) from.1 from.2
                                      (removelast srcStack) in
                          after_move slot
                            (set_room (set_board (push_cell b1 to.1 to.2 top) roomState) w)
                      end
                end
            end
        | other_action | other_action_on _ _ => after_move slot w
        end
  | _ => reject r_spectator
  end.

(** The whole [socket.on("place_piece", ...)] for a connection with
    [socket.data] [d]: [if (!roomID || !rooms[roomID]) return;] sends no
    acknowledgment to a connection that is bound to no room; a [roomID] that
    is set names the room of [w]. *)
Definition on_place_piece (d : SocketData) (payload : Payload) (w : World)
  : World * option Ack :=
  match roomID d with
  | None => (w, None)
  | Some _ => place_piece (playerSlot d) payload w
  end.

End Part000.

(* ===================================================================== *)
(** * [src/unnamed/part_001] *)
(* ===================================================================== *)

Module Part001.

(** [function canPlaceAt(board, toR, toC, pieceSizeName)] *)
Definition canPlaceAt (board : Board) (toR toC : nat) (pieceSizeName : Size) : option bool :=
  targetStack ← cell board toR toC;
  let topPiece := last targetStack in
  let pieceVal := SIZE_VAL pieceSizeName in
  match topPiece with
  | None => Some true
  | Some t => if bool_decide (gt pieceVal (SIZE_VAL (size t))) then Some true else Some false
  end.

Definition lines : list (list (nat * nat)) :=
  [ [(0,0);(0,1);(0,2)]; [(1,0);(1,1);(1,2)]; [(2,0);(2,1);(2,2)];
    [(0,0);(1,0);(2,0)]; [(0,1);(1,1);(2,1)]; [(0,2);(1,2);(2,2)];
    [(0,0);(1,1);(2,2)]; [(0,2);(1,1);(2,0)] ]%nat.

(** [stack.length ? stack.at(-1).owner : null] *)
Definition top_owner (board : Board) (rc : nat * nat) : option Slot :=
  let stack := stack_at board rc.1 rc.2 in
  if bool_decide (length stack = 0%nat) then None else owner <$> last stack.

Fixpoint checkWinner_for (board : Board) (ls : list (list (nat * nat))) : option Slot :=
  match ls with
  | [] => None
  | line :: rest =>
      let topOwners := top_owner board <$> line in
      if forallb (same_owner (hd None topOwners)) topOwners then hd None topOwners
      else checkWinner_for board rest
  end.

Definition checkWinner (board : Board) : option Slot := checkWinner_for board lines.

(** [data.decision] when truthy: ['rematch'|'leave'|'spectate'] (the spec's
    continue is ['rematch']), or any other value. *)
Inductive Decision := rematch | leave | spectate | other_decision.

(** An entry of the spectator queue: [{id, name}]. *)
Record Spectator := { sp_id : string; sp_name : string }.

Record Room := {
  board : Board;
  players : Players;
  spectators : list Spectator;
  currentTurn : option Slot;
  winner : option Slot;
  started : bool;
  pendingDecisions : PerSlot (option Decision)
}.

Definition createNewGameState : Room :=
  {| board := empty_board; players := no_players; spectators := [];
     currentTurn := None; winner := None; started := false;
     pendingDecisions := {| at_A := None; at_B := None |} |}.

Definition set_board (v : Board) (r : Room) : Room :=
  {| board := v; players := players r; spectators := spectators r;
     currentTurn := currentTurn r; winner := winner r; started := started r;
     pendingDecisions := pendingDecisions r |}.
Definition set_players (v : Players) (r : Room) : Room :=
  {| board := board r; players := v; spectators := spectators r;
     currentTurn := currentTurn r; winner := winner r; started := started r;
     pendingDecisions := pendingDecisions r |}.
Definition set_spectators (v : list Spectator) (r : Room) : Room :=
  {| board := board r; players := players r; spectators := v;
     currentTurn := currentTurn r; winner := winner r; started := started r;
     pendingDecisions := pendingDecisions r |}.
Definition set_currentTurn (v : option Slot) (r : Room) : Room :=
  {| board := board r; players := players r; spectators := spectators r;
     currentTurn := v; winner := winner r; started := started r;
     pendingDecisions := pendingDecisions r |}.
Definition set_winner (v : option Slot) (r : Room) : Room :=
  {| board := board r; players := players r; spectators := spectators r;
     currentTurn := currentTurn r; winner := v; started := started r;
     pendingDecisions := pendingDecisions r |}.
Definition set_started (v : bool) (r : Room) : Room :=
  {| board := board r; players := players r; spectators := spectators r;
     currentTurn := currentTurn r; winner := winner r; started := v;
     pendingDecisions := pendingDecisions r |}.
Definition set_pendingDecisions (v : PerSlot (option Decision)) (r : Room) : Room :=
  {| board := board r; players := players r; spectators := spectators r;
     currentTurn := currentTurn r; winner := winner r; started := started r;
     pendingDecisions := v |}.

Record World := {
  room : Room;
  sockets : gmap string SocketData;
  log : list Event
}.

Definition set_room (r : Room) (w : World) : World :=
  {| room := r; sockets := sockets w; log := log w |}.
Definition set_sockets (s : gmap string SocketData) (w : World) : World :=
  {| room := room w; sockets := s; log := log w |}.
Definition emit (e : Event) (w : World) : World :=
  {| room := room w; sockets := sockets w; log := log w ++ [e] |}.

(** [pX ? (decisions.X || 'leave') : 'leave'] *)
Definition choice_of (p : option Player) (d : option Decision) : Decision :=
  match p with
  | Some _ => default leave d
  | None => leave
  end.

(** Step 1 of [resolveGameDecisions] for one slot (the source writes the
    block once for A and once for B); [p] is [pA]/[pB] and [choice] is
    [choiceA]/[choiceB], both read before any slot is processed. *)
Definition dispatch (slot : Slot) (p : option Player) (choice : Decision) (w : World) : World :=
  match choice with
  | leave =>
      let w1 :=
        match p with
        | Some pl =>
            let w' := emit (redirect_home (id pl)) w in
            match sockets w' !! id pl with
            | Some d =>
                (* socket.leave(roomID); data.roomID = null; data.playerSlot = null *)
                set_sockets (<[id pl := {| roomID := None; playerSlot := None;
                                           data_name := data_name d |}]> (sockets w')) w'
            | None => w'
            end
        | None => w
        end in
      set_room (set_players (set_seat (players (room w1)) slot None) (room w1)) w1
  | spectate =>
      let w1 :=
        match p with
        | Some pl =>
            let r' := set_spectators
                        (spectators (room w) ++ [{| sp_id := id pl; sp_name := name pl |}])
                        (room w) in
            let socks :=
              match sockets w !! id pl with
              | Some d => <[id pl := set_playerSlot (Some spectator) d]> (sockets w)
              | None => sockets w
              end in
            emit (assign (id pl) spectator) (set_sockets socks (set_room r' w))
        | None => w
        end in
      set_room (set_players (set_seat (players (room w1)) slot None) (room w1)) w1
  | rematch => w
  | other_decision => w
  end.

(** Step 2 of [resolveGameDecisions], the body of
    [['A','B'].forEach(slot => ...)]: one [shift] per empty slot. *)
Definition fill (slot : Slot) (w : World) : World :=
  match seat (players (room w)) slot, spectators (room w) with
  | None, nextSpec :: rest =>
      let w1 := set_room (set_spectators rest (room w)) w in
      match sockets w1 !! sp_id nextSpec with
      | Some d =>
          let p := {| id := sp_id nextSpec; name := sp_name nextSpec; pieces := full_hand |} in
          let r2 := set_players (set_seat (players (room w1)) slot (Some p)) (room w1) in
          let socks := <[sp_id nextSpec := set_playerSlot (Some (player slot)) d]> (sockets w1) in
          emit (chat_message (promoted_notice (sp_name nextSpec) slot))
            (emit (assign (sp_id nextSpec) (player slot))
               {| room := r2; sockets := socks; log := log w1 |})
      | None => w1
      end
  | _, _ => w
  end.

(** Step 3 of [resolveGameDecisions]. *)
Definition restart (w : World) : World :=
  let r := room w in
  let ps := reset_hands (players r) in
  let r1 :=
    {| board := empty_board; players := ps; spectators := spectators r;
       currentTurn := currentTurn r; winner := None; started := started r;
       pendingDecisions := {| at_A := None; at_B := None |} |} in
  if both_seated ps then
    emit (chat_message new_game_notice)
      (emit start_game (set_room (set_started true (set_currentTurn (Some A) r1)) w))
  else
    emit (chat_message waiting_notice)
      (emit update_state (set_room (set_currentTurn None (set_started false r1)) w)).

(** [function resolveGameDecisions(roomID)], on the room [roomID] names. *)
Definition resolveGameDecisions (w : World) : World :=
  let decisions := pendingDecisions (room w) in
  let pA := pl_A (players (room w)) in
  let pB := pl_B (players (room w)) in
  let choiceA := choice_of pA (at_A decisions) in
  let choiceB := choice_of pB (at_B decisions) in
  restart (fill B (fill A (dispatch B pB choiceB (dispatch A pA choiceA w)))).

(** [socket.on("join", ...)] for the connection [sid], on the room [rid]
    names. *)
Definition join (sid rid nm : string) (w : World) : World * Role :=
  let roomState := room w in
  let '(r1, assigned) :=
    if negb (truthy (pl_A (players roomState))) then
      (set_players (set_seat (players roomState) A
                      (Some {| id := sid; name := nm; pieces := full_hand |})) roomState,
       player A)
    else if negb (truthy (pl_B (players roomState))) then
      (set_players (set_seat (players roomState) B
                      (Some {| id := sid; name := nm; pieces := full_hand |})) roomState,
       player B)
    else
      (set_spectators (spectators roomState ++ [{| sp_id := sid; sp_name := nm |}]) roomState,
       spectator) in
  let d := default fresh_data (sockets w !! sid) in
  let socks :=
    <[sid := {| roomID := Some rid; playerSlot := Some assigned;
                data_name := data_name d |}]> (sockets w) in
  let w1 := emit (assign sid assigned) {| room := r1; sockets := socks; log := log w |} in
  let w2 :=
    if both_seated (players r1) then
      if negb (started r1) && negb (truthy (winner r1))
      then emit start_game (set_room (set_started true (set_currentTurn (Some A) r1)) w1)
      else emit update_state w1
    else emit update_state w1 in
  (emit (chat_init sid) w2, assigned).

(** The tail of the [try] block of [place_piece]. *)
Definition after_move (slot : Slot) (w : World) : World * option Ack :=
  match checkWinner (board (room w)) with
  | Some win =>
      let r := set_pendingDecisions {| at_A := None; at_B := None |}
                 (set_started false (set_winner (Some win) (room w))) in
      (emit (game_over win) (set_room r w), Some ack_ok)
  | None =>
      let r := set_currentTurn (Some (match slot with A => B | B => A end)) (room w) in
      (emit update_state (set_room r w), Some ack_ok)
  end.

(** [socket.on("place_piece", ...)] from its second guard on: what the
    handler does for a connection whose [socket.data.roomID] names the room;
    [slot] is its [socket.data.playerSlot].  The whole handler, first guard
    included, is [on_place_piece] below. *)
Definition place_piece (slot : option Role) (payload : Payload) (w : World)
  : World * option Ack :=
  let roomState := room w in
  let reject (why : Reason) := (w, Some (ack_error why)) in
  match slot with
  | Some (player slot) =>
      if negb (started roomState) then reject r_not_started
      else if truthy (winner roomState) then reject r_game_over
      else if negb (bool_decide (currentTurn roomState = Some slot)) then reject r_not_your_turn
      else
        match payload with
        | place_from_hand sz to =>
            match seat (players roomState) slot with
            | None => reject r_type_error
            | Some pl =>
                if none_left (pieces pl) sz then reject r_no_piece
                else
                  match canPlaceAt (board roomState) to.1 to.2 sz with
                  | None => reject r_type_error
                  | Some false => reject r_illegal
                  | Some true =>
                      let b := push_cell (board roomState) to.1 to.2
                                 {| owner := slot; size := sz |} in
                      let pl' := with_pieces (hand_dec (pieces pl) sz) pl in
                      after_move slot
                        (set_room (set_players (set_seat (players roomState) slot (Some pl'))
                                     (set_board b roomState)) w)
                  end
            end
        | move_on_board from to =>
            match cell (board roomState) from.1 from.2 with
            | None => reject r_type_error
            | Some srcStack =>
                match last srcStack with
                | None => reject r_empty
                | Some top =>
                    if negb (bool_decide (owner top = slot)) then reject r_not_yours
                    else
                      match canPlaceAt (board roomState) to.1 to.2 (size top) with
                      | None => reject r_type_error
                      | Some false => reject r_illegal
                      | Some true =>
                          let b1 := set_cell (board roomState) from.1 from.2
                                      (removelast srcStack) in
                          after_move slot
                            (set_room (set_board (push_cell b1 to.1 to.2 top) roomState) w)
                      end
                end
            end
        | other_action | other_action_on _ _ => after_move slot w
        end
  | _ => reject r_spectator
  end.

(** The whole [socket.on("place_piece", ...)] for a connection with
    [socket.data] [d]: [if (!roomID || !rooms[roomID]) return;] sends no
    acknowledgment to a connection that is bound to no room; a [roomID] that
    is set names the room of [w]. *)
Definition on_place_piece (d : SocketData) (payload : Payload) (w : World)
  : World * option Ack :=
  match roomID d with
  | None => (w, None)
  | Some _ => place_piece (playerSlot d) payload w
  end.

(** [socket.on("post_game_decision", ...)]; [slot] is
    [socket.data.playerSlot], [decision] is [data.decision] ([None] when
    falsy).  The handler sends no acknowledgment. *)
Definition post_game_decision (slot : option Role) (decision : option Decision) (w : World)
  : World :=
  let roomState := room w in
  if negb (truthy (winner roomState)) then w
  else
    match slot with
    | Some (player slot) =>
        let r1 := set_pendingDecisions
                    (set_per_slot (pendingDecisions roomState) slot decision) roomState in
        let w1 := emit (opponent_decided slot) (set_room r1 w) in
        let dA := at_A (pendingDecisions r1) in
        let dB := at_B (pendingDecisions r1) in
        let isAPresent := truthy (pl_A (players r1)) in
        let isBPresent := truthy (pl_B (players r1)) in
        if isAPresent && negb (truthy dA) then w1
        else if isBPresent && negb (truthy dB) then w1
        else resolveGameDecisions w1
    | _ => w
    end.

(** [socket.on("disconnect", ...)] for the connection [sid].  The transport
    has dropped [sid] from [io.sockets.sockets] when the handler runs; the
    handler still reads the [socket.data] of its own socket.  Deleting the room
    once no connection is left in it is outside this model. *)
Definition disconnect (sid : string) (w : World) : World :=
  match sockets w !! sid with
  | None => w
  | Some d =>
      let w0 := set_sockets (delete sid (sockets w)) w in
      match roomID d with
      | None => w0
      | Some _ =>
          let roomState := room w0 in
          match playerSlot d with
          | Some (player slot) =>
              if truthy (winner roomState) then
                resolveGameDecisions
                  (set_room (set_pendingDecisions
                               (set_per_slot (pendingDecisions roomState) slot (Some leave))
                               roomState) w0)
              else
                emit update_state
                  (set_room (set_started false
                               (set_players (set_seat (players roomState) slot None) roomState))
                     w0)
          | Some spectator =>
              emit update_state
                (set_room (set_spectators
                             (filter (λ s, sp_id s ≠ sid) (spectators roomState)) roomState) w0)
          | None => w0
          end
      end
  end.

End Part001.

(* ===================================================================== *)
(** * [src/unnamed/part_000]: promotion, post-game, restart, disconnect *)
(* ===================================================================== *)

Module Part000Flow.

(** What these handlers emit: the events of the other handlers, and
    [force_leave_after_quit], sent to one connection. *)
Inductive Emit :=
  | ev (e : Event)
  | force_leave_after_quit (to : string).

#[global] Instance Emit_eq_dec : EqDecision Emit.
Proof. solve_decision. Defined.

(** Acknowledgments of [postgame_decision] and [restart_game]. *)
Inductive FlowAck := flow_ok | not_player | invalid_action.

Record World := {
  room : Part000.Room;
  sockets : gmap string SocketData;
  log : list Emit
}.

Definition set_room (r : Part000.Room) (w : World) : World :=
  {| room := r; sockets := sockets w; log := log w |}.
Definition set_sockets (s : gmap string SocketData) (w : World) : World :=
  {| room := room w; sockets := s; log := log w |}.
Definition emit (e : Emit) (w : World) : World :=
  {| room := room w; sockets := sockets w; log := log w ++ [e] |}.

Definition set_postDecisions (v : PerSlot (option Part000.Decision)) (r : Part000.Room)
  : Part000.Room :=
  {| Part000.board := Part000.board r; Part000.players := Part000.players r;
     Part000.currentTurn := Part000.currentTurn r; Part000.winner := Part000.winner r;
     Part000.started := Part000.started r; Part000.watchQueue := Part000.watchQueue r;
     Part000.postDecisions := v |}.

(** [players[slot] = v] on the room of a world. *)
Definition set_player (slot : Slot) (v : option Player) (w : World) : World :=
  set_room (Part000.set_players (set_seat (Part000.players (room w)) slot v) (room w)) w.

(** The loop of [promoteNextSpectatorToSlot]: [shift] ids off the queue until
    one is a live connection. *)
Fixpoint promote_scan (socks : gmap string SocketData) (queue : list string)
  : list string * option (string * SocketData) :=
  match queue with
  | [] => ([], None)
  | nextId :: rest =>
      match socks !! nextId with
      | None => promote_scan socks rest               (* disconnected, skip *)
      | Some sock => (rest, Some (nextId, sock))
      end
  end.

(** [function promoteNextSpectatorToSlot(roomID, slot)], on the room [roomID]
    names; the result is the id of the promoted connection, if any. *)
Definition promoteNextSpectatorToSlot (slot : Slot) (w : World) : World * option string :=
  match promote_scan (sockets w) (Part000.watchQueue (room w)) with
  | (rest, Some (nextId, sock)) =>
      let name := if decide (data_name sock = "") then "Spectator" else data_name sock in
      let r1 := Part000.set_watchQueue rest (room w) in
      let p := {| id := nextId; name := name; pieces := full_hand |} in
      let r2 := Part000.set_players (set_seat (Part000.players r1) slot (Some p)) r1 in
      ({| room := r2;
          sockets := <[nextId := set_playerSlot (Some (player slot)) sock]> (sockets w);
          log := log w ++ [ev (assign nextId (player slot)); ev update_state] |},
       Some nextId)
  | (rest, None) =>
      let r1 := Part000.set_watchQueue rest (room w) in
      let r2 := Part000.set_players (set_seat (Part000.players r1) slot None) r1 in
      (emit (ev update_state) (set_room (Part000.set_started false r2) w), None)
  end.

(** The block that resets board and hands for a new match; [started] is what
    the caller writes. *)
Definition new_match (started : bool) (r : Part000.Room) : Part000.Room :=
  {| Part000.board := empty_board;
     Part000.players := reset_hands (Part000.players r);
     Part000.currentTurn := Some A;
     Part000.winner := None;
     Part000.started := started;
     Part000.watchQueue := Part000.watchQueue r;
     Part000.postDecisions := {| at_A := None; at_B := None |} |}.

(** The block that leaves the room waiting for players. *)
Definition wait_for_players (r : Part000.Room) : Part000.Room :=
  Part000.resetPostDecisions (Part000.set_winner None (Part000.set_started false r)).

(** The [if (A && B) {...} else {...}] that ends both quit branches of
    [postgame_decision]. *)
Definition start_or_wait (w : World) : World :=
  if both_seated (Part000.players (room w))
  then emit (ev start_game) (set_room (new_match true (room w)) w)
  else emit (ev update_state) (set_room (wait_for_players (room w)) w).

(** Removing the player of slot [s] who quit: the connection, if it is still
    there, is told to leave and loses its [playerSlot]; the slot is emptied. *)
Definition remove_quitter (s : Slot) (w : World) : World :=
  let w1 :=
    match seat (Part000.players (room w)) s with
    | Some pl =>
        match sockets w !! id pl with
        | Some leaverSock =>
            set_sockets (<[id pl := set_playerSlot None leaverSock]> (sockets w))
              (emit (force_leave_after_quit (id pl)) w)
        | None => w
        end
    | None => w
    end in
  set_player s None w1.

(** [if (roomState.postDecisions[s] === 'quit') {...}] of the first loop. *)
Definition remove_if_quit (s : Slot) (w : World) : World :=
  match per_slot (Part000.postDecisions (room w)) s with
  | Some Part000.quit => remove_quitter s w
  | _ => w
  end.

(** [if (!roomState.players[s]) promoteNextSpectatorToSlot(roomID, s)] of the
    second loop. *)
Definition promote_if_empty (s : Slot) (w : World) : World :=
  match seat (Part000.players (room w)) s with
  | Some _ => w
  | None => (promoteNextSpectatorToSlot s w).1
  end.

(** The array [decidedSlots]. *)
Definition decidedSlots (d : PerSlot (option Part000.Decision)) : list (Slot * Part000.Decision) :=
  match at_A d with Some a => [(A, a)] | None => [] end
  ++ match at_B d with Some b => [(B, b)] | None => [] end.

(** [socket.on("postgame_decision", ...)]; [slot] is
    [socket.data.playerSlot], [action] is [data.action] when it is
    ["continue"] or ["quit"] and [None] for anything else. *)
Definition postgame_decision (slot : option Role) (action : option Part000.Decision)
    (w : World) : World * FlowAck :=
  match slot with
  | Some (player slot) =>
      match action with
      | None => (w, invalid_action)
      | Some act =>
          let r1 := set_postDecisions
                      (set_per_slot (Part000.postDecisions (room w)) slot (Some act)) (room w) in
          let w1 := emit (ev (postgame_update (Some (player slot)))) (set_room r1 w) in
          let a := at_A (Part000.postDecisions r1) in
          let b := at_B (Part000.postDecisions r1) in
          let w2 :=
            match a, b with
            | Some a, Some b =>
                match a, b with
                | Part000.continue, Part000.continue =>
                    emit (ev start_game)
                      (set_room (new_match (both_seated (Part000.players (room w1))) (room w1)) w1)
                | _, _ =>
                    start_or_wait
                      (promote_if_empty B (promote_if_empty A
                         (remove_if_quit B (remove_if_quit A w1))))
                end
            | _, _ =>
                match decidedSlots (Part000.postDecisions r1) with
                | [(s, Part000.quit)] =>
                    start_or_wait ((promoteNextSpectatorToSlot s (remove_quitter s w1)).1)
                | _ => emit (ev update_state) w1
                end
            end in
          (w2, flow_ok)
      end
  | _ => (w, not_player)
  end.

(** [socket.on("restart_game", ...)]: any connection of the room may send it. *)
Definition restart_game (w : World) : World * FlowAck :=
  (emit (ev start_game)
     (set_room (new_match (both_seated (Part000.players (room w))) (room w)) w),
   flow_ok).

(** [socket.on("disconnect", ...)] for the connection [sid].  The transport
    has dropped [sid] from [io.sockets.sockets] when the handler runs.
    [remaining] tells whether [io.sockets.adapter.rooms] still lists a
    connection for the room; when it does not the room is deleted ([None]). *)
Definition disconnect (sid : string) (remaining : bool) (w : World) : option World :=
  match sockets w !! sid with
  | None => Some w
  | Some d =>
      let w0 := set_sockets (delete sid (sockets w)) w in
      match roomID d with
      | None => Some w0
      | Some _ =>
          let w1 := set_room (Part000.removeFromWatchQueue sid (room w0)) w0 in
          let w2 :=
            match playerSlot d with
            | Some (player slot) =>
                match seat (Part000.players (room w1)) slot with
                | Some pl =>
                    if decide (id pl = sid) then
                      (promoteNextSpectatorToSlot slot
                         (set_room (Part000.set_started false (room (set_player slot None w1)))
                            (set_player slot None w1))).1
                    else w1
                | None => w1
                end
            | _ => w1
            end in
          if remaining then Some (emit (ev update_state) w2) else None
      end
  end.

End Part000Flow.

(* ===================================================================== *)
(** * Chat and cheer ([src/unnamed/part_000], [src/unnamed/part_001]) *)
(* ===================================================================== *)

Module Chat.

(** A chat or cheer message: [{name, text, time, slot}], with
    [type: "cheer"] on a cheer.  Strings are sequences of code units. *)
Record Msg := {
  msg_name : string;
  msg_text : string;
  msg_time : Z;
  msg_cheer : bool;
  msg_slot : option Role
}.

(** [text.slice(0, n)] *)
Definition slice0 (n : nat) (text : string) : string := String.substring 0 n text.

(** The placeholder name of the source. *)
Definition placeholder : string := "観戦者".

(** [chatLog.push(msg); if (chatLog.length > 50) chatLog.shift();] *)
Definition push_bounded (msg : Msg) (chatLog : list Msg) : list Msg :=
  let pushed := chatLog ++ [msg] in
  if decide (50 < length pushed)%nat then tail pushed else pushed.

(** Name resolution of part_000: the seated player's name for slot A or B,
    else [socket.data.name || placeholder]. *)
Definition name_000 (ps : Players) (slot : option Role) (sockName : string) : string :=
  match slot, pl_A ps, pl_B ps with
  | Some (player A), Some pa, _ => name pa
  | Some (player B), _, Some pb => name pb
  | _, _, _ => if decide (sockName = "") then placeholder else sockName
  end.

(** Name resolution of part_001: the seated player's name for slot A or B,
    the queue entry's name for a spectator found in the queue, else the
    placeholder. *)
Definition name_001 (ps : Players) (spectators : list Part001.Spectator)
    (slot : option Role) (sid : string) : string :=
  let name :=
    match slot, pl_A ps, pl_B ps with
    | Some (player A), Some pa, _ => name pa
    | Some (player B), _, Some pb => name pb
    | _, _, _ => placeholder
    end in
  match slot with
  | Some spectator =>
      match List.find (λ obj, bool_decide (Part001.sp_id obj = sid)) spectators with
      | Some s => Part001.sp_name s
      | None => name
      end
  | _ => name
  end.

(** The body shared by the chat handlers once the name is known: truncate,
    drop an empty text, build the message, store it when [store], emit it.
    The result is the chat log and the message emitted, if any. *)
Definition post (limit : nat) (cheer store : bool) (name : string) (slot : option Role)
    (text : string) (now : Z) (chatLog : list Msg) : list Msg * option Msg :=
  let text := slice0 limit text in
  if decide (text = "") then (chatLog, None)
  else
    let msg := {| msg_name := name; msg_text := text; msg_time := now;
                  msg_cheer := cheer; msg_slot := slot |} in
    (if store then push_bounded msg chatLog else chatLog, Some msg).

(** part_000 [socket.on("chat_message", ...)] and [socket.on("cheer", ...)]. *)
Definition chat_message_000 (ps : Players) (slot : option Role) (sockName text : string)
    (now : Z) (chatLog : list Msg) : list Msg * option Msg :=
  post 200 false true (name_000 ps slot sockName) slot text now chatLog.

Definition cheer_000 (ps : Players) (slot : option Role) (sockName text : string)
    (now : Z) (chatLog : list Msg) : list Msg * option Msg :=
  post 50 true true (name_000 ps slot sockName) slot text now chatLog.

(** part_001 [socket.on("chat_message", ...)] and [socket.on("cheer", ...)];
    the cheer is emitted and not stored. *)
Definition chat_message_001 (ps : Players) (spectators : list Part001.Spectator)
    (slot : option Role) (sid text : string) (now : Z) (chatLog : list Msg)
  : list Msg * option Msg :=
  post 200 false true (name_001 ps spectators slot sid) slot text now chatLog.

Definition cheer_001 (ps : Players) (spectators : list Part001.Spectator)
    (slot : option Role) (sid text : string) (now : Z) (chatLog : list Msg)
  : list Msg * option Msg :=
  post 50 true false (name_001 ps spectators slot sid) slot text now chatLog.

End Chat.

(* ===================================================================== *)
(** * Auxiliary definitions for the statements *)
(* ===================================================================== *)

Definition undecided {D} : PerSlot (option D) := {| at_A := None; at_B := None |}.

(** What was broadcast to the room between two states of the log. *)
Definition broadcast_since (log log' : list Event) : list Event :=
  filter (λ e, is_broadcast e = true) (emitted_since log log').

(** The player [promoteFromQueue] builds from a connection. *)
Definition promoted (found : string * SocketData) : Player :=
  {| id := found.1; name := data_name found.2; pieces := full_hand |}.

(** server.js [forceEndGame]: the watch queue once the leaver, if seated, has
    been pushed to its back. *)
Definition queue_with_leaver (leaverSlot : Slot) (r : ServerJs.Room) : list string :=
  ServerJs.watchQueue r
  ++ match seat (ServerJs.players r) leaverSlot with Some l => [id l] | None => [] end.




(** part_001: the room with the decision of [slot] stored. *)
Definition part001_recorded (slot : Slot) (decision : option Part001.Decision)
    (r : Part001.Room) : Part001.Room :=
  Part001.set_pendingDecisions (set_per_slot (Part001.pendingDecisions r) slot decision) r.

(** part_001: the choices [resolveGameDecisions] computes on entry, and the
    state after its step 1 (both slots dispatched). *)
Definition choiceA (w : Part001.World) : Part001.Decision :=
  Part001.choice_of (pl_A (Part001.players (Part001.room w)))
    (at_A (Part001.pendingDecisions (Part001.room w))).
Definition choiceB (w : Part001.World) : Part001.Decision :=
  Part001.choice_of (pl_B (Part001.players (Part001.room w)))
    (at_B (Part001.pendingDecisions (Part001.room w))).
Definition dispatched (w : Part001.World) : Part001.World :=
  Part001.dispatch B (pl_B (Part001.players (Part001.room w))) (choiceB w)
    (Part001.dispatch A (pl_A (Part001.players (Part001.room w))) (choiceA w) w).

(** No hand count is negative. *)
Definition hand_nonneg (h : Hand) : Prop :=
  0 ≤ n_small h ∧ 0 ≤ n_medium h ∧ 0 ≤ n_large h.

Definition hands_nonneg (ps : Players) : Prop :=
  ∀ s p, seat ps s = Some p → hand_nonneg (pieces p).

(** A stack in which every piece is strictly larger than the one below it,
    and a board made of such stacks. *)
Fixpoint ascending (st : list Piece) : Prop :=
  match st with
  | [] => True
  | p :: rest =>
      match rest with
      | [] => True
      | q :: _ => gt (SIZE_VAL (size q)) (SIZE_VAL (size p))
      end ∧ ascending rest
  end.

Definition board_stacked (board : Board) : Prop := Forall (Forall ascending) board.

(** Every seated player holds a full hand. *)
Definition hands_full (ps : Players) : Prop :=
  ∀ s p, seat ps s = Some p → pieces p = full_hand.

(** A winner is never pending while the match is marked started. *)
Definition settled (started : bool) (winner : option Slot) : Prop :=
  started = true → winner = None.

(** A world of part_000 seen by the handlers of [Part000Flow]. *)
Definition lift000 (w : Part000.World) : Part000Flow.World :=
  {| Part000Flow.room := Part000.room w;
     Part000Flow.sockets := Part000.sockets w;
     Part000Flow.log := Part000Flow.ev <$> Part000.log w |}.

(** What an accepted request leaves, given the winner check on the board it
    produced: [emitted] is what the handler emitted. *)
Definition turn_outcome (slot : Slot) (check : option Slot)
    (turn turn' : option Slot) (started' : bool) (winner' : option Slot)
    (emitted : list Event) : Prop :=
  match check with
  | None =>
      turn' = Some (other_slot slot) ∧ started' = true ∧ winner' = None ∧
      emitted = [update_state]
  | Some win =>
      turn' = turn ∧ started' = false ∧ winner' = Some win ∧
      emitted = [game_over win]
  end.

(** What the handlers of part_000 and part_001 keep true of a room: a started
    match has no winner and both seats taken, every stack is strictly
    ascending and no hand count is negative. *)
Definition sound (board : Board) (ps : Players) (started : bool) (winner : option Slot)
  : Prop :=
  settled started winner ∧ (started = true → both_seated ps = true) ∧
  board_stacked board ∧ hands_nonneg ps.

(** part_001: moreover the recorded winner is what the winner check says of
    the board. *)
Definition part001_sound (w : Part001.World) : Prop :=
  sound (Part001.board (Part001.room w)) (Part001.players (Part001.room w))
    (Part001.started (Part001.room w)) (Part001.winner (Part001.room w)) ∧
  Part001.winner (Part001.room w) = Part001.checkWinner (Part001.board (Part001.room w)).

(** One event seen from a room of part_001: a join, or a request of a
    connection bound to the room, whose role is what its [socket.data] says,
    or a disconnect; or the connections change through events that do not
    reach the room (a connect, a join or a disconnect elsewhere). *)
Inductive part001_step (w : Part001.World) : Part001.World → Prop :=
  | part001_step_join sid rid nm :
      part001_step w (Part001.join sid rid nm w).1
  | part001_step_place sid d payload :
      Part001.sockets w !! sid = Some d → is_Some (roomID d) →
      part001_step w (Part001.place_piece (playerSlot d) payload w).1
  | part001_step_decision sid d decision :
      Part001.sockets w !! sid = Some d → is_Some (roomID d) →
      part001_step w (Part001.post_game_decision (playerSlot d) decision w)
  | part001_step_disconnect sid :
      part001_step w (Part001.disconnect sid w)
  | part001_step_elsewhere socks :
      part001_step w (Part001.set_sockets socks w).

(** part_000: the same with a watch queue free of duplicates; and the part
    of it that does not depend on [started]. *)
Definition part000_sound (r : Part000.Room) : Prop :=
  sound (Part000.board r) (Part000.players r) (Part000.started r) (Part000.winner r) ∧
  NoDup (Part000.watchQueue r).

Definition part000_kept (r : Part000.Room) : Prop :=
  board_stacked (Part000.board r) ∧ hands_nonneg (Part000.players r) ∧
  NoDup (Part000.watchQueue r).

(** What the handlers of part_000 act on: the room and the connections. *)
Definition State000 : Type := Part000.Room * gmap string SocketData.

Definition view (w : Part000.World) : State000 := (Part000.room w, Part000.sockets w).
Definition flow_view (w : Part000Flow.World) : State000 :=
  (Part000Flow.room w, Part000Flow.sockets w).

(** One event seen from a room of part_000: a join, or a request of a
    connection bound to the room, whose role is what its [socket.data] says,
    or a disconnect that leaves the room in place; or the connections change
    through events that do not reach the room (a connect, a join or a
    disconnect elsewhere). *)
Inductive part000_step : State000 → State000 → Prop :=
  | part000_step_join sid rid nm w :
      part000_step (view w) (view (Part000.join sid rid nm w).1)
  | part000_step_place sid d payload w :
      Part000.sockets w !! sid = Some d → is_Some (roomID d) →
      part000_step (view w) (view (Part000.place_piece (playerSlot d) payload w).1)
  | part000_step_decision sid d action w :
      Part000Flow.sockets w !! sid = Some d → is_Some (roomID d) →
      part000_step (flow_view w)
        (flow_view (Part000Flow.postgame_decision (playerSlot d) action w).1)
  | part000_step_restart sid d w :
      Part000Flow.sockets w !! sid = Some d → is_Some (roomID d) →
      part000_step (flow_view w) (flow_view (Part000Flow.restart_game w).1)
  | part000_step_disconnect sid remaining w w' :
      Part000Flow.disconnect sid remaining w = Some w' →
      part000_step (flow_view w) (flow_view w')
  | part000_step_elsewhere r socks socks' :
      part000_step (r, socks) (r, socks').



(** part_000: a room whose post-game has been resolved. *)
Definition resolved000 (r : Part000.Room) : Prop :=
  Part000.postDecisions r = undecided ∧
  Part000.winner r = None ∧
  Part000.started r = both_seated (Part000.players r) ∧
  (Part000.started r = true →
     Part000.board r = empty_board ∧ hands_full (Part000.players r) ∧
     Part000.currentTurn r = Some A).

(** part_000: the player [promoteNextSpectatorToSlot] builds from a
    connection. *)
Definition promoted000 (sid : string) (d : SocketData) : Player :=
  {| id := sid; name := if decide (data_name d = "") then "Spectator" else data_name d;
     pieces := full_hand |}.

(** What a handler that stores its message makes of a chat log of at most
    fifty lines: the log stays within fifty lines, and a message that is
    emitted is appended, the oldest line going when the log was full. *)
Definition stored (chatLog : list Chat.Msg) (r : list Chat.Msg * option Chat.Msg) : Prop :=
  (length r.1 ≤ 50)%nat ∧
  match r.2 with
  | None => r.1 = chatLog
  | Some msg =>
      r.1 = (if decide (length chatLog < 50)%nat then chatLog else drop 1 chatLog) ++ [msg]
  end.


(** What a join makes of the seats: nobody seated is displaced or loses a
    piece; the joiner takes A if it is free, else B if it is free, with a
    full hand, and otherwise watches. *)
Definition joined (sid nm : string) (ps ps' : Players) (role : Role) : Prop :=
  (∀ s p, seat ps s = Some p → seat ps' s = Some p) ∧
  role = (if truthy (pl_A ps) then if truthy (pl_B ps) then spectator else player B
          else player A) ∧
  match role with
  | player s =>
      seat ps s = None ∧
      seat ps' s = Some {| id := sid; name := nm; pieces := full_hand |}
  | spectator => ps' = ps
  end.

(* ===================================================================== *)
(** * States used as concrete inputs *)
(* ===================================================================== *)

(** The room id is "x" throughout; Alice is connection a1, Bob b1, Carol c1,
    Dave d1, and z9 is a connection that is gone. *)

Definition piece_of (o : Slot) (sz : Size) : Piece := {| owner := o; size := sz |}.

Definition hand_of (s m l : Z) : Hand := {| n_small := s; n_medium := m; n_large := l |}.

(** After A placed a small piece at (0,0): B to move. *)
Definition opening_board : Board :=
  [ [ [piece_of A small]; []; [] ];
    [ []; []; [] ];
    [ []; []; [] ] ].

(** After B then placed a medium piece at (0,1): A to move. *)
Definition midgame_board : Board :=
  [ [ [piece_of A small]; [piece_of B medium]; [] ];
    [ []; []; [] ];
    [ []; []; [] ] ].

(** A finished match: A played small (1,0), small (1,1), medium (2,2); B
    played small (0,0), small (0,1), medium (0,2) and has row 0. *)
Definition won_board : Board :=
  [ [ [piece_of B small]; [piece_of B small]; [piece_of B medium] ];
    [ [piece_of A small]; [piece_of A small]; [] ];
    [ []; []; [piece_of A medium] ] ].

(** Alice after her first placement, Bob after his. *)
Definition alice : Player := {| id := "a1"; name := "Alice"; pieces := hand_of 1 2 2 |}.
Definition bob : Player := {| id := "b1"; name := "Bob"; pieces := hand_of 2 1 2 |}.

(** Alice and Bob at the end of the match on [won_board]. *)
Definition alice_end : Player := with_pieces (hand_of 0 1 2) alice.
Definition bob_end : Player := with_pieces (hand_of 0 1 2) bob.

(** [socket.data] after a join of server.js or part_000, which store the
    name, and after a join of part_001, which does not. *)
Definition seated (slot : Role) (nm : string) : SocketData :=
  {| roomID := Some "x"; playerSlot := Some slot; data_name := nm |}.
Definition bound (slot : Role) : SocketData :=
  {| roomID := Some "x"; playerSlot := Some slot; data_name := "" |}.

Definition two_sockets : gmap string SocketData :=
  {[ "a1" := seated (player A) "Alice"; "b1" := seated (player B) "Bob" ]}.

Definition three_sockets : gmap string SocketData :=
  {[ "a1" := seated (player A) "Alice"; "b1" := seated (player B) "Bob";
     "c1" := seated spectator "Carol" ]}.

Definition four_sockets : gmap string SocketData :=
  {[ "a1" := seated (player A) "Alice"; "b1" := seated (player B) "Bob";
     "c1" := seated spectator "Carol"; "d1" := seated spectator "Dave" ]}.

Definition two_bound : gmap string SocketData :=
  {[ "a1" := bound (player A); "b1" := bound (player B) ]}.

Definition four_bound : gmap string SocketData :=
  {[ "a1" := bound (player A); "b1" := bound (player B);
     "c1" := bound spectator; "d1" := bound spectator ]}.

(** ** server.js *)

(** A room nobody has joined yet. *)
Definition server_js_fresh : ServerJs.World :=
  {| ServerJs.room := ServerJs.createNewGameState;
     ServerJs.sockets := ∅;
     ServerJs.log := [] |}.

(** Match running, A to move. *)
Definition server_js_midgame : ServerJs.World :=
  {| ServerJs.room :=
       {| ServerJs.board := midgame_board;
          ServerJs.players := {| pl_A := Some alice; pl_B := Some bob |};
          ServerJs.currentTurn := Some A;
          ServerJs.winner := None;
          ServerJs.started := true;
          ServerJs.watchQueue := [];
          ServerJs.postDecisions := undecided |};
     ServerJs.sockets := two_sockets;
     ServerJs.log := [] |}.

(** Alice joins, Bob joins, Alice places a small piece at (0,0), Bob places
    a medium piece at (0,1). *)
Definition server_js_opening : ServerJs.World :=
  let w1 := (ServerJs.join "a1" "x" "Alice" server_js_fresh).1 in
  let w2 := (ServerJs.join "b1" "x" "Bob" w1).1 in
  let w3 := (ServerJs.place_piece (Some (player A)) (place_from_hand small (0, 0)%nat) w2).1 in
  (ServerJs.place_piece (Some (player B)) (place_from_hand medium (0, 1)%nat) w3).1.

(** Match running, B to move. *)
Definition server_js_running : ServerJs.World :=
  {| ServerJs.room :=
       {| ServerJs.board := opening_board;
          ServerJs.players := {| pl_A := Some alice; pl_B := Some (with_pieces full_hand bob) |};
          ServerJs.currentTurn := Some B;
          ServerJs.winner := None;
          ServerJs.started := true;
          ServerJs.watchQueue := [];
          ServerJs.postDecisions := undecided |};
     ServerJs.sockets := two_sockets;
     ServerJs.log := [] |}.

(** Match over, won by B, Carol in the queue: Alice (A) has chosen to leave,
    Bob (B) to continue. *)
Definition server_js_postgame : ServerJs.World :=
  {| ServerJs.room :=
       {| ServerJs.board := won_board;
          ServerJs.players := {| pl_A := Some alice_end; pl_B := Some bob_end |};
          ServerJs.currentTurn := Some B;
          ServerJs.winner := Some B;
          ServerJs.started := false;
          ServerJs.watchQueue := ["c1"];
          ServerJs.postDecisions :=
            {| at_A := Some ServerJs.leave; at_B := Some ServerJs.continue |} |};
     ServerJs.sockets := three_sockets;
     ServerJs.log := [] |}.


(** Slot A empty, Bob at B, and a queue whose first entry is gone. *)
Definition server_js_stale_queue : ServerJs.World :=
  {| ServerJs.room :=
       {| ServerJs.board := empty_board;
          ServerJs.players := {| pl_A := None; pl_B := Some (with_pieces full_hand bob) |};
          ServerJs.currentTurn := Some A;
          ServerJs.winner := None;
          ServerJs.started := false;
          ServerJs.watchQueue := ["z9"; "c1"; "d1"];
          ServerJs.postDecisions := undecided |};
     ServerJs.sockets := four_sockets;
     ServerJs.log := [] |}.

(** Alice and Bob join, the match on [won_board] is played and won by B,
    Alice asks for another match; Bob has not answered. *)
Definition server_js_decided : ServerJs.World :=
  let w := (ServerJs.join "a1" "x" "Alice" server_js_fresh).1 in
  let w := (ServerJs.join "b1" "x" "Bob" w).1 in
  let w := (ServerJs.place_piece (Some (player A)) (place_from_hand small (1, 0)%nat) w).1 in
  let w := (ServerJs.place_piece (Some (player B)) (place_from_hand small (0, 0)%nat) w).1 in
  let w := (ServerJs.place_piece (Some (player A)) (place_from_hand small (1, 1)%nat) w).1 in
  let w := (ServerJs.place_piece (Some (player B)) (place_from_hand small (0, 1)%nat) w).1 in
  let w := (ServerJs.place_piece (Some (player A)) (place_from_hand medium (2, 2)%nat) w).1 in
  let w := (ServerJs.place_piece (Some (player B)) (place_from_hand medium (0, 2)%nat) w).1 in
  (ServerJs.postgame_decision (Some (player A)) (Some ServerJs.continue) w).1.

(** Alice, Bob and Carol have joined: Alice at A, Bob at B, Carol watching. *)
Definition server_js_three : ServerJs.World :=
  let w := (ServerJs.join "a1" "x" "Alice" server_js_fresh).1 in
  let w := (ServerJs.join "b1" "x" "Bob" w).1 in
  (ServerJs.join "c1" "x" "Carol" w).1.

(** Alice then quits: Bob is moved to slot A, Carol is promoted into slot B
    and Alice is left in the queue. *)
Definition server_js_after_quit : ServerJs.World :=
  (ServerJs.force_quit (seated (player A) "Alice") None server_js_three).1.

(** Alice alone in the room she has just joined. *)
Definition server_js_alone : ServerJs.World :=
  (ServerJs.join "a1" "x" "Alice" server_js_fresh).1.

(** ** part_000 *)

Definition part000_fresh : Part000.World :=
  {| Part000.room := Part000.createNewGameState;
     Part000.sockets := ∅;
     Part000.log := [] |}.

(** Match running, B to move. *)
Definition part000_running : Part000.World :=
  {| Part000.room :=
       {| Part000.board := opening_board;
          Part000.players := {| pl_A := Some alice; pl_B := Some (with_pieces full_hand bob) |};
          Part000.currentTurn := Some B;
          Part000.winner := None;
          Part000.started := true;
          Part000.watchQueue := [];
          Part000.postDecisions := undecided |};
     Part000.sockets := two_sockets;
     Part000.log := [] |}.

(** Alice joins, Bob joins, Alice places a small piece at (0,0). *)
Definition part000_opening : Part000.World :=
  let w := (Part000.join "a1" "x" "Alice" part000_fresh).1 in
  let w := (Part000.join "b1" "x" "Bob" w).1 in
  (Part000.place_piece (Some (player A)) (place_from_hand small (0, 0)%nat) w).1.

(** Alice and Bob join and the match on [won_board] is played. *)
Definition part000_finished : Part000.World :=
  let w := (Part000.join "a1" "x" "Alice" part000_fresh).1 in
  let w := (Part000.join "b1" "x" "Bob" w).1 in
  let w := (Part000.place_piece (Some (player A)) (place_from_hand small (1, 0)%nat) w).1 in
  let w := (Part000.place_piece (Some (player B)) (place_from_hand small (0, 0)%nat) w).1 in
  let w := (Part000.place_piece (Some (player A)) (place_from_hand small (1, 1)%nat) w).1 in
  let w := (Part000.place_piece (Some (player B)) (place_from_hand small (0, 1)%nat) w).1 in
  let w := (Part000.place_piece (Some (player A)) (place_from_hand medium (2, 2)%nat) w).1 in
  (Part000.place_piece (Some (player B)) (place_from_hand medium (0, 2)%nat) w).1.

(** Match over, won by B; Alice has asked for another match, Bob has not
    answered. *)
Definition part000_decided : Part000.World :=
  {| Part000.room :=
       {| Part000.board := won_board;
          Part000.players := {| pl_A := Some alice_end; pl_B := Some bob_end |};
          Part000.currentTurn := Some B;
          Part000.winner := Some B;
          Part000.started := false;
          Part000.watchQueue := [];
          Part000.postDecisions := {| at_A := Some Part000.continue; at_B := None |} |};
     Part000.sockets := two_sockets;
     Part000.log := [] |}.

(** Match over, won by B, Carol and Dave watching; nobody has decided. *)
Definition part000_postgame : Part000Flow.World :=
  {| Part000Flow.room :=
       {| Part000.board := won_board;
          Part000.players := {| pl_A := Some alice_end; pl_B := Some bob_end |};
          Part000.currentTurn := Some B;
          Part000.winner := Some B;
          Part000.started := false;
          Part000.watchQueue := ["c1"; "d1"];
          Part000.postDecisions := undecided |};
     Part000Flow.sockets := four_sockets;
     Part000Flow.log := [] |}.

(** Match running, B to move, Carol watching. *)
Definition part000_watched : Part000Flow.World :=
  {| Part000Flow.room :=
       {| Part000.board := opening_board;
          Part000.players := {| pl_A := Some alice; pl_B := Some (with_pieces full_hand bob) |};
          Part000.currentTurn := Some B;
          Part000.winner := None;
          Part000.started := true;
          Part000.watchQueue := ["c1"];
          Part000.postDecisions := undecided |};
     Part000Flow.sockets := three_sockets;
     Part000Flow.log := [] |}.

(** Slot A empty, Bob at B, and a queue whose first entry is gone. *)
Definition part000_stale_queue : Part000Flow.World :=
  {| Part000Flow.room :=
       {| Part000.board := empty_board;
          Part000.players := {| pl_A := None; pl_B := Some (with_pieces full_hand bob) |};
          Part000.currentTurn := Some A;
          Part000.winner := None;
          Part000.started := false;
          Part000.watchQueue := ["z9"; "c1"; "d1"];
          Part000.postDecisions := undecided |};
     Part000Flow.sockets := four_sockets;
     Part000Flow.log := [] |}.

(** A chat log at its bound: fifty lines by Alice, stamped 1 to 50. *)
Definition chat_line (t : nat) : Chat.Msg :=
  {| Chat.msg_name := "Alice"; Chat.msg_text := "hi"; Chat.msg_time := Z.of_nat t;
     Chat.msg_cheer := false; Chat.msg_slot := Some (player A) |}.

Definition full_chat_log : list Chat.Msg := chat_line <$> seq 1 50.

(** ** part_001 *)

Definition part001_fresh : Part001.World :=
  {| Part001.room := Part001.createNewGameState;
     Part001.sockets := ∅;
     Part001.log := [] |}.

(** Alice seated at A in the room she has just joined; Bob not yet there. *)
Definition part001_waiting : Part001.World :=
  (Part001.join "a1" "x" "Alice" part001_fresh).1.

(** Match running, B to move. *)
Definition part001_running : Part001.World :=
  {| Part001.room :=
       {| Part001.board := opening_board;
          Part001.players := {| pl_A := Some alice; pl_B := Some (with_pieces full_hand bob) |};
          Part001.spectators := [];
          Part001.currentTurn := Some B;
          Part001.winner := None;
          Part001.started := true;
          Part001.pendingDecisions := undecided |};
     Part001.sockets := two_bound;
     Part001.log := [] |}.

(** Match over, won by B, nobody has decided yet. *)
Definition part001_postgame : Part001.World :=
  {| Part001.room :=
       {| Part001.board := won_board;
          Part001.players := {| pl_A := Some alice_end; pl_B := Some bob_end |};
          Part001.spectators := [];
          Part001.currentTurn := Some B;
          Part001.winner := Some B;
          Part001.started := false;
          Part001.pendingDecisions := undecided |};
     Part001.sockets := two_bound;
     Part001.log := [] |}.

(** Alice and Bob join and the match on [won_board] is played. *)
Definition part001_finished : Part001.World :=
  let w := (Part001.join "a1" "x" "Alice" part001_fresh).1 in
  let w := (Part001.join "b1" "x" "Bob" w).1 in
  let w := (Part001.place_piece (Some (player A)) (place_from_hand small (1, 0)%nat) w).1 in
  let w := (Part001.place_piece (Some (player B)) (place_from_hand small (0, 0)%nat) w).1 in
  let w := (Part001.place_piece (Some (player A)) (place_from_hand small (1, 1)%nat) w).1 in
  let w := (Part001.place_piece (Some (player B)) (place_from_hand small (0, 1)%nat) w).1 in
  let w := (Part001.place_piece (Some (player A)) (place_from_hand medium (2, 2)%nat) w).1 in
  (Part001.place_piece (Some (player B)) (place_from_hand medium (0, 2)%nat) w).1.

(** The same match; Alice has asked for another one, Bob has not answered. *)
Definition part001_decided : Part001.World :=
  Part001.post_game_decision (Some (player A)) (Some Part001.rematch) part001_finished.

(** Match over, A has chosen to leave and B has not decided; the queue holds
    Zed (z9, whose connection is gone), then Carol, then Dave. *)
Definition part001_stale_queue : Part001.World :=
  {| Part001.room :=
       {| Part001.board := won_board;
          Part001.players := {| pl_A := Some alice_end; pl_B := Some bob_end |};
          Part001.spectators :=
            [ {| Part001.sp_id := "z9"; Part001.sp_name := "Zed" |};
              {| Part001.sp_id := "c1"; Part001.sp_name := "Carol" |};
              {| Part001.sp_id := "d1"; Part001.sp_name := "Dave" |} ];
          Part001.currentTurn := Some B;
          Part001.winner := Some B;
          Part001.started := false;
          Part001.pendingDecisions := {| at_A := Some Part001.leave; at_B := None |} |};
     Part001.sockets := four_bound;
     Part001.log := [] |}.

(* ===================================================================== *)
(** * Properties of the rules engines *)
(* ===================================================================== *)

Section Rules.

Implicit Types (board : Board) (st : list Piece) (sz : Size) (o : Slot).

(** ** Placement legality *)

Lemma server_js_canPlaceAt_cell board r c st sz :
  cell board r c = Some st →
  ServerJs.canPlaceAt board r c sz
  = Some (match last st with
          | None => true
          | Some t => bool_decide (gt (SIZE_VAL sz) (SIZE_VAL (size t)))
          end).
Proof. intros Hc. unfold ServerJs.canPlaceAt. by rewrite Hc. Qed.

Lemma canPlaceAt_000_server_js board r c sz :
  Part000.canPlaceAt board r c sz = ServerJs.canPlaceAt board r c sz.
Proof.
  unfold Part000.canPlaceAt, ServerJs.canPlaceAt.
  destruct (cell board r c) as [st|]; simpl; [|done].
  destruct (last st) as [t|]; [|done]. by case_bool_decide.
Qed.

Lemma canPlaceAt_001_000 board r c sz :
  Part001.canPlaceAt board r c sz = Part000.canPlaceAt board r c sz.
Proof. reflexivity. Qed.

Lemma legal_on_last st sz :
  legal_on st sz ↔
  match last st with None => True | Some t => gt (SIZE_VAL sz) (SIZE_VAL (size t)) end.
Proof.
  unfold legal_on. destruct (last st) as [t|] eqn:Hl.
  - split.
    + intros [->|(top & Ht & Hlt)]; [done|]. by injection Ht as ->.
    + intros Hgt. right. by exists t.
  - split; [done|]. intros _. left. by apply last_None.
Qed.

Lemma server_js_canPlaceAt_legal board r c st sz :
  cell board r c = Some st →
  (ServerJs.canPlaceAt board r c sz = Some true ↔ legal_on st sz) ∧
  (ServerJs.canPlaceAt board r c sz = Some false ↔ ¬ legal_on st sz).
Proof.
  intros Hc. rewrite (server_js_canPlaceAt_cell _ _ _ _ _ Hc), !legal_on_last.
  destruct (last st) as [t|]; [case_bool_decide|]; naive_solver.
Qed.

(** ** Win detection *)

Lemma top_owner_000_server_js board rc :
  Part000.top_owner board rc = ServerJs.top_owner board rc.
Proof.
  unfold Part000.top_owner, ServerJs.top_owner.
  by destruct (stack_at board rc.1 rc.2).
Qed.

Lemma checkWinner_for_000_server_js board ls :
  Part000.checkWinner_for board ls = ServerJs.checkWinner_for board ls.
Proof.
  induction ls as [|line rest IH]; [done|]. simpl.
  replace (Part000.top_owner board <$> line) with (ServerJs.top_owner board <$> line)
    by (apply list_fmap_ext; intros; symmetry; apply top_owner_000_server_js).
  by rewrite IH.
Qed.

Lemma top_owner_Some board r c o :
  ServerJs.top_owner board (r, c) = Some o ↔
  ∃ st top, cell board r c = Some st ∧ last st = Some top ∧ owner top = o.
Proof.
  unfold ServerJs.top_owner, stack_at. simpl. split.
  - destruct (cell board r c) as [st|]; simpl; [|done].
    destruct (last st) as [top|] eqn:Hl; simpl; [|done].
    intros [= <-]. by exists st, top.
  - intros (st & top & -> & Hl & <-). simpl. by rewrite Hl.
Qed.

Lemma wins_top_owner board line o :
  wins board line o ↔ ∀ rc, rc ∈ line → ServerJs.top_owner board rc = Some o.
Proof.
  unfold wins. split.
  - intros H [r c] Hin. apply top_owner_Some. by apply H.
  - intros H r c Hin. apply top_owner_Some. by apply H.
Qed.

Lemma same_owner_true (first x : option Slot) :
  same_owner first x = true ↔ ∃ o, x = Some o ∧ first = Some o.
Proof.
  unfold same_owner. destruct x as [o|].
  - rewrite bool_decide_eq_true. split.
    + intros Hx. by exists o.
    + by intros (o' & -> & ->).
  - split; [done|]. by intros (o' & ? & _).
Qed.

(** The test of one line, read against [wins]. *)
Lemma line_test_true board line :
  line ≠ [] →
  let os := ServerJs.top_owner board <$> line in
  forallb (same_owner (hd None os)) os = true →
  ∃ o, hd None os = Some o ∧ wins board line o.
Proof.
  intros Hne os Hall.
  destruct line as [|rc0 line']; [done|].
  rewrite forallb_forall in Hall.
  assert (∃ o, hd None os = Some o) as [o Ho].
  { assert (same_owner (hd None os) (ServerJs.top_owner board rc0) = true) as Hb
      by (apply Hall; by left).
    apply same_owner_true in Hb as (o & _ & Ho). by exists o. }
  exists o. split; [done|]. apply wins_top_owner. intros rc Hin.
  assert (In (ServerJs.top_owner board rc) os) as Hin'.
  { apply list_elem_of_In, list_elem_of_fmap. by exists rc. }
  apply Hall, same_owner_true in Hin' as (o' & Hx & Ho').
  congruence.
Qed.

Lemma line_test_false board line :
  let os := ServerJs.top_owner board <$> line in
  forallb (same_owner (hd None os)) os = false →
  ∀ o, ¬ wins board line o.
Proof.
  intros os Hall o Hw. rewrite wins_top_owner in Hw.
  assert (forallb (same_owner (hd None os)) os = true) as Ht; [|congruence].
  apply forallb_forall. intros x Hx.
  apply list_elem_of_In, list_elem_of_fmap in Hx as (rc & -> & Hin).
  apply same_owner_true. exists o. split; [by apply Hw|].
  destruct line as [|rc0 line']; [by apply elem_of_nil in Hin|].
  subst os. simpl. apply Hw. by left.
Qed.

Lemma wins_unique board line o1 o2 :
  line ≠ [] → wins board line o1 → wins board line o2 → o1 = o2.
Proof.
  intros Hne H1 H2. destruct line as [|[r c] line']; [done|].
  destruct (H1 r c) as (st & top & Hc & Hl & <-); [by left|].
  destruct (H2 r c) as (st' & top' & Hc' & Hl' & <-); [by left|].
  congruence.
Qed.

(** [checkWinner_for] returns the owner of the first winning line of its
    table, in table order. *)
Lemma checkWinner_for_first board ls o :
  Forall (λ line, line ≠ []) ls →
  ServerJs.checkWinner_for board ls = Some o ↔
  ∃ i line, ls !! i = Some line ∧ wins board line o ∧
    ∀ j line' o', (j < i)%nat → ls !! j = Some line' → ¬ wins board line' o'.
Proof.
  induction 1 as [|line rest Hne Hrest IH]; simpl.
  { split; [done|]. by intros (i & line & Hi & _). }
  destruct (forallb _ _) eqn:Htest.
  - destruct (line_test_true board line Hne Htest) as (o0 & -> & Hw0). split.
    + intros [= <-]. exists 0%nat, line. repeat split; [done|]. intros; lia.
    + intros (i & line' & Hi & Hw & Hfirst). destruct i as [|i].
      * injection Hi as <-. f_equal. by eapply wins_unique.
      * exfalso. eapply (Hfirst 0%nat line o0); [lia|done|done].
  - pose proof (line_test_false board line Htest) as Hno.
    rewrite IH. split.
    + intros (i & line' & Hi & Hw & Hfirst). exists (S i), line'.
      repeat split; [done..|]. intros [|j] l' o' Hlt Hj.
      * injection Hj as <-. apply Hno.
      * eapply Hfirst; [|done]. lia.
    + intros (i & line' & Hi & Hw & Hfirst). destruct i as [|i].
      * injection Hi as <-. by destruct (Hno o).
      * exists i, line'. repeat split; [done..|]. intros j l' o' Hlt Hj.
        apply (Hfirst (S j) l' o'); [lia|done].
Qed.

Lemma checkWinner_for_none board ls :
  Forall (λ line, line ≠ []) ls →
  ServerJs.checkWinner_for board ls = None ↔
  ∀ line o, line ∈ ls → ¬ wins board line o.
Proof.
  induction 1 as [|line rest Hne Hrest IH]; simpl.
  { split; [|done]. intros _ line o Hin. by apply elem_of_nil in Hin. }
  destruct (forallb _ _) eqn:Htest.
  - destruct (line_test_true board line Hne Htest) as (o0 & -> & Hw0). split; [done|].
    intros Hno. destruct (Hno line o0); [by left|done].
  - pose proof (line_test_false board line Htest) as Hno.
    rewrite IH. split.
    + intros Hall l o Hin. apply elem_of_cons in Hin as [->|Hin]; [apply Hno|by apply Hall].
    + intros Hall l o Hin. apply Hall. by right.
Qed.

Lemma L_nonempty : Forall (λ line : list (nat * nat), line ≠ []) ServerJs.L.
Proof. unfold ServerJs.L. by repeat constructor. Qed.

(** C7: for a cell of the board, [canPlaceAt] (server.js and part_000) is
    true exactly when the cell's stack is empty or its top piece is strictly
    smaller than the piece placed, and false exactly otherwise; in particular
    it is false whenever the top piece is not strictly smaller: when it has
    equal or larger size, and when one of the two sizes is none of the three
    names. *)
Theorem canPlaceAt_iff_empty_or_strictly_smaller board r c st sz :
  cell board r c = Some st →
  (ServerJs.canPlaceAt board r c sz = Some true ↔ legal_on st sz) ∧
  (ServerJs.canPlaceAt board r c sz = Some false ↔ ¬ legal_on st sz) ∧
  (Part000.canPlaceAt board r c sz = Some true ↔ legal_on st sz) ∧
  (Part000.canPlaceAt board r c sz = Some false ↔ ¬ legal_on st sz) ∧
  (∀ top, last st = Some top → ¬ gt (SIZE_VAL sz) (SIZE_VAL (size top)) →
     ServerJs.canPlaceAt board r c sz = Some false ∧
     Part000.canPlaceAt board r c sz = Some false).
Proof.
  intros Hc. rewrite canPlaceAt_000_server_js.
  destruct (server_js_canPlaceAt_legal board r c st sz Hc) as [Ht Hf].
  assert (∀ top, last st = Some top → ¬ gt (SIZE_VAL sz) (SIZE_VAL (size top)) →
            ServerJs.canPlaceAt board r c sz = Some false) as Hge.
  { intros top Hl Hle. apply Hf. by rewrite legal_on_last, Hl. }
  split_and!; [exact Ht|exact Hf|exact Ht|exact Hf|].
  intros top Hl Hle. split; by eapply Hge.
Qed.

Lemma canPlaceAt_iff_empty_or_strictly_smaller_witness :
  cell stacked_board 0 0
  = Some [{| owner := A; size := small |}; {| owner := B; size := medium |}] ∧
  ServerJs.canPlaceAt stacked_board 0 0 large = Some true ∧
  ServerJs.canPlaceAt stacked_board 0 0 medium = Some false.
Proof.
  split; [reflexivity|].
  pose proof (canPlaceAt_iff_empty_or_strictly_smaller stacked_board 0 0 _ large eq_refl)
    as (Ht & _).
  pose proof (canPlaceAt_iff_empty_or_strictly_smaller stacked_board 0 0 _ medium eq_refl)
    as (_ & _ & _ & _ & Hf).
  split.
  - apply Ht. right. eexists. split; [reflexivity|]. simpl. lia.
  - apply (Hf {| owner := B; size := medium |}); [reflexivity|]. simpl. lia.
Defined.

Lemma server_js_returns_first_winner board :
  returns_first_winner ServerJs.checkWinner ServerJs.L board.
Proof.
  split.
  - intros o. apply checkWinner_for_first, L_nonempty.
  - apply checkWinner_for_none, L_nonempty.
Qed.

Lemma checkWinner_001_server_js board :
  Part001.checkWinner board = ServerJs.checkWinner board.
Proof. apply (checkWinner_for_000_server_js board Part000.lines). Qed.

(** C8: [checkWinner] (server.js and part_001) scans the 8 lines in the order
    rows, columns, diagonals; it returns the owner of the first line whose
    three cells are all non-empty with top pieces of one owner, and null when
    there is no such line; when two lines win at once, the owner of the one
    earlier in the scan is returned. *)
Theorem checkWinner_first_line_in_scan_order board :
  ServerJs.L = rows ++ cols ++ diags ∧
  Part001.lines = rows ++ cols ++ diags ∧
  returns_first_winner ServerJs.checkWinner (rows ++ cols ++ diags) board ∧
  returns_first_winner Part001.checkWinner (rows ++ cols ++ diags) board ∧
  (∀ i j li lj oi oj,
     (i < j)%nat →
     (rows ++ cols ++ diags) !! i = Some li → wins board li oi →
     (rows ++ cols ++ diags) !! j = Some lj → wins board lj oj →
     (∀ k lk ok, (rows ++ cols ++ diags) !! k = Some lk → wins board lk ok → k = i ∨ k = j) →
     ServerJs.checkWinner board = Some oi ∧ Part001.checkWinner board = Some oi) ∧
  wins two_rows_board [(0,0);(0,1);(0,2)]%nat B ∧
  wins two_rows_board [(1,0);(1,1);(1,2)]%nat A ∧
  ServerJs.checkWinner two_rows_board = Some B ∧
  Part001.checkWinner two_rows_board = Some B.
Proof.
  pose proof (server_js_returns_first_winner board) as Hjs.
  assert (returns_first_winner Part001.checkWinner ServerJs.L board) as H001.
  { unfold returns_first_winner. rewrite checkWinner_001_server_js. exact Hjs. }
  change (rows ++ cols ++ diags) with ServerJs.L.
  assert (∀ i j li lj oi oj,
     (i < j)%nat →
     ServerJs.L !! i = Some li → wins board li oi →
     ServerJs.L !! j = Some lj → wins board lj oj →
     (∀ k lk ok, ServerJs.L !! k = Some lk → wins board lk ok → k = i ∨ k = j) →
     ServerJs.checkWinner board = Some oi) as Htwo.
  { intros i j li lj oi oj Hij Hi Hwi Hj Hwj Honly.
    apply Hjs. exists i, li. split_and!; [done..|].
    intros k lk ok Hk Hlk Hw. destruct (Honly k lk ok Hlk Hw); lia. }
  split_and!; [reflexivity|reflexivity|exact Hjs|exact H001| | | |reflexivity|reflexivity].
  - intros i j li lj oi oj Hij Hi Hwi Hj Hwj Honly.
    rewrite checkWinner_001_server_js. split; by eapply Htwo.
  - apply wins_top_owner. intros rc Hin.
    repeat (apply elem_of_cons in Hin as [->|Hin]; [reflexivity|]).
    by apply elem_of_nil in Hin.
  - apply wins_top_owner. intros rc Hin.
    repeat (apply elem_of_cons in Hin as [->|Hin]; [reflexivity|]).
    by apply elem_of_nil in Hin.
Qed.

(** C10: the rules engines of the three variants are extensionally equal:
    on every board, cell and size the three [canPlaceAt] agree (including on
    when they throw), and on every board the three [checkWinner] agree. *)
Theorem rules_engines_agree board r c sz :
  ServerJs.canPlaceAt board r c sz = Part000.canPlaceAt board r c sz ∧
  Part000.canPlaceAt board r c sz = Part001.canPlaceAt board r c sz ∧
  ServerJs.checkWinner board = Part000.checkWinner board ∧
  Part000.checkWinner board = Part001.checkWinner board.
Proof.
  split_and!.
  - symmetry. apply canPlaceAt_000_server_js.
  - symmetry. apply canPlaceAt_001_000.
  - symmetry. apply (checkWinner_for_000_server_js board Part000.lines).
  - reflexivity.
Qed.

End Rules.

(* ===================================================================== *)
(** * Boards: cells, pushes and pops, and counting pieces *)
(* ===================================================================== *)

Section Boards.

Implicit Types (board : Board) (st : list Piece) (s : Slot) (p : Piece).






Lemma last_removelast st p : last st = Some p → st = removelast st ++ [p].
Proof.
  intros Hl. apply last_Some in Hl as [st' ->]. by rewrite removelast_last.
Qed.





Lemma canPlaceAt_is_Some board r c sz b :
  ServerJs.canPlaceAt board r c sz = Some b → is_Some (cell board r c).
Proof.
  unfold ServerJs.canPlaceAt. destruct (cell board r c); [by eexists|done].
Qed.

Lemma set_cell_board_ok board r c st : board_ok board → board_ok (set_cell board r c st).
Proof.
  unfold board_ok, set_cell. intros [Hlen Hrows].
  destruct (board !! r) as [row|] eqn:Hr; [|done].
  split; [by rewrite length_insert|].
  apply Forall_insert; [done|]. rewrite length_insert.
  by eapply (Forall_lookup_1 _ _ _ _ Hrows Hr).
Qed.

Lemma push_cell_board_ok board r c p : board_ok board → board_ok (push_cell board r c p).
Proof.
  unfold push_cell. destruct (cell board r c); [apply set_cell_board_ok|done].
Qed.

Lemma empty_board_ok : board_ok empty_board.
Proof. split; [done|]. by repeat constructor. Qed.

(** On a board of that shape every cell the line table names is there. *)
Lemma board_ok_cell board r c :
  board_ok board → (r < 3)%nat → (c < 3)%nat → is_Some (cell board r c).
Proof.
  intros [Hlen Hrows] Hr Hc. unfold cell.
  destruct (lookup_lt_is_Some_2 board r) as [row Hrow]; [lia|].
  rewrite Hrow. simpl. apply lookup_lt_is_Some_2.
  rewrite (Forall_lookup_1 _ _ _ _ Hrows Hrow). lia.
Qed.

End Boards.

(* ===================================================================== *)
(** * [place_piece]: rejected requests and hand conservation *)
(* ===================================================================== *)

Section PlacePiece.

Implicit Types (s slot : Slot) (ps : Players) (board : Board) (who : option Role).


Lemma hand_total_dec_other h : hand_total (hand_dec h other_size) = hand_total h.
Proof. done. Qed.

Lemma seat_set_seat ps slot s v :
  seat (set_seat ps slot v) s = if decide (slot = s) then v else seat ps s.
Proof. by destruct slot, s. Qed.





(** ** part_000 *)

Lemma part000_after_move_ack slot w : (Part000.after_move slot w).2 = Some ack_ok.
Proof. unfold Part000.after_move. by destruct (Part000.checkWinner _). Qed.

Lemma part000_after_move_players slot w :
  Part000.players (Part000.room (Part000.after_move slot w).1)
  = Part000.players (Part000.room w).
Proof. unfold Part000.after_move. by destruct (Part000.checkWinner _). Qed.

Lemma part000_after_move_board slot w :
  Part000.board (Part000.room (Part000.after_move slot w).1)
  = Part000.board (Part000.room w).
Proof. unfold Part000.after_move. by destruct (Part000.checkWinner _). Qed.


(** A request that is answered with an error leaves room, connections and
    log as they were. *)
Lemma part000_rejected_unchanged who payload w why :
  (Part000.place_piece who payload w).2 = Some (ack_error why) →
  (Part000.place_piece who payload w).1 = w.
Proof.
  unfold Part000.place_piece.
  repeat case_match; simpl; try done.
  all: by rewrite part000_after_move_ack.
Qed.


(** ** part_001 *)

Lemma part001_after_move_ack slot w : (Part001.after_move slot w).2 = Some ack_ok.
Proof. unfold Part001.after_move. by destruct (Part001.checkWinner _). Qed.

Lemma part001_after_move_players slot w :
  Part001.players (Part001.room (Part001.after_move slot w).1)
  = Part001.players (Part001.room w).
Proof. unfold Part001.after_move. by destruct (Part001.checkWinner _). Qed.

Lemma part001_after_move_board slot w :
  Part001.board (Part001.room (Part001.after_move slot w).1)
  = Part001.board (Part001.room w).
Proof. unfold Part001.after_move. by destruct (Part001.checkWinner _). Qed.


(** A request that is answered with an error leaves room, connections and
    log as they were. *)
Lemma part001_rejected_unchanged who payload w why :
  (Part001.place_piece who payload w).2 = Some (ack_error why) →
  (Part001.place_piece who payload w).1 = w.
Proof.
  unfold Part001.place_piece.
  repeat case_match; simpl; try done.
  all: by rewrite part001_after_move_ack.
Qed.


(** ** server.js *)

Lemma server_js_after_move_ack slot w : (ServerJs.after_move slot w).2 = Some ack_ok.
Proof. unfold ServerJs.after_move. by destruct (ServerJs.checkWinner _). Qed.

Lemma server_js_after_move_players slot w :
  ServerJs.players (ServerJs.room (ServerJs.after_move slot w).1)
  = ServerJs.players (ServerJs.room w).
Proof. unfold ServerJs.after_move. by destruct (ServerJs.checkWinner _). Qed.

Lemma server_js_after_move_board slot w :
  ServerJs.board (ServerJs.room (ServerJs.after_move slot w).1)
  = ServerJs.board (ServerJs.room w).
Proof. unfold ServerJs.after_move. by destruct (ServerJs.checkWinner _). Qed.


(** A request turned away by the guard, for want of a piece in hand, for an
    illegal placement from the hand, or for an empty or missing source cell
    leaves everything as it was; what is left is a payload run as a move
    whose source cell has a top piece. *)
Lemma server_js_rejected_unchanged_unless_popped who payload w :
  (ServerJs.place_piece who payload w).2 ≠ Some ack_ok →
  (ServerJs.place_piece who payload w).1 = w ∨
  ∃ from to src top,
    (payload = move_on_board from to ∨ payload = other_action_on from to) ∧
    cell (ServerJs.board (ServerJs.room w)) from.1 from.2 = Some src ∧
    last src = Some top ∧
    ServerJs.board (ServerJs.room (ServerJs.place_piece who payload w).1)
    = set_cell (ServerJs.board (ServerJs.room w)) from.1 from.2 (removelast src).
Proof.
  unfold ServerJs.place_piece.
  repeat case_match; simpl; try (by left).
  all: try (intros Hack; by rewrite server_js_after_move_ack in Hack).
  all: intros _; right; eexists _, _, _, _; split_and!; [by eauto|done..].
Qed.

(** The states used below are states the handlers lead to. *)
Lemma server_js_midgame_reached :
  ServerJs.room server_js_opening = ServerJs.room server_js_midgame ∧
  ServerJs.sockets server_js_opening = ServerJs.sockets server_js_midgame.
Proof. split; reflexivity. Qed.

Lemma part000_running_reached :
  Part000.room part000_opening = Part000.room part000_running ∧
  Part000.sockets part000_opening = Part000.sockets part000_running.
Proof. split; reflexivity. Qed.

Lemma part000_rejected_unchanged_witness :
  (Part000.place_piece (Some (player B)) (place_from_hand small (0, 0)%nat)
     part000_running).2 = Some (ack_error r_illegal) ∧
  (Part000.place_piece (Some (player B)) (place_from_hand small (0, 0)%nat)
     part000_running).1 = part000_running.
Proof.
  split; [reflexivity|].
  apply (part000_rejected_unchanged _ _ _ r_illegal). reflexivity.
Defined.

Lemma part001_rejected_unchanged_witness :
  (Part001.place_piece (Some (player B)) (move_on_board (0, 0) (1, 1))%nat
     part001_running).2 = Some (ack_error r_not_yours) ∧
  (Part001.place_piece (Some (player B)) (move_on_board (0, 0) (1, 1))%nat
     part001_running).1 = part001_running.
Proof.
  split; [reflexivity|].
  apply (part001_rejected_unchanged _ _ _ r_not_yours). reflexivity.
Defined.




(** [place_piece] keeps the shape of the board, in each variant. *)
Lemma server_js_place_piece_board_ok who payload w :
  board_ok (ServerJs.board (ServerJs.room w)) →
  board_ok (ServerJs.board (ServerJs.room (ServerJs.place_piece who payload w).1)).
Proof.
  intros Hok. unfold ServerJs.place_piece.
  repeat case_match; simpl; try done.
  all: rewrite ?server_js_after_move_board; simpl;
       auto using set_cell_board_ok, push_cell_board_ok.
Qed.

Lemma part000_place_piece_board_ok who payload w :
  board_ok (Part000.board (Part000.room w)) →
  board_ok (Part000.board (Part000.room (Part000.place_piece who payload w).1)).
Proof.
  intros Hok. unfold Part000.place_piece.
  repeat case_match; simpl; try done.
  all: rewrite ?part000_after_move_board; simpl;
       auto using set_cell_board_ok, push_cell_board_ok.
Qed.

Lemma part001_place_piece_board_ok who payload w :
  board_ok (Part001.board (Part001.room w)) →
  board_ok (Part001.board (Part001.room (Part001.place_piece who payload w).1)).
Proof.
  intros Hok. unfold Part001.place_piece.
  repeat case_match; simpl; try done.
  all: rewrite ?part001_after_move_board; simpl;
       auto using set_cell_board_ok, push_cell_board_ok.
Qed.

(** C1, on server.js: Alice (slot A, to move) asks to move her small piece
    from (0,0) onto Bob's medium piece at (0,1).  The destination is illegal
    and the request is answered with an error, nothing is broadcast, yet the
    source cell has lost its piece: the room is not what it was. *)
Theorem server_js_rejected_move_pops_source :
  ServerJs.canPlaceAt midgame_board 0 1 small = Some false ∧
  cell (ServerJs.board (ServerJs.room server_js_midgame)) 0 0 = Some [piece_of A small] ∧
  (ServerJs.place_piece (Some (player A)) (move_on_board (0, 0) (0, 1))%nat
     server_js_midgame).2 = Some (ack_error r_invalid) ∧
  ServerJs.log (ServerJs.place_piece (Some (player A)) (move_on_board (0, 0) (0, 1))%nat
     server_js_midgame).1 = [] ∧
  cell (ServerJs.board (ServerJs.room
         (ServerJs.place_piece (Some (player A)) (move_on_board (0, 0) (0, 1))%nat
            server_js_midgame).1)) 0 0 = Some [] ∧
  ServerJs.room (ServerJs.place_piece (Some (player A)) (move_on_board (0, 0) (0, 1))%nat
     server_js_midgame).1 ≠ ServerJs.room server_js_midgame.
Proof. split_and!; [reflexivity..|]. intros Heq. discriminate Heq. Qed.

(** C2, on server.js: in the same exchange Alice holds 5 pieces and owns 1
    on the board before the request, and holds 5 and owns none after it. *)
Theorem server_js_rejected_move_loses_piece :
  pieces_of A (ServerJs.players (ServerJs.room server_js_midgame))
              (ServerJs.board (ServerJs.room server_js_midgame)) = Some 6 ∧
  pieces_of A
    (ServerJs.players (ServerJs.room
       (ServerJs.place_piece (Some (player A)) (move_on_board (0, 0) (0, 1))%nat
          server_js_midgame).1))
    (ServerJs.board (ServerJs.room
       (ServerJs.place_piece (Some (player A)) (move_on_board (0, 0) (0, 1))%nat
          server_js_midgame).1)) = Some 5 ∧
  pieces_of B
    (ServerJs.players (ServerJs.room
       (ServerJs.place_piece (Some (player A)) (move_on_board (0, 0) (0, 1))%nat
          server_js_midgame).1))
    (ServerJs.board (ServerJs.room
       (ServerJs.place_piece (Some (player A)) (move_on_board (0, 0) (0, 1))%nat
          server_js_midgame).1)) = Some 6.
Proof. split_and!; reflexivity. Qed.

End PlacePiece.

(* ===================================================================== *)
(** * Promotion from the queue *)
(* ===================================================================== *)

Section Promotion.

Implicit Types (socks : gmap string SocketData) (queue stale rest : list string).

(** The scan skips every entry whose connection is gone and stops at the
    first live one, leaving the entries behind it in their order. *)
Lemma promoteFromQueue_scan_live socks stale sid d rest :
  Forall (λ x, socks !! x = None) stale → socks !! sid = Some d →
  ServerJs.promoteFromQueue_scan socks (stale ++ sid :: rest) = (rest, Some (sid, d)).
Proof.
  intros Hstale Hd. induction Hstale as [|x stale Hx _ IH]; simpl.
  - by rewrite Hd.
  - by rewrite Hx.
Qed.

Lemma promoteFromQueue_scan_none socks queue :
  Forall (λ x, socks !! x = None) queue →
  ServerJs.promoteFromQueue_scan socks queue = ([], None).
Proof.
  induction 1 as [|x queue Hx _ IH]; simpl; [done|]. by rewrite Hx.
Qed.

Lemma promoteFromQueue_scan_inv socks queue rest found :
  ServerJs.promoteFromQueue_scan socks queue = (rest, found) →
  match found with
  | Some (sid, d) =>
      ∃ stale, queue = stale ++ sid :: rest ∧
               Forall (λ x, socks !! x = None) stale ∧ socks !! sid = Some d
  | None => rest = [] ∧ Forall (λ x, socks !! x = None) queue
  end.
Proof.
  revert rest found. induction queue as [|x queue IH]; simpl; intros rest found Hscan.
  - by simplify_eq.
  - destruct (socks !! x) as [d|] eqn:Hx.
    + simplify_eq. by exists [].
    + specialize (IH _ _ Hscan). destruct found as [[sid d]|].
      * destruct IH as (stale & -> & Hstale & Hd). exists (x :: stale).
        split_and!; [done| |done]. by constructor.
      * destruct IH as [-> Hall]. split; [done|]. by constructor.
Qed.

(** [promoteFromQueue] seats the first live entry with a full hand and keeps
    the entries behind it. *)
Lemma server_js_promote_first_live slot w stale sid d rest :
  ServerJs.watchQueue (ServerJs.room w) = stale ++ sid :: rest →
  Forall (λ x, ServerJs.sockets w !! x = None) stale →
  ServerJs.sockets w !! sid = Some d →
  (ServerJs.promoteFromQueue slot w).2 = true ∧
  seat (ServerJs.players (ServerJs.room (ServerJs.promoteFromQueue slot w).1)) slot
  = Some {| id := sid; name := data_name d; pieces := full_hand |} ∧
  ServerJs.watchQueue (ServerJs.room (ServerJs.promoteFromQueue slot w).1) = rest.
Proof.
  intros Hq Hstale Hd. unfold ServerJs.promoteFromQueue.
  rewrite Hq, (promoteFromQueue_scan_live _ _ _ _ _ Hstale Hd). simpl.
  split_and!; [done| |done]. by destruct slot.
Qed.

Lemma server_js_promote_first_live_witness :
  ServerJs.watchQueue (ServerJs.room server_js_stale_queue) = ["z9"] ++ "c1" :: ["d1"] ∧
  (ServerJs.promoteFromQueue A server_js_stale_queue).2 = true ∧
  seat (ServerJs.players (ServerJs.room
          (ServerJs.promoteFromQueue A server_js_stale_queue).1)) A
  = Some {| id := "c1"; name := "Carol"; pieces := full_hand |} ∧
  ServerJs.watchQueue (ServerJs.room (ServerJs.promoteFromQueue A server_js_stale_queue).1)
  = ["d1"].
Proof.
  split; [reflexivity|].
  apply (server_js_promote_first_live A server_js_stale_queue ["z9"] "c1"
           (seated spectator "Carol") ["d1"]).
  - reflexivity.
  - by repeat constructor.
  - reflexivity.
Defined.

(** C5, on part_001: Alice has chosen to leave, Bob now chooses a rematch,
    and the queue is Zed (connection gone), Carol, Dave.  Resolution runs,
    slot A is vacated, Zed's entry is shifted off and dropped, and nothing
    more is tried for slot A: Carol, present and next in line, is not
    promoted and the room waits with slot A empty.  On the same queue
    server.js's [promoteFromQueue] goes on to Carol. *)
Theorem part001_stale_entry_blocks_promotion :
  four_bound !! "z9" = None ∧
  is_Some (four_bound !! "c1") ∧
  pl_A (Part001.players (Part001.room
          (Part001.post_game_decision (Some (player B)) (Some Part001.rematch)
             part001_stale_queue))) = None ∧
  Part001.spectators (Part001.room
     (Part001.post_game_decision (Some (player B)) (Some Part001.rematch)
        part001_stale_queue))
  = [ {| Part001.sp_id := "c1"; Part001.sp_name := "Carol" |};
      {| Part001.sp_id := "d1"; Part001.sp_name := "Dave" |} ] ∧
  Part001.started (Part001.room
     (Part001.post_game_decision (Some (player B)) (Some Part001.rematch)
        part001_stale_queue)) = false ∧
  pl_A (ServerJs.players (ServerJs.room
          (ServerJs.promoteFromQueue A server_js_stale_queue).1))
  = Some {| id := "c1"; name := "Carol"; pieces := full_hand |} ∧
  ServerJs.watchQueue (ServerJs.room
     (ServerJs.promoteFromQueue A server_js_stale_queue).1) = ["d1"].
Proof. split_and!; try reflexivity. by eexists. Qed.

End Promotion.

(* ===================================================================== *)
(** * Post-game resolution: when it runs and what it leaves *)
(* ===================================================================== *)

Section Resolution.

Implicit Types (who : option Role) (slot : Slot).

(** ** server.js *)

(** [evaluatePostGame] returns at once unless both decisions are stored; in
    particular it does nothing while an occupied slot is undecided. *)
Lemma server_js_evaluatePostGame_guard w :
  ¬ (is_Some (at_A (ServerJs.postDecisions (ServerJs.room w))) ∧
     is_Some (at_B (ServerJs.postDecisions (ServerJs.room w)))) →
  ServerJs.evaluatePostGame w = w.
Proof.
  unfold ServerJs.evaluatePostGame. intros Hno.
  destruct (at_A _) as [a|], (at_B _) as [b|]; try done.
  destruct Hno. split; by eexists.
Qed.

(** [evaluatePostGame] changes nothing unless every occupied slot has a
    stored decision. *)
Lemma server_js_evaluatePostGame_noop w :
  ¬ sufficient (ServerJs.players (ServerJs.room w)) (ServerJs.postDecisions (ServerJs.room w)) →
  ServerJs.evaluatePostGame w = w.
Proof.
  intros Hno. apply server_js_evaluatePostGame_guard. intros [HA HB].
  apply Hno. by intros [] _.
Qed.

(** When it runs, [evaluatePostGame] ends with both decisions and the winner
    cleared. *)
Lemma server_js_evaluatePostGame_clears w :
  is_Some (at_A (ServerJs.postDecisions (ServerJs.room w))) →
  is_Some (at_B (ServerJs.postDecisions (ServerJs.room w))) →
  ServerJs.postDecisions (ServerJs.room (ServerJs.evaluatePostGame w)) = undecided ∧
  ServerJs.winner (ServerJs.room (ServerJs.evaluatePostGame w)) = None.
Proof.
  unfold ServerJs.evaluatePostGame. intros [a ->] [b ->].
  destruct (ServerJs.handle B _) as [r2 survivors].
  by destruct (ServerJs.reseat B _) as [w4 ?].
Qed.

(** ** part_001 *)

Lemma part001_restart_clears w :
  Part001.pendingDecisions (Part001.room (Part001.restart w)) = undecided ∧
  Part001.winner (Part001.room (Part001.restart w)) = None.
Proof. unfold Part001.restart. by destruct (both_seated _). Qed.

(** Whenever [resolveGameDecisions] runs it ends with both decisions and the
    winner cleared. *)
Lemma part001_resolve_clears w :
  Part001.pendingDecisions (Part001.room (Part001.resolveGameDecisions w)) = undecided ∧
  Part001.winner (Part001.room (Part001.resolveGameDecisions w)) = None.
Proof. apply part001_restart_clears. Qed.

Lemma sufficient_test {D} (ps : Players) (d : PerSlot (option D)) :
  sufficient ps d ↔
  truthy (pl_A ps) && negb (truthy (at_A d)) = false ∧
  truthy (pl_B ps) && negb (truthy (at_B d)) = false.
Proof.
  unfold sufficient. split.
  - intros Hs. split.
    + destruct (pl_A ps) as [p|] eqn:Hp; [|done].
      destruct (Hs A) as [x Hx]; simpl in *; [by rewrite Hp|]. by rewrite Hx.
    + destruct (pl_B ps) as [p|] eqn:Hp; [|done].
      destruct (Hs B) as [x Hx]; simpl in *; [by rewrite Hp|]. by rewrite Hx.
  - intros [HA HB] [] [p Hp]; simpl in *; rewrite Hp in *; simpl in *.
    + destruct (at_A d); [by eexists|done].
    + destruct (at_B d); [by eexists|done].
Qed.

(** The [post_game_decision] handler stores the decision and tells the room;
    it goes on to resolution exactly when the sufficiency condition holds. *)
Lemma part001_post_game_decision_waits slot decision w :
  is_Some (Part001.winner (Part001.room w)) →
  ¬ sufficient (Part001.players (part001_recorded slot decision (Part001.room w)))
               (Part001.pendingDecisions (part001_recorded slot decision (Part001.room w))) →
  Part001.post_game_decision (Some (player slot)) decision w
  = Part001.emit (opponent_decided slot)
      (Part001.set_room (part001_recorded slot decision (Part001.room w)) w).
Proof.
  intros [win Hwin] Hno. unfold Part001.post_game_decision. rewrite Hwin.
  rewrite sufficient_test in Hno. unfold part001_recorded in *. simpl in *.
  destruct (truthy (pl_A _) && negb (truthy (at_A _))); [done|].
  destruct (truthy (pl_B _) && negb (truthy (at_B _))); [done|].
  by destruct Hno.
Qed.

Lemma part001_post_game_decision_resolves slot decision w :
  is_Some (Part001.winner (Part001.room w)) →
  sufficient (Part001.players (part001_recorded slot decision (Part001.room w)))
             (Part001.pendingDecisions (part001_recorded slot decision (Part001.room w))) →
  Part001.post_game_decision (Some (player slot)) decision w
  = Part001.resolveGameDecisions
      (Part001.emit (opponent_decided slot)
         (Part001.set_room (part001_recorded slot decision (Part001.room w)) w)).
Proof.
  intros [win Hwin] Hsuf. unfold Part001.post_game_decision. rewrite Hwin.
  apply sufficient_test in Hsuf as [HA HB]. unfold part001_recorded in *. simpl in *.
  by rewrite HA, HB.
Qed.

Lemma part001_post_game_decision_waits_witness :
  Part001.post_game_decision (Some (player A)) (Some Part001.rematch) part001_postgame
  = Part001.emit (opponent_decided A)
      (Part001.set_room
         (part001_recorded A (Some Part001.rematch) (Part001.room part001_postgame))
         part001_postgame).
Proof.
  apply part001_post_game_decision_waits.
  - by eexists.
  - intros Hsuf. destruct (Hsuf B) as [d Hd]; [by eexists|]. discriminate Hd.
Defined.

Lemma server_js_evaluatePostGame_noop_witness :
  ServerJs.evaluatePostGame server_js_midgame = server_js_midgame.
Proof.
  apply server_js_evaluatePostGame_noop.
  intros Hsuf. destruct (Hsuf A) as [d Hd]; [by eexists|]. discriminate Hd.
Defined.

Lemma server_js_evaluatePostGame_clears_witness :
  ServerJs.postDecisions (ServerJs.room (ServerJs.evaluatePostGame server_js_postgame))
  = undecided ∧
  ServerJs.winner (ServerJs.room (ServerJs.evaluatePostGame server_js_postgame)) = None.
Proof. apply server_js_evaluatePostGame_clears; by eexists. Defined.

(** C3, on part_001: the match is over, Alice and Bob are seated and neither
    has decided.  Alice's connection drops.  The disconnect handler stores
    [leave] for A and calls [resolveGameDecisions], which does not ask
    whether Bob has decided: it reads his missing decision as [leave],
    sends him home, clears his room binding and empties both slots. *)
Theorem part001_disconnect_resolves_over_undecided :
  Part001.room part001_finished = Part001.room part001_postgame ∧
  Part001.sockets part001_finished = Part001.sockets part001_postgame ∧
  seat (Part001.players (Part001.room part001_postgame)) B = Some bob_end ∧
  per_slot (Part001.pendingDecisions (Part001.room part001_postgame)) B = None ∧
  ¬ sufficient (Part001.players (Part001.room part001_postgame))
      (set_per_slot (Part001.pendingDecisions (Part001.room part001_postgame)) A
         (Some Part001.leave)) ∧
  Part001.players (Part001.room (Part001.disconnect "a1" part001_postgame)) = no_players ∧
  Part001.log (Part001.disconnect "a1" part001_postgame)
  = [redirect_home "a1"; redirect_home "b1"; update_state; chat_message waiting_notice] ∧
  Part001.sockets (Part001.disconnect "a1" part001_postgame) !! "b1"
  = Some {| roomID := None; playerSlot := None; data_name := "" |} ∧
  Part001.winner (Part001.room (Part001.disconnect "a1" part001_postgame)) = None.
Proof.
  split_and!; try reflexivity.
  intros Hsuf. destruct (Hsuf B) as [d Hd]; [by eexists|]. discriminate Hd.
Qed.

End Resolution.

(* ===================================================================== *)
(** * Post-game resolution: what becomes of each slot *)
(* ===================================================================== *)

Section Dispatch.

Implicit Types (slot s : Slot) (p : Player).

Lemma emitted_since_app (log new : list Event) : emitted_since log (log ++ new) = new.
Proof. unfold emitted_since. apply drop_app_length. Qed.

(** ** part_001 *)

Lemma part001_resolve_steps w :
  Part001.resolveGameDecisions w
  = Part001.restart (Part001.fill B (Part001.fill A (dispatched w))).
Proof. reflexivity. Qed.







(** After step 1 the queue is only ever shortened from the front. *)
Lemma part001_fill_queue slot w :
  ∃ k, Part001.spectators (Part001.room (Part001.fill slot w))
       = drop k (Part001.spectators (Part001.room w)).
Proof.
  unfold Part001.fill.
  destruct (seat _ slot); [by exists 0%nat|].
  destruct (Part001.spectators (Part001.room w)) as [|nextSpec rest] eqn:Hq;
    [exists 0%nat; by rewrite Hq|].
  exists 1%nat. simpl. by destruct (Part001.sockets w !! Part001.sp_id nextSpec).
Qed.

Lemma part001_restart_queue w :
  Part001.spectators (Part001.room (Part001.restart w)) = Part001.spectators (Part001.room w).
Proof. unfold Part001.restart. by destruct (both_seated _). Qed.

Lemma part001_resolve_queue w :
  ∃ k, Part001.spectators (Part001.room (Part001.resolveGameDecisions w))
       = drop k (Part001.spectators (Part001.room (dispatched w))).
Proof.
  rewrite part001_resolve_steps, part001_restart_queue.
  destruct (part001_fill_queue B (Part001.fill A (dispatched w))) as [k2 ->].
  destruct (part001_fill_queue A (dispatched w)) as [k1 ->].
  exists (k1 + k2)%nat. by rewrite drop_drop.
Qed.

(** ** server.js *)






Lemma server_js_promote_queue slot w :
  ∃ k, ServerJs.watchQueue (ServerJs.room (ServerJs.promoteFromQueue slot w).1)
       = drop k (ServerJs.watchQueue (ServerJs.room w)).
Proof.
  unfold ServerJs.promoteFromQueue.
  destruct (ServerJs.promoteFromQueue_scan _ _) as [rest [[sid d]|]] eqn:Hscan; simpl.
  - apply promoteFromQueue_scan_inv in Hscan as (stale & -> & _ & _).
    exists (length (stale ++ [sid])).
    by rewrite (cons_middle sid stale rest), (app_assoc stale [sid] rest), drop_app_length.
  - apply promoteFromQueue_scan_inv in Hscan as [-> _].
    exists (length (ServerJs.watchQueue (ServerJs.room w))). by rewrite drop_all.
Qed.

Lemma server_js_resetBoard_seat s r :
  seat (ServerJs.players (ServerJs.resetBoard r)) s
  = with_pieces full_hand <$> seat (ServerJs.players r) s.
Proof. by destruct s. Qed.



























End Dispatch.

(* ===================================================================== *)
(** * Forced termination (server.js) *)
(* ===================================================================== *)

Section ForceQuit.

(** [forceEndGame] in terms of the scan of the queue it runs. *)
Lemma forceEndGame_scan (leaverSlot : Slot) (w : ServerJs.World) :
  let other := seat (ServerJs.players (ServerJs.room w)) (other_slot leaverSlot) in
  let scan := ServerJs.promoteFromQueue_scan (ServerJs.sockets w)
                (queue_with_leaver leaverSlot (ServerJs.room w)) in
  let w' := ServerJs.forceEndGame leaverSlot w in
  ServerJs.watchQueue (ServerJs.room w') = scan.1 ∧
  seat (ServerJs.players (ServerJs.room w')) leaverSlot = with_pieces full_hand <$> other ∧
  seat (ServerJs.players (ServerJs.room w')) (other_slot leaverSlot) = promoted <$> scan.2 ∧
  ServerJs.board (ServerJs.room w') = empty_board ∧
  ServerJs.currentTurn (ServerJs.room w') = Some A ∧
  ServerJs.winner (ServerJs.room w') = None ∧
  ServerJs.started (ServerJs.room w') = both_seated (ServerJs.players (ServerJs.room w')) ∧
  broadcast_since (ServerJs.log w) (ServerJs.log w') = [start_game].
Proof.
  unfold ServerJs.forceEndGame, ServerJs.promoteFromQueue, queue_with_leaver, broadcast_since.
  destruct w as [[b [pa pb] t win st q pd] socks lg].
  destruct leaverSlot, pa as [pa|], pb as [pb|]; simpl; rewrite ?app_nil_r.
  all: match goal with
       | |- context [ServerJs.promoteFromQueue_scan ?s ?l] =>
           destruct (ServerJs.promoteFromQueue_scan s l) as [rest [[sid d]|]]
       end; simpl.
  all: rewrite <-?app_assoc, emitted_since_app; done.
Qed.

(** C9, as amended: a force_quit sent by the connection of the player seated
    at the slot that connection records.  The sender is pushed to the back
    of the watch queue and their slot vacated; the other slot's occupant, if
    any, is moved into the vacated slot with a full hand; the first live
    entry of the queue is promoted into the other slot and into that slot
    only.  So when a live connection waits in the queue, it is promoted, the
    entries behind it keep their order and the sender is the last of the
    queue; when none does, the sender, being the only live entry, takes the
    other slot and the queue is empty.  The board is reset (turn to A,
    winner cleared, started exactly when both slots are taken) and a start
    event is broadcast whether or not both slots are taken. *)
Theorem force_quit_effect (sid : string) (d : SocketData) (s : Slot) (p : Player)
    (stray : option Player) (w : ServerJs.World) :
  ServerJs.sockets w !! sid = Some d →
  is_Some (roomID d) →
  playerSlot d = Some (player s) →
  seat (ServerJs.players (ServerJs.room w)) s = Some p →
  id p = sid →
  seat (ServerJs.players (ServerJs.room (ServerJs.force_quit d stray w).1)) s
  = with_pieces full_hand <$> seat (ServerJs.players (ServerJs.room w)) (other_slot s) ∧
  (∀ stale c dc rest,
     ServerJs.watchQueue (ServerJs.room w) = stale ++ c :: rest →
     Forall (λ x, ServerJs.sockets w !! x = None) stale →
     ServerJs.sockets w !! c = Some dc →
     seat (ServerJs.players (ServerJs.room (ServerJs.force_quit d stray w).1)) (other_slot s)
     = Some {| id := c; name := data_name dc; pieces := full_hand |} ∧
     ServerJs.watchQueue (ServerJs.room (ServerJs.force_quit d stray w).1) = rest ++ [sid]) ∧
  (Forall (λ x, ServerJs.sockets w !! x = None) (ServerJs.watchQueue (ServerJs.room w)) →
     seat (ServerJs.players (ServerJs.room (ServerJs.force_quit d stray w).1)) (other_slot s)
     = Some {| id := sid; name := data_name d; pieces := full_hand |} ∧
     ServerJs.watchQueue (ServerJs.room (ServerJs.force_quit d stray w).1) = []) ∧
  ServerJs.board (ServerJs.room (ServerJs.force_quit d stray w).1) = empty_board ∧
  ServerJs.currentTurn (ServerJs.room (ServerJs.force_quit d stray w).1) = Some A ∧
  ServerJs.winner (ServerJs.room (ServerJs.force_quit d stray w).1) = None ∧
  ServerJs.started (ServerJs.room (ServerJs.force_quit d stray w).1)
  = both_seated (ServerJs.players (ServerJs.room (ServerJs.force_quit d stray w).1)) ∧
  broadcast_since (ServerJs.log w) (ServerJs.log (ServerJs.force_quit d stray w).1)
  = [start_game].
Proof.
  intros Hd [rid Hrid] Hslot Hseat Hid.
  unfold ServerJs.force_quit. rewrite Hrid, Hslot. cbn [fst].
  destruct (forceEndGame_scan s w)
    as (Hq & Hleaver & Hother & Hboard & Hturn & Hwin & Hstarted & Hlog).
  assert (queue_with_leaver s (ServerJs.room w)
          = ServerJs.watchQueue (ServerJs.room w) ++ [sid]) as Hqueue.
  { unfold queue_with_leaver. by rewrite Hseat, Hid. }
  rewrite Hqueue in Hq, Hother.
  split_and!; try done.
  - intros stale c dc rest Hwq Hstale Hc.
    rewrite Hother, Hq, Hwq, <-app_assoc. cbn [app].
    rewrite (promoteFromQueue_scan_live _ _ _ _ _ Hstale Hc). done.
  - intros Hstale.
    rewrite Hother, Hq, (promoteFromQueue_scan_live _ _ _ _ _ Hstale Hd). done.
Qed.

(** The amended statement at work: Alice quits from slot A while Carol
    waits; Bob moves to slot A, Carol is promoted into slot B and Alice is
    what is left of the queue. *)
Lemma force_quit_effect_witness :
  ServerJs.sockets server_js_postgame !! "a1" = Some (seated (player A) "Alice") ∧
  seat (ServerJs.players (ServerJs.room server_js_postgame)) A = Some alice_end ∧
  ServerJs.watchQueue (ServerJs.room server_js_postgame) = [] ++ "c1" :: [] ∧
  seat (ServerJs.players (ServerJs.room
     (ServerJs.force_quit (seated (player A) "Alice") None server_js_postgame).1)) A
  = Some (with_pieces full_hand bob) ∧
  seat (ServerJs.players (ServerJs.room
     (ServerJs.force_quit (seated (player A) "Alice") None server_js_postgame).1)) B
  = Some {| id := "c1"; name := "Carol"; pieces := full_hand |} ∧
  ServerJs.watchQueue (ServerJs.room
     (ServerJs.force_quit (seated (player A) "Alice") None server_js_postgame).1)
  = [ "a1" ].
Proof.
  split_and!; [reflexivity|reflexivity|reflexivity|..].
  all: destruct (force_quit_effect "a1" (seated (player A) "Alice") A alice_end None
                   server_js_postgame) as (Hleaver & Hlive & _);
         [reflexivity|by eexists|reflexivity|reflexivity|reflexivity|].
  - exact Hleaver.
  - apply (Hlive [] "c1" (seated spectator "Carol") []);
      [reflexivity|constructor|reflexivity].
  - apply (Hlive [] "c1" (seated spectator "Carol") []);
      [reflexivity|constructor|reflexivity].
Defined.

(** C9 as stated fails: Alice, alone in the room at slot A, sends force_quit.
    She is queued and, being the first live entry, promoted into slot B at
    once; slot A stays empty, so only one slot is taken, and the room is
    sent a start event, not an update event. *)
Lemma server_js_force_quit_always_starts :
  ServerJs.sockets server_js_alone !! "a1" = Some (seated (player A) "Alice") ∧
  ServerJs.players (ServerJs.room server_js_alone)
  = {| pl_A := Some (with_pieces full_hand alice); pl_B := None |} ∧
  ServerJs.players (ServerJs.room
     (ServerJs.force_quit (seated (player A) "Alice") None server_js_alone).1)
  = {| pl_A := None; pl_B := Some (with_pieces full_hand alice) |} ∧
  both_seated (ServerJs.players (ServerJs.room
     (ServerJs.force_quit (seated (player A) "Alice") None server_js_alone).1))
  = false ∧
  emitted_since (ServerJs.log server_js_alone)
    (ServerJs.log (ServerJs.force_quit (seated (player A) "Alice") None server_js_alone).1)
  = [assign "a1" (player B); start_game] ∧
  broadcast_since (ServerJs.log server_js_alone)
    (ServerJs.log (ServerJs.force_quit (seated (player A) "Alice") None server_js_alone).1)
  ≠ [update_state].
Proof. split_and!; try reflexivity. intros Heq. discriminate Heq. Qed.

(** What the statement above leaves out: [forceEndGame] moves the remaining
    player to the other slot without updating the [playerSlot] of that
    player's connection, as [promoteFromQueue] does for the one it seats.
    After Alice's force_quit in a room with Bob and Carol, Bob sits at slot A
    while his connection still records slot B, where Carol now sits.  When
    Bob in turn sends force_quit, it is Carol who is queued: Bob is moved
    back to slot B and Alice, first in the queue, takes slot A. *)
Lemma server_js_force_quit_stale_slot :
  ServerJs.players (ServerJs.room server_js_after_quit)
  = {| pl_A := Some {| id := "b1"; name := "Bob"; pieces := full_hand |};
       pl_B := Some {| id := "c1"; name := "Carol"; pieces := full_hand |} |} ∧
  ServerJs.watchQueue (ServerJs.room server_js_after_quit) = [ "a1" ] ∧
  ServerJs.sockets server_js_after_quit !! "b1" = Some (seated (player B) "Bob") ∧
  ServerJs.players (ServerJs.room
     (ServerJs.force_quit (seated (player B) "Bob") None server_js_after_quit).1)
  = {| pl_A := Some {| id := "a1"; name := "Alice"; pieces := full_hand |};
       pl_B := Some {| id := "b1"; name := "Bob"; pieces := full_hand |} |} ∧
  ServerJs.watchQueue (ServerJs.room
     (ServerJs.force_quit (seated (player B) "Bob") None server_js_after_quit).1)
  = [ "c1" ].
Proof. split_and!; reflexivity. Qed.

(** A force_quit sent by a spectator runs [forceEndGame] with a slot that is
    neither A nor B: the player at slot A, who sent nothing, is taken out of
    the slot and parked under the key of the sender's role, neither seated
    nor queued, and the first live spectator takes slot A.  Here Carol,
    watching Alice and Bob, sends it. *)
Lemma server_js_force_quit_by_spectator :
  ServerJs.sockets server_js_three !! "c1" = Some (seated spectator "Carol") ∧
  ServerJs.players (ServerJs.room server_js_three)
  = {| pl_A := Some {| id := "a1"; name := "Alice"; pieces := full_hand |};
       pl_B := Some {| id := "b1"; name := "Bob"; pieces := full_hand |} |} ∧
  ServerJs.players (ServerJs.room
     (ServerJs.force_quit (seated spectator "Carol") None server_js_three).1)
  = {| pl_A := Some {| id := "c1"; name := "Carol"; pieces := full_hand |};
       pl_B := Some {| id := "b1"; name := "Bob"; pieces := full_hand |} |} ∧
  ServerJs.watchQueue (ServerJs.room
     (ServerJs.force_quit (seated spectator "Carol") None server_js_three).1) = [] ∧
  (ServerJs.force_quit (seated spectator "Carol") None server_js_three).2
  = Some {| id := "a1"; name := "Alice"; pieces := full_hand |} ∧
  broadcast_since (ServerJs.log server_js_three)
    (ServerJs.log (ServerJs.force_quit (seated spectator "Carol") None server_js_three).1)
  = [start_game].
Proof. split_and!; reflexivity. Qed.

(** A connection that has not joined any room sends force_quit: nothing
    changes. *)
Lemma server_js_force_quit_unbound (d : SocketData) stray (w : ServerJs.World) :
  roomID d = None → ServerJs.force_quit d stray w = (w, stray).
Proof. intros Hd. unfold ServerJs.force_quit. by rewrite Hd. Qed.

End ForceQuit.

(* ===================================================================== *)
(** * Join: when a match starts *)
(* ===================================================================== *)

Section Join.

Variables sid rid nm : string.

Lemma server_js_join_gating (w : ServerJs.World) :
  let w' := (ServerJs.join sid rid nm w).1 in
  (both_seated (ServerJs.players (ServerJs.room w')) = true →
   ServerJs.currentTurn (ServerJs.room w') = Some A ∧
   ServerJs.started (ServerJs.room w') = true ∧
   broadcast_since (ServerJs.log w) (ServerJs.log w') = [start_game]) ∧
  (both_seated (ServerJs.players (ServerJs.room w')) = false →
   broadcast_since (ServerJs.log w) (ServerJs.log w') = [update_state] ∧
   ServerJs.board (ServerJs.room w') = ServerJs.board (ServerJs.room w) ∧
   ServerJs.currentTurn (ServerJs.room w') = ServerJs.currentTurn (ServerJs.room w) ∧
   ServerJs.started (ServerJs.room w') = ServerJs.started (ServerJs.room w) ∧
   ServerJs.winner (ServerJs.room w') = ServerJs.winner (ServerJs.room w) ∧
   ServerJs.postDecisions (ServerJs.room w') = ServerJs.postDecisions (ServerJs.room w)).
Proof.
  unfold ServerJs.join, broadcast_since.
  destruct w as [[b [pa pb] t win st q pd] socks lg].
  destruct pa as [pa|], pb as [pb|]; simpl; rewrite ?emitted_since_app; by split.
Qed.

Lemma part000_join_gating (w : Part000.World) :
  let w' := (Part000.join sid rid nm w).1 in
  (both_seated (Part000.players (Part000.room w')) = true →
   Part000.started (Part000.room w) = false → Part000.winner (Part000.room w) = None →
   Part000.currentTurn (Part000.room w') = Some A ∧
   Part000.started (Part000.room w') = true ∧
   broadcast_since (Part000.log w) (Part000.log w') = [start_game]) ∧
  (both_seated (Part000.players (Part000.room w')) = false →
   broadcast_since (Part000.log w) (Part000.log w') = [update_state] ∧
   Part000.board (Part000.room w') = Part000.board (Part000.room w) ∧
   Part000.currentTurn (Part000.room w') = Part000.currentTurn (Part000.room w) ∧
   Part000.started (Part000.room w') = Part000.started (Part000.room w) ∧
   Part000.winner (Part000.room w') = Part000.winner (Part000.room w) ∧
   Part000.postDecisions (Part000.room w') = Part000.postDecisions (Part000.room w)) ∧
  (both_seated (Part000.players (Part000.room w')) = true →
   Part000.started (Part000.room w) = true ∨ is_Some (Part000.winner (Part000.room w)) →
   broadcast_since (Part000.log w) (Part000.log w') = [start_game] ∧
   Part000.board (Part000.room w') = Part000.board (Part000.room w) ∧
   Part000.currentTurn (Part000.room w') = Part000.currentTurn (Part000.room w) ∧
   Part000.started (Part000.room w') = Part000.started (Part000.room w) ∧
   Part000.winner (Part000.room w') = Part000.winner (Part000.room w) ∧
   Part000.postDecisions (Part000.room w') = undecided).
Proof.
  unfold Part000.join, broadcast_since.
  destruct w as [[b [pa pb] t win st q pd] socks lg].
  destruct pa as [pa|], pb as [pb|], st, win as [win|]; simpl;
    rewrite <-?app_assoc, ?emitted_since_app; split_and!; try done.
  all: intros _ [?|[? ?]]; done.
Qed.

Lemma part001_join_gating (w : Part001.World) :
  let w' := (Part001.join sid rid nm w).1 in
  (both_seated (Part001.players (Part001.room w')) = true →
   Part001.started (Part001.room w) = false → Part001.winner (Part001.room w) = None →
   Part001.currentTurn (Part001.room w') = Some A ∧
   Part001.started (Part001.room w') = true ∧
   broadcast_since (Part001.log w) (Part001.log w') = [start_game]) ∧
  (both_seated (Part001.players (Part001.room w')) = false →
   broadcast_since (Part001.log w) (Part001.log w') = [update_state] ∧
   Part001.board (Part001.room w') = Part001.board (Part001.room w) ∧
   Part001.currentTurn (Part001.room w') = Part001.currentTurn (Part001.room w) ∧
   Part001.started (Part001.room w') = Part001.started (Part001.room w) ∧
   Part001.winner (Part001.room w') = Part001.winner (Part001.room w) ∧
   Part001.pendingDecisions (Part001.room w') = Part001.pendingDecisions (Part001.room w)) ∧
  (both_seated (Part001.players (Part001.room w')) = true →
   Part001.started (Part001.room w) = true ∨ is_Some (Part001.winner (Part001.room w)) →
   broadcast_since (Part001.log w) (Part001.log w') = [update_state] ∧
   Part001.board (Part001.room w') = Part001.board (Part001.room w) ∧
   Part001.currentTurn (Part001.room w') = Part001.currentTurn (Part001.room w) ∧
   Part001.started (Part001.room w') = Part001.started (Part001.room w) ∧
   Part001.winner (Part001.room w') = Part001.winner (Part001.room w) ∧
   Part001.pendingDecisions (Part001.room w') = Part001.pendingDecisions (Part001.room w)).
Proof.
  unfold Part001.join, broadcast_since.
  destruct w as [[b [pa pb] q t win st pd] socks lg].
  destruct pa as [pa|], pb as [pb|], st, win as [win|]; simpl;
    rewrite <-?app_assoc, ?emitted_since_app; split_and!; try done.
  all: intros _ [?|[? ?]]; done.
Qed.

(** The three join handlers case by case.  If after assignment both slots
    are taken and the room is neither started nor has a winner pending, the
    turn is set to A, [started] to true and a start event is broadcast (all
    three variants); if a slot is still empty, an update event is broadcast
    and board, turn, [started], winner and post-game decisions are as before
    (all three variants); if both slots are taken and the room is already
    started or has a winner pending, part_001 broadcasts an update event and
    leaves the five fields as they were, while part_000 broadcasts a start
    event and empties the post-game decisions. *)
Theorem join_start_gating :
  (∀ (w : ServerJs.World),
     (both_seated (ServerJs.players (ServerJs.room (ServerJs.join sid rid nm w).1)) = true →
      ServerJs.started (ServerJs.room w) = false → ServerJs.winner (ServerJs.room w) = None →
      ServerJs.currentTurn (ServerJs.room (ServerJs.join sid rid nm w).1) = Some A ∧
      ServerJs.started (ServerJs.room (ServerJs.join sid rid nm w).1) = true ∧
      broadcast_since (ServerJs.log w) (ServerJs.log (ServerJs.join sid rid nm w).1)
      = [start_game]) ∧
     (both_seated (ServerJs.players (ServerJs.room (ServerJs.join sid rid nm w).1)) = false →
      broadcast_since (ServerJs.log w) (ServerJs.log (ServerJs.join sid rid nm w).1)
      = [update_state] ∧
      ServerJs.board (ServerJs.room (ServerJs.join sid rid nm w).1)
      = ServerJs.board (ServerJs.room w) ∧
      ServerJs.currentTurn (ServerJs.room (ServerJs.join sid rid nm w).1)
      = ServerJs.currentTurn (ServerJs.room w) ∧
      ServerJs.started (ServerJs.room (ServerJs.join sid rid nm w).1)
      = ServerJs.started (ServerJs.room w) ∧
      ServerJs.winner (ServerJs.room (ServerJs.join sid rid nm w).1)
      = ServerJs.winner (ServerJs.room w) ∧
      ServerJs.postDecisions (ServerJs.room (ServerJs.join sid rid nm w).1)
      = ServerJs.postDecisions (ServerJs.room w))) ∧
  (∀ (w : Part000.World),
     (both_seated (Part000.players (Part000.room (Part000.join sid rid nm w).1)) = true →
      Part000.started (Part000.room w) = false → Part000.winner (Part000.room w) = None →
      Part000.currentTurn (Part000.room (Part000.join sid rid nm w).1) = Some A ∧
      Part000.started (Part000.room (Part000.join sid rid nm w).1) = true ∧
      broadcast_since (Part000.log w) (Part000.log (Part000.join sid rid nm w).1)
      = [start_game]) ∧
     (both_seated (Part000.players (Part000.room (Part000.join sid rid nm w).1)) = false →
      broadcast_since (Part000.log w) (Part000.log (Part000.join sid rid nm w).1)
      = [update_state] ∧
      Part000.board (Part000.room (Part000.join sid rid nm w).1)
      = Part000.board (Part000.room w) ∧
      Part000.currentTurn (Part000.room (Part000.join sid rid nm w).1)
      = Part000.currentTurn (Part000.room w) ∧
      Part000.started (Part000.room (Part000.join sid rid nm w).1)
      = Part000.started (Part000.room w) ∧
      Part000.winner (Part000.room (Part000.join sid rid nm w).1)
      = Part000.winner (Part000.room w) ∧
      Part000.postDecisions (Part000.room (Part000.join sid rid nm w).1)
      = Part000.postDecisions (Part000.room w)) ∧
     (both_seated (Part000.players (Part000.room (Part000.join sid rid nm w).1)) = true →
      Part000.started (Part000.room w) = true ∨ is_Some (Part000.winner (Part000.room w)) →
      broadcast_since (Part000.log w) (Part000.log (Part000.join sid rid nm w).1)
      = [start_game] ∧
      Part000.board (Part000.room (Part000.join sid rid nm w).1)
      = Part000.board (Part000.room w) ∧
      Part000.currentTurn (Part000.room (Part000.join sid rid nm w).1)
      = Part000.currentTurn (Part000.room w) ∧
      Part000.started (Part000.room (Part000.join sid rid nm w).1)
      = Part000.started (Part000.room w) ∧
      Part000.winner (Part000.room (Part000.join sid rid nm w).1)
      = Part000.winner (Part000.room w) ∧
      Part000.postDecisions (Part000.room (Part000.join sid rid nm w).1) = undecided)) ∧
  (∀ (w : Part001.World),
     (both_seated (Part001.players (Part001.room (Part001.join sid rid nm w).1)) = true →
      Part001.started (Part001.room w) = false → Part001.winner (Part001.room w) = None →
      Part001.currentTurn (Part001.room (Part001.join sid rid nm w).1) = Some A ∧
      Part001.started (Part001.room (Part001.join sid rid nm w).1) = true ∧
      broadcast_since (Part001.log w) (Part001.log (Part001.join sid rid nm w).1)
      = [start_game]) ∧
     (both_seated (Part001.players (Part001.room (Part001.join sid rid nm w).1)) = false →
      broadcast_since (Part001.log w) (Part001.log (Part001.join sid rid nm w).1)
      = [update_state] ∧
      Part001.board (Part001.room (Part001.join sid rid nm w).1)
      = Part001.board (Part001.room w) ∧
      Part001.currentTurn (Part001.room (Part001.join sid rid nm w).1)
      = Part001.currentTurn (Part001.room w) ∧
      Part001.started (Part001.room (Part001.join sid rid nm w).1)
      = Part001.started (Part001.room w) ∧
      Part001.winner (Part001.room (Part001.join sid rid nm w).1)
      = Part001.winner (Part001.room w) ∧
      Part001.pendingDecisions (Part001.room (Part001.join sid rid nm w).1)
      = Part001.pendingDecisions (Part001.room w)) ∧
     (both_seated (Part001.players (Part001.room (Part001.join sid rid nm w).1)) = true →
      Part001.started (Part001.room w) = true ∨ is_Some (Part001.winner (Part001.room w)) →
      broadcast_since (Part001.log w) (Part001.log (Part001.join sid rid nm w).1)
      = [update_state] ∧
      Part001.board (Part001.room (Part001.join sid rid nm w).1)
      = Part001.board (Part001.room w) ∧
      Part001.currentTurn (Part001.room (Part001.join sid rid nm w).1)
      = Part001.currentTurn (Part001.room w) ∧
      Part001.started (Part001.room (Part001.join sid rid nm w).1)
      = Part001.started (Part001.room w) ∧
      Part001.winner (Part001.room (Part001.join sid rid nm w).1)
      = Part001.winner (Part001.room w) ∧
      Part001.pendingDecisions (Part001.room (Part001.join sid rid nm w).1)
      = Part001.pendingDecisions (Part001.room w))).
Proof.
  split_and!.
  - intros w. destruct (server_js_join_gating w) as [Hstart Hwait].
    split; [intros Hboth _ _; by apply Hstart|exact Hwait].
  - exact part000_join_gating.
  - exact part001_join_gating.
Qed.

End Join.

Section JoinExamples.

(** The first case at work on part_001: Bob joins the room where Alice
    waits at slot A, and the match starts with A to move. *)
Lemma join_start_gating_witness :
  both_seated (Part001.players (Part001.room
     (Part001.join "b1" "x" "Bob" part001_waiting).1)) = true ∧
  Part001.currentTurn (Part001.room (Part001.join "b1" "x" "Bob" part001_waiting).1)
  = Some A ∧
  Part001.started (Part001.room (Part001.join "b1" "x" "Bob" part001_waiting).1) = true ∧
  broadcast_since (Part001.log part001_waiting)
    (Part001.log (Part001.join "b1" "x" "Bob" part001_waiting).1) = [start_game].
Proof.
  split; [reflexivity|].
  pose proof (join_start_gating "b1" "x" "Bob") as (_ & _ & H001).
  destruct (H001 part001_waiting) as (Hstart & _ & _).
  apply Hstart; reflexivity.
Defined.

(** On part_000 Carol joins a room where Alice and Bob are in the middle of
    a match with B to move.  Both slots are taken and the room is already
    started, yet what the room is sent is a start event and no update
    event. *)
Lemma part000_spectator_join_broadcasts_start :
  both_seated (Part000.players (Part000.room part000_running)) = true ∧
  Part000.started (Part000.room part000_running) = true ∧
  (Part000.join "c1" "x" "Carol" part000_running).2 = spectator ∧
  broadcast_since (Part000.log part000_running)
    (Part000.log (Part000.join "c1" "x" "Carol" part000_running).1) = [start_game] ∧
  update_state ∉ Part000.log (Part000.join "c1" "x" "Carol" part000_running).1.
Proof.
  split_and!; try reflexivity.
  intros Hin. apply elem_of_cons in Hin as [Heq|Hin]; [discriminate Heq|].
  apply elem_of_cons in Hin as [Heq|Hin]; [discriminate Heq|]. by apply elem_of_nil in Hin.
Qed.

(** On server.js the same join also sets the turn back to A in the middle
    of the match. *)
Lemma server_js_spectator_join_resets_turn :
  ServerJs.currentTurn (ServerJs.room server_js_running) = Some B ∧
  (ServerJs.join "c1" "x" "Carol" server_js_running).2 = spectator ∧
  ServerJs.currentTurn (ServerJs.room (ServerJs.join "c1" "x" "Carol" server_js_running).1)
  = Some A ∧
  ServerJs.log (ServerJs.join "c1" "x" "Carol" server_js_running).1 = [start_game].
Proof. split_and!; reflexivity. Qed.

(** C6: the join of a watcher while a decision is stored.  Alice and Bob
    have played a match that B won and Alice has asked for another one; Bob
    has not answered.  Eve then joins the room.  Both slots are taken, so
    she becomes a spectator, and the match is over with a winner pending, so
    the specification has the room sent an update event and board, turn,
    [started], winner and the stored decisions left as they are.  part_001
    does exactly that.  part_000 sends the room a start event and no update
    event and empties the stored decisions, so Alice's request is lost, while
    the match stays over.  server.js sends the room a start event and no
    update event, marks the room started while the winner is still pending
    and hands the turn to A. *)
Theorem spectator_join_with_decision_stored :
  (* part_000: the room and connections of [part000_decided] are those the
     handlers leave *)
  (Part000Flow.room
     (Part000Flow.postgame_decision (Some (player A)) (Some Part000.continue)
        (lift000 part000_finished)).1 = Part000.room part000_decided ∧
   Part000Flow.sockets
     (Part000Flow.postgame_decision (Some (player A)) (Some Part000.continue)
        (lift000 part000_finished)).1 = Part000.sockets part000_decided) ∧
  (* part_000 *)
  (let w := part000_decided in
   let w' := (Part000.join "e1" "x" "Eve" w).1 in
   both_seated (Part000.players (Part000.room w)) = true ∧
   Part000.started (Part000.room w) = false ∧
   Part000.winner (Part000.room w) = Some B ∧
   Part000.postDecisions (Part000.room w)
   = {| at_A := Some Part000.continue; at_B := None |} ∧
   (Part000.join "e1" "x" "Eve" w).2 = spectator ∧
   broadcast_since (Part000.log w) (Part000.log w') = [start_game] ∧
   Part000.postDecisions (Part000.room w') = undecided ∧
   Part000.board (Part000.room w') = Part000.board (Part000.room w) ∧
   Part000.currentTurn (Part000.room w') = Part000.currentTurn (Part000.room w) ∧
   Part000.started (Part000.room w') = false ∧
   Part000.winner (Part000.room w') = Some B) ∧
  (* part_001 *)
  (let w := part001_decided in
   let w' := (Part001.join "e1" "x" "Eve" w).1 in
   both_seated (Part001.players (Part001.room w)) = true ∧
   Part001.started (Part001.room w) = false ∧
   Part001.winner (Part001.room w) = Some B ∧
   Part001.pendingDecisions (Part001.room w)
   = {| at_A := Some Part001.rematch; at_B := None |} ∧
   (Part001.join "e1" "x" "Eve" w).2 = spectator ∧
   broadcast_since (Part001.log w) (Part001.log w') = [update_state] ∧
   Part001.pendingDecisions (Part001.room w') = Part001.pendingDecisions (Part001.room w) ∧
   Part001.board (Part001.room w') = Part001.board (Part001.room w) ∧
   Part001.currentTurn (Part001.room w') = Part001.currentTurn (Part001.room w) ∧
   Part001.started (Part001.room w') = false ∧
   Part001.winner (Part001.room w') = Some B) ∧
  (* server.js *)
  (let w := server_js_decided in
   let w' := (ServerJs.join "e1" "x" "Eve" w).1 in
   both_seated (ServerJs.players (ServerJs.room w)) = true ∧
   ServerJs.started (ServerJs.room w) = false ∧
   ServerJs.winner (ServerJs.room w) = Some B ∧
   ServerJs.currentTurn (ServerJs.room w) = Some B ∧
   ServerJs.postDecisions (ServerJs.room w)
   = {| at_A := Some ServerJs.continue; at_B := None |} ∧
   (ServerJs.join "e1" "x" "Eve" w).2 = spectator ∧
   broadcast_since (ServerJs.log w) (ServerJs.log w') = [start_game] ∧
   ServerJs.started (ServerJs.room w') = true ∧
   ServerJs.currentTurn (ServerJs.room w') = Some A ∧
   ServerJs.winner (ServerJs.room w') = Some B ∧
   ServerJs.postDecisions (ServerJs.room w') = ServerJs.postDecisions (ServerJs.room w)).
Proof. cbv zeta. split_and!; vm_compute; reflexivity. Qed.

End JoinExamples.

(* ===================================================================== *)
(** * [place_piece]: what an accepted request does *)
(* ===================================================================== *)

Section Moves.

Implicit Types (board : Board) (st : list Piece) (slot : Slot) (who : option Role).

Lemma cell_set_cell_ne board r c st r' c' :
  (r, c) ≠ (r', c') → cell (set_cell board r c st) r' c' = cell board r' c'.
Proof.
  intros Hne. unfold cell, set_cell.
  destruct (board !! r) as [row|] eqn:Hr; [|done].
  destruct (decide (r = r')) as [->|Hr'].
  - rewrite list_lookup_insert_eq by (by eapply lookup_lt_Some). rewrite Hr. simpl.
    apply list_lookup_insert_ne. congruence.
  - by rewrite list_lookup_insert_ne.
Qed.



(** ** Stacking order *)

Lemma ascending_snoc st p :
  ascending (st ++ [p]) ↔
  ascending st ∧
  match last st with
  | None => True
  | Some t => gt (SIZE_VAL (size p)) (SIZE_VAL (size t))
  end.
Proof.
  induction st as [|a st IH]; [simpl; tauto|].
  destruct st as [|b st]; [simpl; tauto|].
  rewrite last_cons_cons.
  change (ascending ((a :: b :: st) ++ [p]))
    with (gt (SIZE_VAL (size b)) (SIZE_VAL (size a)) ∧ ascending ((b :: st) ++ [p])).
  change (ascending (a :: b :: st))
    with (gt (SIZE_VAL (size b)) (SIZE_VAL (size a)) ∧ ascending (b :: st)).
  rewrite IH. tauto.
Qed.

Lemma ascending_removelast st : ascending st → ascending (removelast st).
Proof.
  destruct (last st) as [p|] eqn:Hl.
  - rewrite (last_removelast st p Hl) at 1. rewrite ascending_snoc. tauto.
  - apply last_None in Hl as ->. done.
Qed.

Lemma ascending_legal st p :
  ascending st → legal_on st (size p) → ascending (st ++ [p]).
Proof.
  intros Hst Hlegal. apply ascending_snoc. split; [done|].
  apply legal_on_last in Hlegal. by destruct (last st).
Qed.

Lemma board_stacked_cell board r c st :
  board_stacked board → cell board r c = Some st → ascending st.
Proof.
  unfold board_stacked, cell. intros Hb Hc.
  destruct (board !! r) as [row|] eqn:Hr; simplify_eq/=.
  eapply Forall_lookup_1; [|exact Hc]. by eapply (Forall_lookup_1 _ _ _ _ Hb Hr).
Qed.

Lemma board_stacked_set_cell board r c st :
  board_stacked board → ascending st → board_stacked (set_cell board r c st).
Proof.
  unfold board_stacked, set_cell. intros Hb Hst.
  destruct (board !! r) as [row|] eqn:Hr; [|done].
  apply Forall_insert; [done|]. apply Forall_insert; [|done].
  by eapply (Forall_lookup_1 _ _ _ _ Hb Hr).
Qed.

Lemma board_stacked_pop board r c st :
  board_stacked board → cell board r c = Some st →
  board_stacked (set_cell board r c (removelast st)).
Proof.
  intros Hb Hc. apply board_stacked_set_cell; [done|].
  apply ascending_removelast. by eapply board_stacked_cell.
Qed.

Lemma board_stacked_push board r c p :
  board_stacked board → ServerJs.canPlaceAt board r c (size p) = Some true →
  board_stacked (push_cell board r c p).
Proof.
  intros Hb Hcan. destruct (canPlaceAt_is_Some _ _ _ _ _ Hcan) as [st Hc].
  unfold push_cell. rewrite Hc. apply board_stacked_set_cell; [done|].
  apply ascending_legal; [by eapply board_stacked_cell|].
  by apply (server_js_canPlaceAt_legal board r c st (size p) Hc).
Qed.

(** A piece never goes onto the stack it comes from: asked before the pop,
    [canPlaceAt] refuses the top piece on its own cell. *)
Lemma canPlaceAt_own_cell board r c st top :
  cell board r c = Some st → last st = Some top →
  ServerJs.canPlaceAt board r c (size top) = Some false.
Proof.
  intros Hc Hl. rewrite (server_js_canPlaceAt_cell _ _ _ _ _ Hc), Hl.
  f_equal. apply bool_decide_eq_false. destruct (SIZE_VAL (size top)); simpl; [lia|tauto].
Qed.

Lemma board_stacked_relocate board r c st top r' c' :
  board_stacked board → cell board r c = Some st → last st = Some top →
  ServerJs.canPlaceAt board r' c' (size top) = Some true →
  (r, c) ≠ (r', c') ∧
  board_stacked (push_cell (set_cell board r c (removelast st)) r' c' top).
Proof.
  intros Hb Hc Hl Hcan.
  assert ((r, c) ≠ (r', c')) as Hne.
  { intros [= <- <-]. rewrite (canPlaceAt_own_cell _ _ _ _ _ Hc Hl) in Hcan. done. }
  split; [done|]. apply board_stacked_push; [by apply board_stacked_pop|].
  unfold ServerJs.canPlaceAt in *. by rewrite cell_set_cell_ne.
Qed.

Lemma empty_board_stacked : board_stacked empty_board.
Proof. by repeat constructor. Qed.

(** A stack in that order holds at most one piece of each of the three
    sizes; a piece of any other size is alone on its stack. *)
Lemma ascending_bound st :
  ascending st →
  match st with
  | [] => True
  | p :: _ => (Z.of_nat (length st) ≤ 4 - default 1 (SIZE_VAL (size p)))
  end.
Proof.
  induction st as [|p st IH]; [done|]. intros [Hlt Hst].
  specialize (IH Hst). destruct st as [|q st].
  - destruct (size p); simpl; lia.
  - unfold gt in Hlt. change (length (p :: q :: st)) with (S (length (q :: st))).
    destruct (size p), (size q); simpl in *; lia.
Qed.

Lemma ascending_length st : ascending st → (length st ≤ 3)%nat.
Proof.
  intros Hst. apply ascending_bound in Hst. destruct st as [|p st]; simpl in *; [lia|].
  destruct (size p); simpl in *; lia.
Qed.

(** ** Hands *)



Lemma hand_nonneg_dec h sz :
  hand_nonneg h → none_left h sz = false → hand_nonneg (hand_dec h sz).
Proof.
  unfold hand_nonneg, none_left.
  destruct sz; simpl; try done; intros ? ?%bool_decide_eq_false; lia.
Qed.

Lemma hands_nonneg_set ps slot pl sz :
  hands_nonneg ps → seat ps slot = Some pl → none_left (pieces pl) sz = false →
  hands_nonneg (set_seat ps slot (Some (with_pieces (hand_dec (pieces pl) sz) pl))).
Proof.
  intros Hps Hpl Hpos s p. rewrite seat_set_seat.
  destruct (decide (slot = s)) as [->|Hne]; [|apply Hps].
  intros [= <-]. simpl. apply hand_nonneg_dec; [by eapply Hps|done].
Qed.

(** ** The three handlers *)

Ltac accepted_cases :=
  repeat case_match; simpl; try done;
  repeat match goal with
         | H : bool_decide _ = true |- _ => apply bool_decide_eq_true in H
         | H : bool_decide _ = false |- _ => apply bool_decide_eq_false in H
         | H : negb _ = false |- _ => apply negb_false_iff in H
         | H : negb _ = true |- _ => apply negb_true_iff in H
         end.

Lemma server_js_keeps_stacking who payload w :
  board_stacked (ServerJs.board (ServerJs.room w)) →
  board_stacked (ServerJs.board (ServerJs.room (ServerJs.place_piece who payload w).1)).
Proof.
  intros Hb. unfold ServerJs.place_piece. accepted_cases.
  all: rewrite ?server_js_after_move_board; simpl.
  all: try (by apply board_stacked_pop).
  all: first [by apply board_stacked_push
             |apply board_stacked_push; [by apply board_stacked_pop|done]].
Qed.

Lemma part000_keeps_stacking who payload w :
  board_stacked (Part000.board (Part000.room w)) →
  board_stacked (Part000.board (Part000.room (Part000.place_piece who payload w).1)).
Proof.
  intros Hb. unfold Part000.place_piece. accepted_cases.
  all: rewrite part000_after_move_board; simpl; try done.
  - apply board_stacked_push; [done|]. by rewrite <-canPlaceAt_000_server_js.
  - eapply board_stacked_relocate; [done..|]. by rewrite <-canPlaceAt_000_server_js.
Qed.

Lemma part001_keeps_stacking who payload w :
  board_stacked (Part001.board (Part001.room w)) →
  board_stacked (Part001.board (Part001.room (Part001.place_piece who payload w).1)).
Proof.
  intros Hb. unfold Part001.place_piece. accepted_cases.
  all: rewrite part001_after_move_board; simpl; try done.
  - apply board_stacked_push; [done|]. by rewrite <-canPlaceAt_000_server_js.
  - eapply board_stacked_relocate; [done..|]. by rewrite <-canPlaceAt_000_server_js.
Qed.

(** In every variant [place_piece], accepted or not, keeps every stack of the
    board in strictly ascending size from bottom to top; such a stack holds
    at most three pieces. *)
Theorem place_piece_keeps_stacking :
  (∀ who payload w,
     board_stacked (ServerJs.board (ServerJs.room w)) →
     board_stacked (ServerJs.board (ServerJs.room (ServerJs.place_piece who payload w).1))) ∧
  (∀ who payload w,
     board_stacked (Part000.board (Part000.room w)) →
     board_stacked (Part000.board (Part000.room (Part000.place_piece who payload w).1))) ∧
  (∀ who payload w,
     board_stacked (Part001.board (Part001.room w)) →
     board_stacked (Part001.board (Part001.room (Part001.place_piece who payload w).1))) ∧
  board_stacked empty_board ∧
  (∀ board r c st, board_stacked board → cell board r c = Some st → (length st ≤ 3)%nat).
Proof.
  split_and!.
  - apply server_js_keeps_stacking.
  - apply part000_keeps_stacking.
  - apply part001_keeps_stacking.
  - apply empty_board_stacked.
  - intros board r c st Hb Hc. apply ascending_length. by eapply board_stacked_cell.
Qed.

Lemma place_piece_keeps_stacking_witness :
  board_stacked (Part001.board (Part001.room part001_running)) ∧
  board_stacked (Part001.board (Part001.room
    (Part001.place_piece (Some (player B)) (place_from_hand medium (0, 0)%nat)
       part001_running).1)).
Proof.
  assert (board_stacked (Part001.board (Part001.room part001_running))) as Hb
    by (by repeat constructor).
  split; [exact Hb|].
  destruct place_piece_keeps_stacking as (_ & _ & H001 & _). by apply H001.
Defined.

Lemma server_js_keeps_hands who payload w :
  hands_nonneg (ServerJs.players (ServerJs.room w)) →
  hands_nonneg (ServerJs.players (ServerJs.room (ServerJs.place_piece who payload w).1)).
Proof.
  intros Hps. unfold ServerJs.place_piece. accepted_cases.
  all: rewrite ?server_js_after_move_players; simpl; try done.
  by apply hands_nonneg_set.
Qed.

Lemma part000_keeps_hands who payload w :
  hands_nonneg (Part000.players (Part000.room w)) →
  hands_nonneg (Part000.players (Part000.room (Part000.place_piece who payload w).1)).
Proof.
  intros Hps. unfold Part000.place_piece. accepted_cases.
  all: rewrite part000_after_move_players; simpl; try done.
  by apply hands_nonneg_set.
Qed.

Lemma part001_keeps_hands who payload w :
  hands_nonneg (Part001.players (Part001.room w)) →
  hands_nonneg (Part001.players (Part001.room (Part001.place_piece who payload w).1)).
Proof.
  intros Hps. unfold Part001.place_piece. accepted_cases.
  all: rewrite part001_after_move_players; simpl; try done.
  by apply hands_nonneg_set.
Qed.

(** In every variant no hand count ever goes below zero through
    [place_piece]: a size is taken from the hand only while its count is
    positive. *)
Theorem place_piece_keeps_hands_nonneg :
  (∀ who payload w,
     hands_nonneg (ServerJs.players (ServerJs.room w)) →
     hands_nonneg (ServerJs.players (ServerJs.room (ServerJs.place_piece who payload w).1))) ∧
  (∀ who payload w,
     hands_nonneg (Part000.players (Part000.room w)) →
     hands_nonneg (Part000.players (Part000.room (Part000.place_piece who payload w).1))) ∧
  (∀ who payload w,
     hands_nonneg (Part001.players (Part001.room w)) →
     hands_nonneg (Part001.players (Part001.room (Part001.place_piece who payload w).1))).
Proof.
  split_and!;
    [apply server_js_keeps_hands|apply part000_keeps_hands|apply part001_keeps_hands].
Qed.

Lemma place_piece_keeps_hands_nonneg_witness :
  hands_nonneg (ServerJs.players (ServerJs.room server_js_midgame)) ∧
  hands_nonneg (ServerJs.players (ServerJs.room
    (ServerJs.place_piece (Some (player A)) (place_from_hand small (1, 1)%nat)
       server_js_midgame).1)).
Proof.
  assert (hands_nonneg (ServerJs.players (ServerJs.room server_js_midgame))) as Hps.
  { intros [] p [= <-]; unfold hand_nonneg; simpl; lia. }
  split; [exact Hps|].
  destruct place_piece_keeps_hands_nonneg as (Hjs & _). by apply Hjs.
Defined.

(** ** Turn order and the end of the match *)

Lemma server_js_after_move_turns slot w turn :
  ServerJs.started (ServerJs.room w) = true → ServerJs.winner (ServerJs.room w) = None →
  ServerJs.currentTurn (ServerJs.room w) = turn →
  turn_outcome slot (ServerJs.checkWinner (ServerJs.board (ServerJs.room w)))
    turn
    (ServerJs.currentTurn (ServerJs.room (ServerJs.after_move slot w).1))
    (ServerJs.started (ServerJs.room (ServerJs.after_move slot w).1))
    (ServerJs.winner (ServerJs.room (ServerJs.after_move slot w).1))
    (emitted_since (ServerJs.log w) (ServerJs.log (ServerJs.after_move slot w).1)).
Proof.
  intros Hst Hwin <-. unfold ServerJs.after_move, turn_outcome.
  destruct (ServerJs.checkWinner _) as [win|]; simpl; rewrite emitted_since_app;
    by destruct slot.
Qed.

(** An accepted request ends in the tail of the [try] block, run on a world
    that differs from the one before in board and hands only. *)
Lemma server_js_accepted_shape who payload w :
  (ServerJs.place_piece who payload w).2 = Some ack_ok →
  ∃ slot x,
    who = Some (player slot) ∧ ServerJs.currentTurn (ServerJs.room w) = Some slot ∧
    ServerJs.started (ServerJs.room w) = true ∧ ServerJs.winner (ServerJs.room w) = None ∧
    ServerJs.place_piece who payload w = ServerJs.after_move slot x ∧
    ServerJs.currentTurn (ServerJs.room x) = ServerJs.currentTurn (ServerJs.room w) ∧
    ServerJs.started (ServerJs.room x) = ServerJs.started (ServerJs.room w) ∧
    ServerJs.winner (ServerJs.room x) = ServerJs.winner (ServerJs.room w) ∧
    ServerJs.log x = ServerJs.log w.
Proof.
  destruct (ServerJs.place_piece who payload w) as [w' ack] eqn:Hpp. simpl. intros ->.
  unfold ServerJs.place_piece in Hpp.
  destruct who as [[slot|]|]; [|(by simplify_eq)..].
  destruct (ServerJs.currentTurn (ServerJs.room w)) as [turn|] eqn:Hturn; [|by simplify_eq].
  destruct (ServerJs.started (ServerJs.room w)) eqn:Hst; [|by simplify_eq].
  destruct (ServerJs.winner (ServerJs.room w)) as [win|] eqn:Hwin; [by simplify_eq|].
  simpl in Hpp. case_bool_decide as Heq; [subst turn|by simplify_eq]. simpl in Hpp.
  assert (ServerJs.started (ServerJs.room w) = true) as Hst' by done.
  assert (ServerJs.winner (ServerJs.room w) = None) as Hwin' by done.
  clear Hst Hwin.
  repeat case_match; simplify_eq.
  all: eexists slot, _; split_and!; [done|done|done|done|symmetry; exact Hpp|done..].
Qed.

Lemma server_js_turns who payload w :
  (ServerJs.place_piece who payload w).2 = Some ack_ok →
  ∃ slot,
    who = Some (player slot) ∧ ServerJs.currentTurn (ServerJs.room w) = Some slot ∧
    ServerJs.started (ServerJs.room w) = true ∧ ServerJs.winner (ServerJs.room w) = None ∧
    turn_outcome slot
      (ServerJs.checkWinner
         (ServerJs.board (ServerJs.room (ServerJs.place_piece who payload w).1)))
      (ServerJs.currentTurn (ServerJs.room w))
      (ServerJs.currentTurn (ServerJs.room (ServerJs.place_piece who payload w).1))
      (ServerJs.started (ServerJs.room (ServerJs.place_piece who payload w).1))
      (ServerJs.winner (ServerJs.room (ServerJs.place_piece who payload w).1))
      (emitted_since (ServerJs.log w) (ServerJs.log (ServerJs.place_piece who payload w).1)).
Proof.
  intros Hack. destruct (server_js_accepted_shape who payload w Hack)
    as (slot & x & -> & Hturn & Hst & Hwin & -> & Hturn' & Hst' & Hwin' & Hlog).
  exists slot. split_and!; [done..|].
  rewrite server_js_after_move_board, <-Hlog.
  apply server_js_after_move_turns; congruence.
Qed.

Lemma part000_after_move_turns slot w turn :
  Part000.started (Part000.room w) = true → Part000.winner (Part000.room w) = None →
  Part000.currentTurn (Part000.room w) = turn →
  turn_outcome slot (Part000.checkWinner (Part000.board (Part000.room w)))
    turn
    (Part000.currentTurn (Part000.room (Part000.after_move slot w).1))
    (Part000.started (Part000.room (Part000.after_move slot w).1))
    (Part000.winner (Part000.room (Part000.after_move slot w).1))
    (emitted_since (Part000.log w) (Part000.log (Part000.after_move slot w).1)).
Proof.
  intros Hst Hwin <-. unfold Part000.after_move, turn_outcome.
  destruct (Part000.checkWinner _) as [win|]; simpl; rewrite emitted_since_app;
    by destruct slot.
Qed.

(** An accepted request ends in the tail of the [try] block, run on a world
    that differs from the one before in board and hands only. *)
Lemma part000_accepted_shape who payload w :
  (Part000.place_piece who payload w).2 = Some ack_ok →
  ∃ slot x,
    who = Some (player slot) ∧ Part000.currentTurn (Part000.room w) = Some slot ∧
    Part000.started (Part000.room w) = true ∧ Part000.winner (Part000.room w) = None ∧
    Part000.place_piece who payload w = Part000.after_move slot x ∧
    Part000.currentTurn (Part000.room x) = Part000.currentTurn (Part000.room w) ∧
    Part000.started (Part000.room x) = Part000.started (Part000.room w) ∧
    Part000.winner (Part000.room x) = Part000.winner (Part000.room w) ∧
    Part000.log x = Part000.log w.
Proof.
  destruct (Part000.place_piece who payload w) as [w' ack] eqn:Hpp. simpl. intros ->.
  unfold Part000.place_piece in Hpp.
  destruct who as [[slot|]|]; [|(by simplify_eq)..].
  destruct (Part000.started (Part000.room w)) eqn:Hst; [|by simplify_eq].
  destruct (Part000.winner (Part000.room w)) as [win|] eqn:Hwin; [by simplify_eq|].
  simpl in Hpp. case_bool_decide as Hturn; [|by simplify_eq]. simpl in Hpp.
  assert (Part000.started (Part000.room w) = true) as Hst' by done.
  assert (Part000.winner (Part000.room w) = None) as Hwin' by done.
  clear Hst Hwin.
  repeat case_match; simplify_eq.
  all: eexists slot, _; split_and!; [done|done|done|done|symmetry; exact Hpp|done..].
Qed.

Lemma part000_turns who payload w :
  (Part000.place_piece who payload w).2 = Some ack_ok →
  ∃ slot,
    who = Some (player slot) ∧ Part000.currentTurn (Part000.room w) = Some slot ∧
    Part000.started (Part000.room w) = true ∧ Part000.winner (Part000.room w) = None ∧
    turn_outcome slot
      (Part000.checkWinner
         (Part000.board (Part000.room (Part000.place_piece who payload w).1)))
      (Part000.currentTurn (Part000.room w))
      (Part000.currentTurn (Part000.room (Part000.place_piece who payload w).1))
      (Part000.started (Part000.room (Part000.place_piece who payload w).1))
      (Part000.winner (Part000.room (Part000.place_piece who payload w).1))
      (emitted_since (Part000.log w) (Part000.log (Part000.place_piece who payload w).1)).
Proof.
  intros Hack. destruct (part000_accepted_shape who payload w Hack)
    as (slot & x & -> & Hturn & Hst & Hwin & -> & Hturn' & Hst' & Hwin' & Hlog).
  exists slot. split_and!; [done..|].
  rewrite part000_after_move_board, <-Hlog.
  apply part000_after_move_turns; congruence.
Qed.

Lemma part001_after_move_turns slot w turn :
  Part001.started (Part001.room w) = true → Part001.winner (Part001.room w) = None →
  Part001.currentTurn (Part001.room w) = turn →
  turn_outcome slot (Part001.checkWinner (Part001.board (Part001.room w)))
    turn
    (Part001.currentTurn (Part001.room (Part001.after_move slot w).1))
    (Part001.started (Part001.room (Part001.after_move slot w).1))
    (Part001.winner (Part001.room (Part001.after_move slot w).1))
    (emitted_since (Part001.log w) (Part001.log (Part001.after_move slot w).1)).
Proof.
  intros Hst Hwin <-. unfold Part001.after_move, turn_outcome.
  destruct (Part001.checkWinner _) as [win|]; simpl; rewrite emitted_since_app;
    by destruct slot.
Qed.

(** An accepted request ends in the tail of the [try] block, run on a world
    that differs from the one before in board and hands only. *)
Lemma part001_accepted_shape who payload w :
  (Part001.place_piece who payload w).2 = Some ack_ok →
  ∃ slot x,
    who = Some (player slot) ∧ Part001.currentTurn (Part001.room w) = Some slot ∧
    Part001.started (Part001.room w) = true ∧ Part001.winner (Part001.room w) = None ∧
    Part001.place_piece who payload w = Part001.after_move slot x ∧
    Part001.currentTurn (Part001.room x) = Part001.currentTurn (Part001.room w) ∧
    Part001.started (Part001.room x) = Part001.started (Part001.room w) ∧
    Part001.winner (Part001.room x) = Part001.winner (Part001.room w) ∧
    Part001.log x = Part001.log w.
Proof.
  destruct (Part001.place_piece who payload w) as [w' ack] eqn:Hpp. simpl. intros ->.
  unfold Part001.place_piece in Hpp.
  destruct who as [[slot|]|]; [|(by simplify_eq)..].
  destruct (Part001.started (Part001.room w)) eqn:Hst; [|by simplify_eq].
  destruct (Part001.winner (Part001.room w)) as [win|] eqn:Hwin; [by simplify_eq|].
  simpl in Hpp. case_bool_decide as Hturn; [|by simplify_eq]. simpl in Hpp.
  assert (Part001.started (Part001.room w) = true) as Hst' by done.
  assert (Part001.winner (Part001.room w) = None) as Hwin' by done.
  clear Hst Hwin.
  repeat case_match; simplify_eq.
  all: eexists slot, _; split_and!; [done|done|done|done|symmetry; exact Hpp|done..].
Qed.

Lemma part001_turns who payload w :
  (Part001.place_piece who payload w).2 = Some ack_ok →
  ∃ slot,
    who = Some (player slot) ∧ Part001.currentTurn (Part001.room w) = Some slot ∧
    Part001.started (Part001.room w) = true ∧ Part001.winner (Part001.room w) = None ∧
    turn_outcome slot
      (Part001.checkWinner
         (Part001.board (Part001.room (Part001.place_piece who payload w).1)))
      (Part001.currentTurn (Part001.room w))
      (Part001.currentTurn (Part001.room (Part001.place_piece who payload w).1))
      (Part001.started (Part001.room (Part001.place_piece who payload w).1))
      (Part001.winner (Part001.room (Part001.place_piece who payload w).1))
      (emitted_since (Part001.log w) (Part001.log (Part001.place_piece who payload w).1)).
Proof.
  intros Hack. destruct (part001_accepted_shape who payload w Hack)
    as (slot & x & -> & Hturn & Hst & Hwin & -> & Hturn' & Hst' & Hwin' & Hlog).
  exists slot. split_and!; [done..|].
  rewrite part001_after_move_board, <-Hlog.
  apply part001_after_move_turns; congruence.
Qed.

(** In every variant an accepted [place_piece] comes from the slot whose
    turn it is, in a started match without a winner; if the board it leaves
    has no winning line the turn passes to the other slot and an update is
    broadcast, otherwise the winner is recorded, [started] is cleared, the
    turn stays where it was and a game-over event is broadcast. *)
Theorem accepted_move_passes_turn_or_ends_match :
  (∀ who payload w,
     (ServerJs.place_piece who payload w).2 = Some ack_ok →
     ∃ slot,
       who = Some (player slot) ∧ ServerJs.currentTurn (ServerJs.room w) = Some slot ∧
       ServerJs.started (ServerJs.room w) = true ∧ ServerJs.winner (ServerJs.room w) = None ∧
       turn_outcome slot
         (ServerJs.checkWinner
            (ServerJs.board (ServerJs.room (ServerJs.place_piece who payload w).1)))
         (ServerJs.currentTurn (ServerJs.room w))
         (ServerJs.currentTurn (ServerJs.room (ServerJs.place_piece who payload w).1))
         (ServerJs.started (ServerJs.room (ServerJs.place_piece who payload w).1))
         (ServerJs.winner (ServerJs.room (ServerJs.place_piece who payload w).1))
         (emitted_since (ServerJs.log w)
            (ServerJs.log (ServerJs.place_piece who payload w).1))) ∧
  (∀ who payload w,
     (Part000.place_piece who payload w).2 = Some ack_ok →
     ∃ slot,
       who = Some (player slot) ∧ Part000.currentTurn (Part000.room w) = Some slot ∧
       Part000.started (Part000.room w) = true ∧ Part000.winner (Part000.room w) = None ∧
       turn_outcome slot
         (Part000.checkWinner
            (Part000.board (Part000.room (Part000.place_piece who payload w).1)))
         (Part000.currentTurn (Part000.room w))
         (Part000.currentTurn (Part000.room (Part000.place_piece who payload w).1))
         (Part000.started (Part000.room (Part000.place_piece who payload w).1))
         (Part000.winner (Part000.room (Part000.place_piece who payload w).1))
         (emitted_since (Part000.log w)
            (Part000.log (Part000.place_piece who payload w).1))) ∧
  (∀ who payload w,
     (Part001.place_piece who payload w).2 = Some ack_ok →
     ∃ slot,
       who = Some (player slot) ∧ Part001.currentTurn (Part001.room w) = Some slot ∧
       Part001.started (Part001.room w) = true ∧ Part001.winner (Part001.room w) = None ∧
       turn_outcome slot
         (Part001.checkWinner
            (Part001.board (Part001.room (Part001.place_piece who payload w).1)))
         (Part001.currentTurn (Part001.room w))
         (Part001.currentTurn (Part001.room (Part001.place_piece who payload w).1))
         (Part001.started (Part001.room (Part001.place_piece who payload w).1))
         (Part001.winner (Part001.room (Part001.place_piece who payload w).1))
         (emitted_since (Part001.log w)
            (Part001.log (Part001.place_piece who payload w).1))).
Proof. split_and!; [apply server_js_turns|apply part000_turns|apply part001_turns]. Qed.

Lemma accepted_move_passes_turn_or_ends_match_witness :
  (Part001.place_piece (Some (player B)) (place_from_hand medium (0, 0)%nat)
     part001_running).2 = Some ack_ok ∧
  Part001.currentTurn (Part001.room
    (Part001.place_piece (Some (player B)) (place_from_hand medium (0, 0)%nat)
       part001_running).1) = Some A.
Proof.
  split; [reflexivity|].
  destruct accepted_move_passes_turn_or_ends_match as (_ & _ & H001).
  destruct (H001 (Some (player B)) (place_from_hand medium (0, 0)%nat) part001_running
              eq_refl) as (slot & Hwho & _ & _ & _ & Hout).
  injection Hwho as <-. exact (proj1 Hout).
Defined.

(** ** What a placement and a relocation change *)






End Moves.

(* ===================================================================== *)
(** * [place_piece]: the effect of each accepted action *)
(* ===================================================================== *)

Section Effects.






(** A request whose [action] is neither [place_from_hand] nor
    [move_on_board], sent by the player to move on a board without a winning
    line: part_000 and part_001 acknowledge it, leave board and hands alone
    and pass the turn, whether or not it carries [from] and [to].  server.js
    runs such a request as a move when it carries [from] and [to], exactly
    as it runs [move_on_board]; without them it changes nothing and answers
    with an error. *)
Theorem unknown_action_passes_turn slot payload :
  unrecognised payload →
  (∀ w,
     Part000.started (Part000.room w) = true →
     Part000.winner (Part000.room w) = None →
     Part000.currentTurn (Part000.room w) = Some slot →
     Part000.checkWinner (Part000.board (Part000.room w)) = None →
     (Part000.place_piece (Some (player slot)) payload w).2 = Some ack_ok ∧
     Part000.board (Part000.room (Part000.place_piece (Some (player slot)) payload w).1)
     = Part000.board (Part000.room w) ∧
     Part000.players (Part000.room (Part000.place_piece (Some (player slot)) payload w).1)
     = Part000.players (Part000.room w) ∧
     Part000.currentTurn
       (Part000.room (Part000.place_piece (Some (player slot)) payload w).1)
     = Some (other_slot slot)) ∧
  (∀ w,
     Part001.started (Part001.room w) = true →
     Part001.winner (Part001.room w) = None →
     Part001.currentTurn (Part001.room w) = Some slot →
     Part001.checkWinner (Part001.board (Part001.room w)) = None →
     (Part001.place_piece (Some (player slot)) payload w).2 = Some ack_ok ∧
     Part001.board (Part001.room (Part001.place_piece (Some (player slot)) payload w).1)
     = Part001.board (Part001.room w) ∧
     Part001.players (Part001.room (Part001.place_piece (Some (player slot)) payload w).1)
     = Part001.players (Part001.room w) ∧
     Part001.currentTurn
       (Part001.room (Part001.place_piece (Some (player slot)) payload w).1)
     = Some (other_slot slot)) ∧
  (∀ w,
     match payload with
     | other_action_on from to =>
         ServerJs.place_piece (Some (player slot)) payload w
         = ServerJs.place_piece (Some (player slot)) (move_on_board from to) w
     | _ =>
         ServerJs.started (ServerJs.room w) = true →
         ServerJs.winner (ServerJs.room w) = None →
         ServerJs.currentTurn (ServerJs.room w) = Some slot →
         ServerJs.place_piece (Some (player slot)) payload w
         = (w, Some (ack_error r_invalid))
     end).
Proof.
  intros Hun. split_and!; intros w.
  - intros Hst Hwin Hturn Hcheck. unfold Part000.place_piece, Part000.after_move.
    rewrite Hst, Hwin, Hturn. simpl. rewrite bool_decide_eq_true_2 by done. simpl.
    destruct payload; try done; rewrite Hcheck; by destruct slot.
  - intros Hst Hwin Hturn Hcheck. unfold Part001.place_piece, Part001.after_move.
    rewrite Hst, Hwin, Hturn. simpl. rewrite bool_decide_eq_true_2 by done. simpl.
    destruct payload; try done; rewrite Hcheck; by destruct slot.
  - destruct payload; try done.
    intros Hst Hwin Hturn. unfold ServerJs.place_piece. rewrite Hst, Hwin, Hturn. simpl.
    by rewrite bool_decide_eq_true_2.
Qed.

Lemma unknown_action_passes_turn_witness :
  Part000.currentTurn
    (Part000.room (Part000.place_piece (Some (player B)) (other_action_on (0, 0) (1, 1))%nat
                     part000_running).1)
  = Some A ∧
  cell (Part000.board (Part000.room
          (Part000.place_piece (Some (player B)) (other_action_on (0, 0) (1, 1))%nat
             part000_running).1)) 0 0
  = Some [piece_of A small] ∧
  (ServerJs.place_piece (Some (player A)) (other_action_on (0, 0) (1, 1))%nat
     server_js_midgame).2 = Some ack_ok ∧
  cell (ServerJs.board (ServerJs.room
          (ServerJs.place_piece (Some (player A)) (other_action_on (0, 0) (1, 1))%nat
             server_js_midgame).1)) 1 1
  = Some [piece_of A small].
Proof.
  destruct (unknown_action_passes_turn B (other_action_on (0, 0) (1, 1))%nat I)
    as (H000 & _ & _).
  destruct (H000 part000_running eq_refl eq_refl eq_refl eq_refl) as (_ & Hb & _ & Ht).
  split; [exact Ht|]. split; [by rewrite Hb|].
  destruct (unknown_action_passes_turn A (other_action_on (0, 0) (1, 1))%nat I)
    as (_ & _ & Hjs).
  rewrite (Hjs server_js_midgame). split; reflexivity.
Defined.




End Effects.
(* ===================================================================== *)
(** * What every reachable room satisfies *)
(* ===================================================================== *)

Section Reachable.

Implicit Types ps : Players.

Lemma hands_nonneg_reset ps : hands_nonneg (reset_hands ps).
Proof.
  intros s p. destruct ps as [[pa|] [pb|]], s; simpl; intros; simplify_eq; simpl.
  all: unfold hand_nonneg; simpl; lia.
Qed.

Lemma both_seated_reset ps : both_seated (reset_hands ps) = both_seated ps.
Proof. by destruct ps as [[pa|] [pb|]]. Qed.

Lemma hands_nonneg_seat_full ps slot sid nm :
  hands_nonneg ps →
  hands_nonneg (set_seat ps slot (Some {| id := sid; name := nm; pieces := full_hand |})).
Proof.
  intros Hps s p. rewrite seat_set_seat.
  destruct (decide (slot = s)) as [->|Hne]; [|apply Hps].
  intros [= <-]. unfold hand_nonneg. simpl. lia.
Qed.

Lemma hands_nonneg_unseat ps slot : hands_nonneg ps → hands_nonneg (set_seat ps slot None).
Proof.
  intros Hps s p. rewrite seat_set_seat.
  destruct (decide (slot = s)) as [->|Hne]; [done|apply Hps].
Qed.

Lemma sound_fresh : sound empty_board no_players false None.
Proof.
  split_and!; [done|done|apply empty_board_stacked|].
  intros [] p; simpl; done.
Qed.

(** ** part_001 *)

Lemma part001_restart_sound w : part001_sound (Part001.restart w).
Proof.
  unfold part001_sound, Part001.restart.
  destruct (both_seated (reset_hands _)) eqn:Hboth; simpl.
  all: split; [|done].
  all: split_and!; [done|done|apply empty_board_stacked|apply hands_nonneg_reset].
Qed.

Lemma part001_join_sound sid rid nm w :
  part001_sound w → part001_sound (Part001.join sid rid nm w).1.
Proof.
  unfold part001_sound, sound, settled.
  destruct w as [[b [pa pb] sp ct win st pd] socks lg]. simpl.
  intros ((Hset & Hboth & Hb & Hh) & Hwin).
  unfold Part001.join. simpl.
  destruct pa as [pa|], pb as [pb|], st, win as [win|]; simpl.
  all: split_and!; try done; try (by intros; apply Hset); try (by intros; apply Hboth).
  all: first [exact (hands_nonneg_seat_full _ A sid nm Hh)
             |exact (hands_nonneg_seat_full _ B sid nm Hh)].
Qed.

Lemma part001_place_cases who payload w :
  (Part001.place_piece who payload w).2 = Some ack_ok ∨
  (Part001.place_piece who payload w).1 = w.
Proof.
  unfold Part001.place_piece, Part001.after_move.
  repeat case_match; simpl; auto.
Qed.

Lemma part001_place_seats who payload w :
  both_seated (Part001.players (Part001.room (Part001.place_piece who payload w).1))
  = both_seated (Part001.players (Part001.room w)).
Proof.
  unfold Part001.place_piece. repeat case_match; try done.
  all: rewrite part001_after_move_players; try done.
  simpl. unfold both_seated.
  match goal with H : seat _ ?s = Some _ |- _ => destruct s; simpl in *; by rewrite H end.
Qed.

Lemma part001_place_sound who payload w :
  part001_sound w → part001_sound (Part001.place_piece who payload w).1.
Proof.
  intros ((Hset & Hboth & Hb & Hh) & Hwin). unfold part001_sound, sound.
  split_and!; [| |by apply part001_keeps_stacking|by apply part001_keeps_hands|].
  - destruct (part001_place_cases who payload w) as [Hok | ->]; [|done].
    destruct (part001_turns who payload w Hok) as (slot & _ & _ & _ & _ & Hout).
    unfold turn_outcome in Hout. intros Hst.
    destruct (Part001.checkWinner
                (Part001.board (Part001.room (Part001.place_piece who payload w).1))); [|tauto].
    destruct Hout as (_ & Hst' & _). congruence.
  - rewrite part001_place_seats.
    destruct (part001_place_cases who payload w) as [Hok | ->]; [|done].
    destruct (part001_turns who payload w Hok) as (slot & _ & _ & Hst & _). auto.
  - destruct (part001_place_cases who payload w) as [Hok | ->]; [|done].
    destruct (part001_turns who payload w Hok) as (slot & _ & _ & _ & _ & Hout).
    unfold turn_outcome in Hout.
    destruct (Part001.checkWinner
                (Part001.board (Part001.room (Part001.place_piece who payload w).1))); destruct Hout as (_ & _ & Hw & _); exact Hw.
Qed.

Lemma part001_decision_sound who decision w :
  part001_sound w → part001_sound (Part001.post_game_decision who decision w).
Proof.
  intros Hs. unfold Part001.post_game_decision.
  repeat case_match; try done; apply part001_restart_sound.
Qed.

Lemma part001_disconnect_sound sid w :
  part001_sound w → part001_sound (Part001.disconnect sid w).
Proof.
  intros Hs. unfold Part001.disconnect.
  repeat case_match; try done; try apply part001_restart_sound.
  destruct Hs as ((Hset & Hboth & Hb & Hh) & Hwin).
  split; [|done].
  split_and!; [done|done|done|]. simpl. by apply hands_nonneg_unseat.
Qed.

Lemma part001_step_sound w w' : part001_step w w' → part001_sound w → part001_sound w'.
Proof.
  destruct 1; auto using part001_join_sound, part001_place_sound,
    part001_decision_sound, part001_disconnect_sound.
Qed.

Lemma part001_rtc_sound w w' : rtc part001_step w w' → part001_sound w → part001_sound w'.
Proof. induction 1; eauto using part001_step_sound. Qed.

Lemma part001_fresh_rtc_sound w0 w :
  Part001.room w0 = Part001.createNewGameState →
  rtc part001_step w0 w →
  part001_sound w.
Proof.
  intros Hroom Hrtc. apply (part001_rtc_sound w0 w Hrtc).
  unfold part001_sound. rewrite Hroom. split; [apply sound_fresh|done].
Qed.

Lemma part001_finished_reachable : rtc part001_step part001_fresh part001_finished.
Proof.
  unfold part001_finished. cbv zeta.
  eapply rtc_l; [apply (part001_step_join _ "a1" "x" "Alice")|].
  eapply rtc_l; [apply (part001_step_join _ "b1" "x" "Bob")|].
  eapply rtc_l;
    [by apply (part001_step_place _ "a1" (bound (player A)) (place_from_hand small (1, 0)%nat))|].
  eapply rtc_l;
    [by apply (part001_step_place _ "b1" (bound (player B)) (place_from_hand small (0, 0)%nat))|].
  eapply rtc_l;
    [by apply (part001_step_place _ "a1" (bound (player A)) (place_from_hand small (1, 1)%nat))|].
  eapply rtc_l;
    [by apply (part001_step_place _ "b1" (bound (player B)) (place_from_hand small (0, 1)%nat))|].
  eapply rtc_l;
    [by apply (part001_step_place _ "a1" (bound (player A)) (place_from_hand medium (2, 2)%nat))|].
  eapply rtc_l;
    [by apply (part001_step_place _ "b1" (bound (player B)) (place_from_hand medium (0, 2)%nat))|].
  apply rtc_refl.
Qed.

(** In every state part_001 reaches from a newly created room by joins,
    moves, post-game decisions and disconnects, whatever happens to the
    connections in between, a started match has no winner and both seats
    taken, every stack of the board is strictly ascending, no hand count is
    negative, and the recorded winner is exactly what the winner check says
    of the board. *)
Theorem part001_reachable_rooms_sound w0 w :
  Part001.room w0 = Part001.createNewGameState →
  rtc part001_step w0 w →
  part001_sound w.
Proof. apply part001_fresh_rtc_sound. Qed.

Lemma part001_reachable_rooms_sound_witness :
  part001_sound part001_finished ∧
  Part001.winner (Part001.room part001_finished) = Some B.
Proof.
  split; [|reflexivity].
  exact (part001_reachable_rooms_sound part001_fresh part001_finished eq_refl
           part001_finished_reachable).
Defined.

(** In such a state [place_piece] never answers [game_over], and a
    [place_from_hand] whose target is a cell of the board never fails on a
    missing player or cell. *)
Theorem part001_place_piece_dead_rejections w0 w who payload :
  Part001.room w0 = Part001.createNewGameState →
  rtc part001_step w0 w →
  (Part001.place_piece who payload w).2 ≠ Some (ack_error r_game_over) ∧
  (∀ sz to, payload = place_from_hand sz to →
     is_Some (cell (Part001.board (Part001.room w)) to.1 to.2) →
     (Part001.place_piece who payload w).2 ≠ Some (ack_error r_type_error)).
Proof.
  intros Hroom Hrtc.
  destruct (part001_fresh_rtc_sound w0 w Hroom Hrtc) as ((Hset & Hboth & _ & _) & _).
  unfold settled in Hset. split.
  - unfold Part001.place_piece, Part001.after_move.
    destruct who as [[slot|]|]; [|done..].
    destruct (Part001.started (Part001.room w)); [|done].
    rewrite Hset by done. simpl. repeat case_match; done.
  - intros sz to -> [st Hst].
    unfold Part001.place_piece, Part001.after_move, Part001.canPlaceAt.
    destruct who as [[slot|]|]; [|done..].
    destruct (Part001.started (Part001.room w)); [|done].
    rewrite Hset by done. simpl. rewrite Hst. simpl.
    specialize (Hboth eq_refl). unfold both_seated in Hboth.
    apply andb_true_iff in Hboth as [HA HB].
    destruct (Part001.players (Part001.room w)) as [[pa|] [pb|]]; try done.
    destruct slot; simpl; repeat case_match; done.
Qed.

Lemma part001_place_piece_dead_rejections_witness :
  (Part001.place_piece (Some (player A)) (place_from_hand small (2, 0)%nat)
     part001_finished).2 ≠ Some (ack_error r_game_over).
Proof.
  exact (proj1 (part001_place_piece_dead_rejections part001_fresh part001_finished
                  (Some (player A)) (place_from_hand small (2, 0)%nat) eq_refl
                  part001_finished_reachable)).
Defined.

(** ** part_000 *)

Lemma remove_first_sublist sid q : Part000.remove_first sid q `sublist_of` q.
Proof.
  induction q as [|x q IH]; simpl; [done|].
  case_decide; [by apply sublist_cons|by apply sublist_skip].
Qed.

Lemma remove_first_not_elem sid q : NoDup q → sid ∉ Part000.remove_first sid q.
Proof.
  induction 1 as [|x q Hx Hq IH]; simpl; [by intros ?%elem_of_nil|].
  case_decide; [by subst|]. intros [?|?]%elem_of_cons; [congruence|done].
Qed.

Lemma remove_first_NoDup_snoc sid q :
  NoDup q → NoDup (Part000.remove_first sid q ++ [sid]).
Proof.
  intros Hq. apply NoDup_app. split_and!.
  - eapply sublist_NoDup; [done|apply remove_first_sublist].
  - intros x Hx ->%list_elem_of_singleton. by eapply remove_first_not_elem.
  - apply NoDup_singleton.
Qed.

Lemma promote_scan_sublist socks q :
  (Part000Flow.promote_scan socks q).1 `sublist_of` q.
Proof.
  induction q as [|x q IH]; simpl; [done|].
  destruct (socks !! x); simpl; [by apply sublist_cons|by apply sublist_cons].
Qed.

Lemma part000_join_sound sid rid nm w :
  part000_sound (Part000.room w) → part000_sound (Part000.room (Part000.join sid rid nm w).1).
Proof.
  unfold part000_sound, sound, settled.
  destruct w as [[b [pa pb] ct win st q pd] socks lg]. simpl.
  intros ((Hset & Hboth & Hb & Hh) & Hq).
  unfold Part000.join. simpl.
  destruct pa as [pa|], pb as [pb|], st, win as [win|]; simpl.
  all: split_and!; try done; try (by intros; apply Hset); try (by intros; apply Hboth).
  all: try (by apply remove_first_NoDup_snoc).
  all: first [exact (hands_nonneg_seat_full _ A sid nm Hh)
             |exact (hands_nonneg_seat_full _ B sid nm Hh)].
Qed.

Lemma part000_place_cases who payload w :
  (Part000.place_piece who payload w).2 = Some ack_ok ∨
  (Part000.place_piece who payload w).1 = w.
Proof.
  unfold Part000.place_piece, Part000.after_move.
  repeat case_match; simpl; auto.
Qed.

Lemma part000_after_move_queue slot w :
  Part000.watchQueue (Part000.room (Part000.after_move slot w).1)
  = Part000.watchQueue (Part000.room w).
Proof. unfold Part000.after_move. by destruct (Part000.checkWinner _). Qed.

Lemma part000_place_queue who payload w :
  Part000.watchQueue (Part000.room (Part000.place_piece who payload w).1)
  = Part000.watchQueue (Part000.room w).
Proof.
  unfold Part000.place_piece. repeat case_match; try done.
  all: by rewrite part000_after_move_queue.
Qed.

Lemma part000_place_seats who payload w :
  both_seated (Part000.players (Part000.room (Part000.place_piece who payload w).1))
  = both_seated (Part000.players (Part000.room w)).
Proof.
  unfold Part000.place_piece. repeat case_match; try done.
  all: rewrite part000_after_move_players; try done.
  simpl. unfold both_seated.
  match goal with H : seat _ ?s = Some _ |- _ => destruct s; simpl in *; by rewrite H end.
Qed.

Lemma part000_place_sound who payload w :
  part000_sound (Part000.room w) →
  part000_sound (Part000.room (Part000.place_piece who payload w).1).
Proof.
  intros ((Hset & Hboth & Hb & Hh) & Hq). unfold part000_sound, sound.
  split_and!; [| |by apply part000_keeps_stacking|by apply part000_keeps_hands
              |by rewrite part000_place_queue].
  - destruct (part000_place_cases who payload w) as [Hok | ->]; [|done].
    destruct (part000_turns who payload w Hok) as (slot & _ & _ & _ & _ & Hout).
    unfold turn_outcome in Hout. intros Hst.
    destruct (Part000.checkWinner _); [|tauto].
    destruct Hout as (_ & Hst' & _). congruence.
  - rewrite part000_place_seats.
    destruct (part000_place_cases who payload w) as [Hok | ->]; [|done].
    destruct (part000_turns who payload w Hok) as (slot & _ & _ & Hst & _). auto.
Qed.

Lemma promote_kept slot w :
  part000_kept (Part000Flow.room w) →
  part000_kept (Part000Flow.room (Part000Flow.promoteNextSpectatorToSlot slot w).1).
Proof.
  intros (Hb & Hh & Hq). unfold Part000Flow.promoteNextSpectatorToSlot.
  pose proof (promote_scan_sublist (Part000Flow.sockets w)
                (Part000.watchQueue (Part000Flow.room w))) as Hsub.
  destruct (Part000Flow.promote_scan _ _) as [rest [[nextId sock]|]]; simpl in *.
  - split_and!; [done|by apply hands_nonneg_seat_full|by eapply sublist_NoDup; [exact Hq|]].
  - split_and!; [done|by apply hands_nonneg_unseat|by eapply sublist_NoDup; [exact Hq|]].
Qed.

Lemma promote_unstarted slot w :
  Part000.started (Part000Flow.room w) = false →
  Part000.started (Part000Flow.room (Part000Flow.promoteNextSpectatorToSlot slot w).1) = false.
Proof.
  intros Hst. unfold Part000Flow.promoteNextSpectatorToSlot.
  by destruct (Part000Flow.promote_scan _ _) as [rest [[nextId sock]|]].
Qed.

Lemma promote_sound slot w :
  part000_kept (Part000Flow.room w) →
  Part000.started (Part000Flow.room w) = false →
  part000_sound (Part000Flow.room (Part000Flow.promoteNextSpectatorToSlot slot w).1).
Proof.
  intros Hk Hst. pose proof (promote_kept slot w Hk) as (Hb & Hh & Hq).
  pose proof (promote_unstarted slot w Hst) as Hst'.
  unfold part000_sound, sound, settled. rewrite Hst'. split_and!; done.
Qed.

Lemma remove_quitter_kept s w :
  part000_kept (Part000Flow.room w) →
  part000_kept (Part000Flow.room (Part000Flow.remove_quitter s w)).
Proof.
  intros (Hb & Hh & Hq). unfold Part000Flow.remove_quitter.
  repeat case_match; simpl; (split_and!; [done|by apply hands_nonneg_unseat|done]).
Qed.

Lemma remove_if_quit_kept s w :
  part000_kept (Part000Flow.room w) →
  part000_kept (Part000Flow.room (Part000Flow.remove_if_quit s w)).
Proof.
  intros Hk. unfold Part000Flow.remove_if_quit.
  repeat case_match; try done. by apply remove_quitter_kept.
Qed.

Lemma promote_if_empty_kept s w :
  part000_kept (Part000Flow.room w) →
  part000_kept (Part000Flow.room (Part000Flow.promote_if_empty s w)).
Proof.
  intros Hk. unfold Part000Flow.promote_if_empty.
  case_match; [done|]. by apply promote_kept.
Qed.

Lemma new_match_sound st r :
  (st = true → both_seated (Part000.players r) = true) →
  NoDup (Part000.watchQueue r) →
  part000_sound (Part000Flow.new_match st r).
Proof.
  intros Hst Hq. unfold part000_sound, sound. simpl.
  split_and!; [done|by rewrite both_seated_reset|apply empty_board_stacked
              |apply hands_nonneg_reset|done].
Qed.

Lemma start_or_wait_sound w :
  part000_kept (Part000Flow.room w) →
  part000_sound (Part000Flow.room (Part000Flow.start_or_wait w)).
Proof.
  intros (Hb & Hh & Hq). unfold Part000Flow.start_or_wait.
  destruct (both_seated _) eqn:Hboth; simpl.
  - by apply new_match_sound.
  - unfold part000_sound, sound. simpl. split_and!; done.
Qed.

Lemma part000_sound_kept r : part000_sound r → part000_kept r.
Proof. intros ((_ & _ & Hb & Hh) & Hq). done. Qed.

Lemma postgame_decision_sound who action w :
  part000_sound (Part000Flow.room w) →
  part000_sound (Part000Flow.room (Part000Flow.postgame_decision who action w).1).
Proof.
  intros Hs. pose proof (part000_sound_kept _ Hs) as Hk.
  destruct Hs as ((Hset & Hboth & Hb & Hh) & Hq).
  unfold Part000Flow.postgame_decision.
  destruct who as [[slot|]|]; [|done..].
  destruct action as [act|]; [|done]. cbv zeta.
  repeat case_match; subst.
  all: try (apply new_match_sound; simpl; done).
  all: try (apply start_or_wait_sound;
            repeat first [apply promote_if_empty_kept|apply remove_if_quit_kept
                         |apply promote_kept|apply remove_quitter_kept]; exact Hk).
  all: done.
Qed.

Lemma restart_game_sound w :
  part000_sound (Part000Flow.room w) →
  part000_sound (Part000Flow.room (Part000Flow.restart_game w).1).
Proof.
  intros (_ & Hq). unfold Part000Flow.restart_game. simpl. by apply new_match_sound.
Qed.

Lemma disconnect_sound sid remaining w w' :
  Part000Flow.disconnect sid remaining w = Some w' →
  part000_sound (Part000Flow.room w) → part000_sound (Part000Flow.room w').
Proof.
  intros Hd Hs. pose proof (part000_sound_kept _ Hs) as (Hb & Hh & Hq).
  unfold Part000Flow.disconnect in Hd.
  assert (Hq' : NoDup (Part000.remove_first sid (Part000.watchQueue (Part000Flow.room w)))).
  { eapply sublist_NoDup; [done|apply remove_first_sublist]. }
  destruct Hs as ((Hset & Hboth & _ & _) & _).
  repeat case_match; simplify_eq; simpl; try done.
  apply promote_sound; [|done].
  split_and!; simpl; [done|by apply hands_nonneg_unseat|done].
Qed.

Lemma part000_step_sound s s' : part000_step s s' → part000_sound s.1 → part000_sound s'.1.
Proof.
  destruct 1 as [sid rid nm w|sid d payload w _ _|sid d action w _ _|sid d w _ _
                |sid remaining w w' Hd|r socks socks'];
    unfold view, flow_view; cbn [fst]; intros Hs.
  - by apply part000_join_sound.
  - by apply part000_place_sound.
  - by apply postgame_decision_sound.
  - by apply restart_game_sound.
  - by eapply disconnect_sound.
  - done.
Qed.

Lemma part000_rtc_sound s s' : rtc part000_step s s' → part000_sound s.1 → part000_sound s'.1.
Proof. induction 1; eauto using part000_step_sound. Qed.

Lemma part000_fresh_rtc_sound s0 s :
  s0.1 = Part000.createNewGameState →
  rtc part000_step s0 s →
  part000_sound s.1.
Proof.
  intros Hroom Hrtc. apply (part000_rtc_sound s0 s Hrtc).
  rewrite Hroom. split; [apply sound_fresh|apply NoDup_nil_2].
Qed.

Lemma part000_opening_reachable : rtc part000_step (view part000_fresh) (view part000_opening).
Proof.
  unfold part000_opening. cbv zeta.
  eapply rtc_l; [apply (part000_step_join "a1" "x" "Alice")|].
  eapply rtc_l; [apply (part000_step_join "b1" "x" "Bob")|].
  eapply rtc_l;
    [by apply (part000_step_place "a1" (seated (player A) "Alice")
                 (place_from_hand small (0, 0)%nat))|].
  apply rtc_refl.
Qed.

(** In every state part_000 reaches from a newly created room by joins,
    moves, post-game decisions, restarts and disconnects, whatever happens
    to the connections in between, a started match has no winner and both
    seats taken, every stack of the board is strictly
    ascending, no hand count is negative and no connection is twice in the
    watch queue. *)
Theorem part000_reachable_rooms_sound s0 s :
  s0.1 = Part000.createNewGameState →
  rtc part000_step s0 s →
  part000_sound s.1.
Proof. apply part000_fresh_rtc_sound. Qed.

Lemma part000_reachable_rooms_sound_witness :
  part000_sound (Part000.room part000_opening).
Proof.
  exact (part000_reachable_rooms_sound (view part000_fresh) (view part000_opening) eq_refl
           part000_opening_reachable).
Defined.

(** In such a state [place_piece] never answers [game_over], and a
    [place_from_hand] whose target is a cell of the board never fails on a
    missing player or cell. *)
Theorem part000_place_piece_dead_rejections s0 w who payload :
  s0.1 = Part000.createNewGameState →
  rtc part000_step s0 (view w) →
  (Part000.place_piece who payload w).2 ≠ Some (ack_error r_game_over) ∧
  (∀ sz to, payload = place_from_hand sz to →
     is_Some (cell (Part000.board (Part000.room w)) to.1 to.2) →
     (Part000.place_piece who payload w).2 ≠ Some (ack_error r_type_error)).
Proof.
  intros Hroom Hrtc.
  destruct (part000_fresh_rtc_sound s0 (view w) Hroom Hrtc)
    as ((Hset & Hboth & _ & _) & _).
  unfold settled in Hset. simpl in Hset, Hboth. split.
  - unfold Part000.place_piece, Part000.after_move.
    destruct who as [[slot|]|]; [|done..].
    destruct (Part000.started (Part000.room w)); [|done].
    rewrite Hset by done. simpl. repeat case_match; done.
  - intros sz to -> [st Hst].
    unfold Part000.place_piece, Part000.after_move, Part000.canPlaceAt.
    destruct who as [[slot|]|]; [|done..].
    destruct (Part000.started (Part000.room w)); [|done].
    rewrite Hset by done. simpl. rewrite Hst. simpl.
    specialize (Hboth eq_refl). unfold both_seated in Hboth.
    apply andb_true_iff in Hboth as [HA HB].
    destruct (Part000.players (Part000.room w)) as [[pa|] [pb|]]; try done.
    destruct slot; simpl; repeat case_match; done.
Qed.

Lemma part000_place_piece_dead_rejections_witness :
  (Part000.place_piece (Some (player B)) (place_from_hand small (0, 0)%nat)
     part000_opening).2 ≠ Some (ack_error r_game_over).
Proof.
  exact (proj1 (part000_place_piece_dead_rejections (view part000_fresh) part000_opening
                  (Some (player B)) (place_from_hand small (0, 0)%nat) eq_refl
                  part000_opening_reachable)).
Defined.

End Reachable.

(* ===================================================================== *)
(** * part_000: promotion, disconnect and post-game decisions *)
(* ===================================================================== *)

Section Flow000.

Import Part000Flow.

Lemma promote_scan_server_js socks queue :
  promote_scan socks queue = ServerJs.promoteFromQueue_scan socks queue.
Proof.
  induction queue as [|x queue IH]; simpl; [done|]. by destruct (socks !! x).
Qed.

Lemma promote_outcome slot w :
  (∃ stale sid d rest,
     Part000.watchQueue (room w) = stale ++ sid :: rest ∧
     Forall (λ x, sockets w !! x = None) stale ∧
     sockets w !! sid = Some d ∧
     (promoteNextSpectatorToSlot slot w).2 = Some sid ∧
     seat (Part000.players (room (promoteNextSpectatorToSlot slot w).1)) slot
     = Some (promoted000 sid d) ∧
     Part000.watchQueue (room (promoteNextSpectatorToSlot slot w).1) = rest ∧
     sockets (promoteNextSpectatorToSlot slot w).1
     = <[sid := set_playerSlot (Some (player slot)) d]> (sockets w) ∧
     Part000.started (room (promoteNextSpectatorToSlot slot w).1)
     = Part000.started (room w) ∧
     log (promoteNextSpectatorToSlot slot w).1
     = log w ++ [ev (assign sid (player slot)); ev update_state]) ∨
  (Forall (λ x, sockets w !! x = None) (Part000.watchQueue (room w)) ∧
   (promoteNextSpectatorToSlot slot w).2 = None ∧
   seat (Part000.players (room (promoteNextSpectatorToSlot slot w).1)) slot = None ∧
   Part000.watchQueue (room (promoteNextSpectatorToSlot slot w).1) = [] ∧
   sockets (promoteNextSpectatorToSlot slot w).1 = sockets w ∧
   Part000.started (room (promoteNextSpectatorToSlot slot w).1) = false ∧
   log (promoteNextSpectatorToSlot slot w).1 = log w ++ [ev update_state]).
Proof.
  unfold promoteNextSpectatorToSlot.
  destruct (promote_scan _ _) as [rest found] eqn:Hscan.
  rewrite promote_scan_server_js in Hscan.
  apply promoteFromQueue_scan_inv in Hscan.
  destruct found as [[sid d]|].
  - destruct Hscan as (stale & Hq & Hstale & Hd). left.
    exists stale, sid, d, rest. simpl.
    split_and!; try done. by destruct slot.
  - destruct Hscan as [-> Hall]. right. simpl.
    split_and!; try done. by destruct slot.
Qed.

(** [promoteNextSpectatorToSlot] discards the queue entries whose connection
    is gone up to the first live one, seats that one with a full hand under
    its stored name (["Spectator"] when it has none), marks its connection
    as the player of the slot and tells it and the room; the entries behind
    it stay queued in their order, and [started] is not touched.  When no
    entry is live the queue ends empty, the slot is emptied and the match is
    marked not started. *)
Theorem part000_promote_first_live slot w :
  (∃ stale sid d rest,
     Part000.watchQueue (room w) = stale ++ sid :: rest ∧
     Forall (λ x, sockets w !! x = None) stale ∧
     sockets w !! sid = Some d ∧
     (promoteNextSpectatorToSlot slot w).2 = Some sid ∧
     seat (Part000.players (room (promoteNextSpectatorToSlot slot w).1)) slot
     = Some (promoted000 sid d) ∧
     Part000.watchQueue (room (promoteNextSpectatorToSlot slot w).1) = rest ∧
     sockets (promoteNextSpectatorToSlot slot w).1
     = <[sid := set_playerSlot (Some (player slot)) d]> (sockets w) ∧
     Part000.started (room (promoteNextSpectatorToSlot slot w).1)
     = Part000.started (room w) ∧
     log (promoteNextSpectatorToSlot slot w).1
     = log w ++ [ev (assign sid (player slot)); ev update_state]) ∨
  (Forall (λ x, sockets w !! x = None) (Part000.watchQueue (room w)) ∧
   (promoteNextSpectatorToSlot slot w).2 = None ∧
   seat (Part000.players (room (promoteNextSpectatorToSlot slot w).1)) slot = None ∧
   Part000.watchQueue (room (promoteNextSpectatorToSlot slot w).1) = [] ∧
   sockets (promoteNextSpectatorToSlot slot w).1 = sockets w ∧
   Part000.started (room (promoteNextSpectatorToSlot slot w).1) = false ∧
   log (promoteNextSpectatorToSlot slot w).1 = log w ++ [ev update_state]).
Proof. apply promote_outcome. Qed.

Lemma promote_other_seat slot w :
  seat (Part000.players (room (promoteNextSpectatorToSlot slot w).1)) (other_slot slot)
  = seat (Part000.players (room w)) (other_slot slot).
Proof.
  unfold promoteNextSpectatorToSlot.
  destruct (promote_scan _ _) as [rest [[sid d]|]]; by destruct slot.
Qed.

Lemma promote_frame slot w :
  Part000.board (room (promoteNextSpectatorToSlot slot w).1) = Part000.board (room w) ∧
  Part000.winner (room (promoteNextSpectatorToSlot slot w).1) = Part000.winner (room w) ∧
  Part000.currentTurn (room (promoteNextSpectatorToSlot slot w).1)
  = Part000.currentTurn (room w) ∧
  Part000.postDecisions (room (promoteNextSpectatorToSlot slot w).1)
  = Part000.postDecisions (room w).
Proof.
  unfold promoteNextSpectatorToSlot.
  by destruct (promote_scan _ _) as [rest [[sid d]|]].
Qed.

(** When the connection of a seated player drops, the match is marked not
    started whatever the queue holds, also when a spectator takes the seat
    at once; board, winner, turn and the other seat are as they were, and the
    seat goes to the first live connection of the queue or stays empty. *)
Theorem part000_player_disconnect_stops_match sid d slot pl w w' :
  sockets w !! sid = Some d →
  is_Some (roomID d) →
  playerSlot d = Some (player slot) →
  seat (Part000.players (room w)) slot = Some pl →
  id pl = sid →
  disconnect sid true w = Some w' →
  Part000.started (room w') = false ∧
  Part000.board (room w') = Part000.board (room w) ∧
  Part000.winner (room w') = Part000.winner (room w) ∧
  Part000.currentTurn (room w') = Part000.currentTurn (room w) ∧
  seat (Part000.players (room w')) (other_slot slot)
  = seat (Part000.players (room w)) (other_slot slot) ∧
  (seat (Part000.players (room w')) slot = None ∨
   ∃ nid nd, nid ≠ sid ∧ nid ∈ Part000.watchQueue (room w) ∧
     sockets w !! nid = Some nd ∧
     seat (Part000.players (room w')) slot = Some (promoted000 nid nd)).
Proof.
  intros Hd [rid Hrid] Hslot Hpl Hid Hdis.
  unfold disconnect in Hdis. rewrite Hd, Hrid, Hslot in Hdis. cbv zeta in Hdis.
  change (seat (Part000.players (room (set_room ?r ?x))) slot)
    with (seat (Part000.players r) slot) in Hdis.
  change (Part000.players (Part000.removeFromWatchQueue ?s ?r))
    with (Part000.players r) in Hdis.
  change (room (set_sockets ?s ?x)) with (room x) in Hdis.
  rewrite Hpl, decide_True in Hdis by done.
  injection Hdis as <-.
  change (room (emit ?e ?x)) with (room x).
  match goal with |- context [promoteNextSpectatorToSlot slot ?x] => set (w1 := x) end.
  pose proof (promote_frame slot w1) as (Hb & Hw & Ht & _).
  pose proof (promote_other_seat slot w1) as Ho.
  assert (Hst : Part000.started (room w1) = false) by done.
  apply (promote_unstarted slot) in Hst.
  split_and!; [done|by rewrite Hb|by rewrite Hw|by rewrite Ht| |].
  { rewrite Ho. subst w1. simpl. by destruct slot. }
  destruct (promote_outcome slot w1)
    as [(stale & nid & nd & rest & Hq & Hstale & Hnd & _ & Hseat & _)|(_ & _ & Hseat & _)];
    [right|by left].
  assert (Hnid : nid ∈ Part000.remove_first sid (Part000.watchQueue (room w))).
  { change (Part000.watchQueue (room w1))
      with (Part000.remove_first sid (Part000.watchQueue (room w))) in Hq.
    rewrite Hq. set_solver. }
  change (sockets w1) with (delete sid (sockets w)) in Hnd.
  apply lookup_delete_Some in Hnd as [Hne Hnd].
  exists nid, nd. split_and!; [done| |done|done].
  eapply elem_of_sublist; [|apply remove_first_sublist]. done.
Qed.

Lemma part000_player_disconnect_stops_match_witness :
  ∃ w', disconnect "a1" true part000_watched = Some w' ∧
        both_seated (Part000.players (room w')) = true ∧
        Part000.started (room w') = false.
Proof.
  eexists. split; [reflexivity|]. split; [reflexivity|].
  eapply (part000_player_disconnect_stops_match "a1" (seated (player A) "Alice") A alice
            part000_watched); [reflexivity|by eexists|reflexivity..].
Defined.

Lemma hands_full_reset ps : hands_full (reset_hands ps).
Proof. intros s p. destruct ps as [[pa|] [pb|]], s; simpl; intros; by simplify_eq. Qed.

Lemma new_match_resolved r :
  resolved000 (new_match (both_seated (Part000.players r)) r).
Proof.
  unfold resolved000. simpl. rewrite both_seated_reset.
  split_and!; [done..|]. intros _. split_and!; [done|apply hands_full_reset|done].
Qed.

Lemma start_or_wait_resolved w : resolved000 (room (start_or_wait w)).
Proof.
  unfold start_or_wait. destruct (both_seated _) eqn:Hboth.
  - change (room (emit ?e (set_room ?r ?x))) with r.
    unfold resolved000. simpl. rewrite both_seated_reset, Hboth.
    split_and!; [done..|]. intros _. split_and!; [done|apply hands_full_reset|done].
  - unfold resolved000. simpl. rewrite Hboth. by split_and!.
Qed.

(** [postgame_decision] of part_000 changes nothing when it answers with an
    error.  Accepted from a seated player, it only stores the decision and
    waits when the decision is to continue and the other slot has none
    stored; in every other case the post-game is resolved at once: the
    decisions and the winner are cleared, the match is started exactly when
    both seats are taken, and a started match has an empty board, full hands
    and A to move.  The handler does not look at whether the match is
    over. *)
Theorem part000_postgame_decision_outcome :
  (∀ who action w,
     (postgame_decision who action w).2 ≠ flow_ok → (postgame_decision who action w).1 = w) ∧
  (∀ slot act w,
     (postgame_decision (Some (player slot)) (Some act) w).2 = flow_ok ∧
     match act, per_slot (Part000.postDecisions (room w)) (other_slot slot) with
     | Part000.continue, None =>
         room (postgame_decision (Some (player slot)) (Some act) w).1
         = set_postDecisions
             (set_per_slot (Part000.postDecisions (room w)) slot (Some Part000.continue))
             (room w) ∧
         sockets (postgame_decision (Some (player slot)) (Some act) w).1 = sockets w ∧
         log (postgame_decision (Some (player slot)) (Some act) w).1
         = log w ++ [ev (postgame_update (Some (player slot))); ev update_state]
     | _, _ => resolved000 (room (postgame_decision (Some (player slot)) (Some act) w).1)
     end).
Proof.
  split.
  - intros who action w. unfold postgame_decision. by repeat case_match.
  - intros slot act w. split; [done|].
    destruct w as [[b ps ct win st q [da db]] socks lg].
    unfold postgame_decision.
    destruct slot, act, da as [[]|], db as [[]|]; cbn [per_slot other_slot at_A at_B
      Part000.postDecisions room set_postDecisions set_per_slot set_room emit decidedSlots
      app]; cbv beta iota zeta.
    all: first [apply start_or_wait_resolved|apply new_match_resolved|idtac].
    all: simpl; split_and!; [done|done|by rewrite <-app_assoc].
Qed.

End Flow000.

(* ===================================================================== *)
(** * Chat and cheer *)
(* ===================================================================== *)

Section ChatLog.

Import Chat.

Lemma slice0_nil n : slice0 n "" = "".
Proof. by destruct n. Qed.





Lemma push_bounded_length msg chatLog :
  (length chatLog ≤ 50)%nat → (length (push_bounded msg chatLog) ≤ 50)%nat.
Proof.
  intros Hlen. unfold push_bounded. case_decide as Hc.
  - destruct chatLog as [|m l]; simpl in *; [lia|]. rewrite length_app. simpl. lia.
  - done || lia.
Qed.

Lemma push_bounded_eq msg chatLog :
  (length chatLog ≤ 50)%nat →
  push_bounded msg chatLog
  = (if decide (length chatLog < 50)%nat then chatLog else drop 1 chatLog) ++ [msg].
Proof.
  intros Hlen. unfold push_bounded. rewrite length_app. simpl.
  case_decide as Hc; case_decide as Hc'; try lia; [|done].
  destruct chatLog; [simpl in *; lia|done].
Qed.

Lemma post_stored limit cheer name slot text now chatLog :
  (length chatLog ≤ 50)%nat →
  stored chatLog (post limit cheer true name slot text now chatLog).
Proof.
  intros Hlen. unfold stored, post. case_decide; simpl; [done|].
  split; [by apply push_bounded_length|by apply push_bounded_eq].
Qed.


(** The chat log never grows beyond fifty lines: [chat_message] of both
    variants and [cheer] of part_000 append the message they emit and drop
    the oldest line of a full log, keeping the order of the others; [cheer]
    of part_001 emits its message and leaves the log alone. *)
Theorem chat_log_bounded ps spectators slot sid sockName text now chatLog :
  (length chatLog ≤ 50)%nat →
  stored chatLog (chat_message_000 ps slot sockName text now chatLog) ∧
  stored chatLog (cheer_000 ps slot sockName text now chatLog) ∧
  stored chatLog (chat_message_001 ps spectators slot sid text now chatLog) ∧
  (cheer_001 ps spectators slot sid text now chatLog).1 = chatLog.
Proof.
  intros Hlen. split_and!; [by apply post_stored..|].
  unfold cheer_001, post. by case_decide.
Qed.

Lemma chat_log_bounded_witness :
  length full_chat_log = 50%nat ∧
  (chat_message_000 {| pl_A := Some alice; pl_B := Some bob |} (Some (player B)) "Bob"
     "hello" 51 full_chat_log).1
  = drop 1 full_chat_log
    ++ [{| msg_name := "Bob"; msg_text := "hello"; msg_time := 51; msg_cheer := false;
           msg_slot := Some (player B) |}].
Proof.
  split; [reflexivity|].
  pose proof (chat_log_bounded {| pl_A := Some alice; pl_B := Some bob |} [] (Some (player B))
                "b1" "Bob" "hello" 51 full_chat_log) as H.
  destruct H as [[_ H] _]; [vm_compute; lia|]. exact H.
Defined.


End ChatLog.

(* ===================================================================== *)
(** * Joining, and leaving part_001 *)
(* ===================================================================== *)

Section Seats.

(** In every variant a join displaces nobody and takes no piece from a
    seated player; the joiner is seated at A if A is free, else at B if B is
    free, with a full hand, and otherwise queued behind the connections
    already watching (part_000 first drops an earlier entry of the same
    connection).  The board is left as it is, also when the join starts the
    match. *)
Theorem join_seats_or_queues sid rid nm :
  (∀ w,
     joined sid nm (ServerJs.players (ServerJs.room w))
       (ServerJs.players (ServerJs.room (ServerJs.join sid rid nm w).1))
       (ServerJs.join sid rid nm w).2 ∧
     ServerJs.board (ServerJs.room (ServerJs.join sid rid nm w).1)
     = ServerJs.board (ServerJs.room w) ∧
     ServerJs.watchQueue (ServerJs.room (ServerJs.join sid rid nm w).1)
     = match (ServerJs.join sid rid nm w).2 with
       | spectator => ServerJs.watchQueue (ServerJs.room w) ++ [sid]
       | player _ => ServerJs.watchQueue (ServerJs.room w)
       end) ∧
  (∀ w,
     joined sid nm (Part000.players (Part000.room w))
       (Part000.players (Part000.room (Part000.join sid rid nm w).1))
       (Part000.join sid rid nm w).2 ∧
     Part000.board (Part000.room (Part000.join sid rid nm w).1)
     = Part000.board (Part000.room w) ∧
     Part000.watchQueue (Part000.room (Part000.join sid rid nm w).1)
     = match (Part000.join sid rid nm w).2 with
       | spectator => Part000.remove_first sid (Part000.watchQueue (Part000.room w)) ++ [sid]
       | player _ => Part000.watchQueue (Part000.room w)
       end) ∧
  (∀ w,
     joined sid nm (Part001.players (Part001.room w))
       (Part001.players (Part001.room (Part001.join sid rid nm w).1))
       (Part001.join sid rid nm w).2 ∧
     Part001.board (Part001.room (Part001.join sid rid nm w).1)
     = Part001.board (Part001.room w) ∧
     Part001.spectators (Part001.room (Part001.join sid rid nm w).1)
     = match (Part001.join sid rid nm w).2 with
       | spectator =>
           Part001.spectators (Part001.room w)
           ++ [{| Part001.sp_id := sid; Part001.sp_name := nm |}]
       | player _ => Part001.spectators (Part001.room w)
       end).
Proof.
  split_and!.
  - intros [[b [pa pb] ct win st q pd] socks lg]. unfold ServerJs.join, joined.
    destruct pa as [pa|], pb as [pb|]; simpl; split_and!; try done.
    all: by intros [] p; simpl.
  - intros [[b [pa pb] ct win st q pd] socks lg]. unfold Part000.join, joined.
    destruct pa as [pa|], pb as [pb|], st, win as [win|]; simpl; split_and!; try done.
    all: by intros [] p; simpl.
  - intros [[b [pa pb] sp ct win st pd] socks lg]. unfold Part001.join, joined.
    destruct pa as [pa|], pb as [pb|], st, win as [win|]; simpl; split_and!; try done.
    all: by intros [] p; simpl.
Qed.

Lemma part001_restart_outcome w :
  Part001.board (Part001.room (Part001.restart w)) = empty_board ∧
  hands_full (Part001.players (Part001.room (Part001.restart w))) ∧
  Part001.players (Part001.room (Part001.restart w))
  = reset_hands (Part001.players (Part001.room w)) ∧
  Part001.started (Part001.room (Part001.restart w))
  = both_seated (Part001.players (Part001.room (Part001.restart w))) ∧
  Part001.currentTurn (Part001.room (Part001.restart w))
  = (if both_seated (Part001.players (Part001.room (Part001.restart w)))
     then Some A else None) ∧
  emitted_since (Part001.log w) (Part001.log (Part001.restart w))
  = (if both_seated (Part001.players (Part001.room (Part001.restart w)))
     then [start_game; chat_message new_game_notice]
     else [update_state; chat_message waiting_notice]).
Proof.
  unfold Part001.restart, emitted_since.
  destruct (both_seated (reset_hands _)) eqn:Hboth; simpl; rewrite Hboth.
  all: split_and!; [done|apply hands_full_reset|done|done|done|].
  all: by rewrite <-app_assoc, drop_app_length.
Qed.

(** Whatever the decisions were, [resolveGameDecisions] of part_001 leaves an
    empty board and full hands for whoever is seated; the match is started
    exactly when both seats are taken, with A to move, and otherwise no turn
    is set; the run ends with the start (or the update) broadcast and the
    system chat line that goes with it. *)
Theorem part001_resolution_starts_afresh w :
  Part001.board (Part001.room (Part001.resolveGameDecisions w)) = empty_board ∧
  hands_full (Part001.players (Part001.room (Part001.resolveGameDecisions w))) ∧
  Part001.started (Part001.room (Part001.resolveGameDecisions w))
  = both_seated (Part001.players (Part001.room (Part001.resolveGameDecisions w))) ∧
  Part001.currentTurn (Part001.room (Part001.resolveGameDecisions w))
  = (if both_seated (Part001.players (Part001.room (Part001.resolveGameDecisions w)))
     then Some A else None) ∧
  ∃ before,
    Part001.log (Part001.resolveGameDecisions w)
    = before ++
      (if both_seated (Part001.players (Part001.room (Part001.resolveGameDecisions w)))
       then [start_game; chat_message new_game_notice]
       else [update_state; chat_message waiting_notice]).
Proof.
  unfold Part001.resolveGameDecisions.
  match goal with |- context [Part001.restart ?x] => set (w1 := x) end.
  destruct (part001_restart_outcome w1) as (Hb & Hh & _ & Hst & Ht & _).
  split_and!; [done..|].
  unfold Part001.restart. destruct (both_seated (reset_hands _)) eqn:Hboth; simpl; rewrite Hboth.
  all: eexists; by rewrite <-app_assoc.
Qed.

(** When the connection of a seated player of part_001 drops while no winner
    is recorded, the seat is emptied and the match is marked not started; no
    spectator is promoted, and board, turn, queue and the other seat are as
    they were. *)
Theorem part001_player_disconnect_midgame sid d slot w :
  Part001.sockets w !! sid = Some d →
  is_Some (roomID d) →
  playerSlot d = Some (player slot) →
  Part001.winner (Part001.room w) = None →
  seat (Part001.players (Part001.room (Part001.disconnect sid w))) slot = None ∧
  seat (Part001.players (Part001.room (Part001.disconnect sid w))) (other_slot slot)
  = seat (Part001.players (Part001.room w)) (other_slot slot) ∧
  Part001.started (Part001.room (Part001.disconnect sid w)) = false ∧
  Part001.spectators (Part001.room (Part001.disconnect sid w))
  = Part001.spectators (Part001.room w) ∧
  Part001.board (Part001.room (Part001.disconnect sid w)) = Part001.board (Part001.room w) ∧
  Part001.currentTurn (Part001.room (Part001.disconnect sid w))
  = Part001.currentTurn (Part001.room w) ∧
  Part001.sockets (Part001.disconnect sid w) = delete sid (Part001.sockets w) ∧
  Part001.log (Part001.disconnect sid w) = Part001.log w ++ [update_state].
Proof.
  intros Hd [rid Hrid] Hslot Hwin. unfold Part001.disconnect.
  rewrite Hd, Hrid, Hslot. simpl. rewrite Hwin. simpl.
  split_and!; try done; by destruct slot.
Qed.

Lemma part001_player_disconnect_midgame_witness :
  Part001.started (Part001.room (Part001.disconnect "a1" part001_running)) = false ∧
  pl_A (Part001.players (Part001.room (Part001.disconnect "a1" part001_running))) = None.
Proof.
  destruct (part001_player_disconnect_midgame "a1" (bound (player A)) A part001_running)
    as (Hseat & _ & Hst & _); [reflexivity|by eexists|reflexivity|reflexivity|].
  split; [exact Hst|exact Hseat].
Defined.

End Seats.
